(** * Dynamic Azan Scheduler: a shallow embedding of [azan_google_home.py]

    The development follows the layout of the script:
    - [PyStr]: the fragment of Python's [str] and [int] that [parse_time] uses;
    - [Json] and [Py]: decoded response bodies and the container operations
      applied to them;
    - naive [datetime] values, [timedelta] arithmetic and [strftime];
    - the effect layer: one world (clock, job store of the [schedule] module,
      cast devices, console) threaded through a state-and-exception monad;
    - [Schedule]: the three entry points of the [schedule] package in use;
    - the functions of the script, in the order of the source;
    - theorems.

    Conventions.  Text is restricted to ASCII.  A [datetime.date] is its
    proleptic ordinal (a day number) and a naive [datetime.datetime] is a count
    of microseconds, so that [datetime.datetime(d.year, d.month, d.day, hh, mm)]
    is [d * DAY + hh * HOUR + mm * MINUTE]; the bounds [MINYEAR]/[MAXYEAR]
    are not represented.  The interpreter is CPython (3.11 or later) in its
    default configuration: [int] refuses a literal of more than 4300
    digits, and the [datetime] constructor converts its arguments to a C
    [int] of 32 bits.
    Time passes only inside [time.sleep]: every other statement is
    instantaneous. *)

From Stdlib Require Import ZArith QArith List String Ascii Bool Lia.
Import ListNotations.

Set Warnings "-register-all".

Local Open Scope string_scope.
Local Open Scope Z_scope.

(* ================================================================== *)
(** ** Python strings and [int] *)
(* ================================================================== *)

Module PyStr.

(** [str.isspace] on one ASCII character: TAB..CR, FS..US and SPACE. *)
Definition is_space (c : ascii) : bool :=
  let n := nat_of_ascii c in
  (((9 <=? n) && (n <=? 13)) || ((28 <=? n) && (n <=? 32)))%nat.

Definition is_digit (c : ascii) : bool :=
  let n := nat_of_ascii c in ((48 <=? n) && (n <=? 57))%nat.

Definition digit_val (c : ascii) : Z := Z.of_nat (nat_of_ascii c) - 48.

Definition is_empty (s : string) : bool :=
  match s with EmptyString => true | String _ _ => false end.

Fixpoint lstrip (s : string) : string :=
  match s with
  | EmptyString => EmptyString
  | String c r => if is_space c then lstrip r else s
  end.

Fixpoint rstrip (s : string) : string :=
  match s with
  | EmptyString => EmptyString
  | String c r =>
      let r' := rstrip r in
      if is_space c && is_empty r' then EmptyString else String c r'
  end.

(** [s.strip()] *)
Definition strip (s : string) : string := rstrip (lstrip s).

(** [s.split(sep)] for a one-character separator: never the empty list. *)
Fixpoint split (sep : ascii) (s : string) : list string :=
  match s with
  | EmptyString => [EmptyString]
  | String c r =>
      if Ascii.eqb c sep then EmptyString :: split sep r
      else match split sep r with
           | [] => [String c EmptyString]
           | p :: ps => String c p :: ps
           end
  end.

(** [s.split(sep)[0]] *)
Definition split_head (sep : ascii) (s : string) : string :=
  match split sep s with
  | [] => EmptyString
  | p :: _ => p
  end.

(** The digits of a decimal literal read after a first digit: single
    underscores are allowed between two digits. *)
Fixpoint digits_from (acc : Z) (s : string) : option Z :=
  match s with
  | EmptyString => Some acc
  | String c r =>
      if is_digit c then digits_from (10 * acc + digit_val c) r
      else if Ascii.eqb c "_" then
        match r with
        | String d r' =>
            if is_digit d then digits_from (10 * acc + digit_val d) r'
            else None
        | EmptyString => None
        end
      else None
  end.

Definition digits (s : string) : option Z :=
  match s with
  | String c r => if is_digit c then digits_from (digit_val c) r else None
  | EmptyString => None
  end.

(** The blanks [int] skips around a literal given as an ASCII [str]: TAB..CR
    and SPACE.  FS..US are blanks for [str.strip], not for [int]. *)
Definition is_c_space (c : ascii) : bool :=
  let n := nat_of_ascii c in
  (((9 <=? n) && (n <=? 13)) || (n =? 32))%nat.

Fixpoint skip_left (s : string) : string :=
  match s with
  | EmptyString => EmptyString
  | String c r => if is_c_space c then skip_left r else s
  end.

Fixpoint skip_right (s : string) : string :=
  match s with
  | EmptyString => EmptyString
  | String c r =>
      let r' := skip_right r in
      if is_c_space c && is_empty r' then EmptyString else String c r'
  end.

(** The default of [sys.get_int_max_str_digits()]. *)
Definition max_str_digits : Z := 4300.

Fixpoint count_digits (s : string) : Z :=
  match s with
  | EmptyString => 0
  | String c r => (if is_digit c then 1 else 0) + count_digits r
  end.

(** A decimal literal without its sign: refused when it has more digits
    than the limit. *)
Definition literal (s : string) : option Z :=
  if count_digits s <=? max_str_digits then digits s else None.

(** [int(s)] in base 10; [None] stands for [ValueError]. *)
Definition int (s : string) : option Z :=
  match skip_right (skip_left s) with
  | EmptyString => None
  | String c r =>
      if Ascii.eqb c "-" then option_map Z.opp (literal r)
      else if Ascii.eqb c "+" then literal r
      else literal (String c r)
  end.

(** [c in s] for one character *)
Fixpoint mem (c : ascii) (s : string) : bool :=
  match s with
  | EmptyString => false
  | String d r => Ascii.eqb d c || mem c r
  end.

Fixpoint all_space (s : string) : bool :=
  match s with
  | EmptyString => true
  | String c r => is_space c && all_space r
  end.

(** [sub in s] for strings *)
Fixpoint contains (sub s : string) : bool :=
  String.prefix sub s ||
  match s with
  | EmptyString => false
  | String _ r => contains sub r
  end.

End PyStr.

(* ================================================================== *)
(** ** Exceptions and results *)
(* ================================================================== *)

(** The exception classes the script can meet.  All of them derive from
    [Exception], so a handler [except Exception] and a bare [except] catch
    the same ones here. *)
Inductive Exn : Type :=
| ValueError
| OverflowError
| KeyError
| TypeError
| AttributeError
| ConnectionError      (* requests.exceptions.ConnectionError *)
| JSONDecodeError      (* raised by resp.json() *)
| CastError.           (* any error of the cast client *)

(** The result of running a statement: a value, a raised exception, or
    [NoFuel] when a bounded unrolling of a loop was too short. *)
Inductive Res (A : Type) : Type :=
| Ok (a : A)
| Raise (e : Exn)
| NoFuel.
Arguments Ok {A} a.
Arguments Raise {A} e.
Arguments NoFuel {A}.

(* ================================================================== *)
(** ** [parse_time] *)
(* ================================================================== *)

(** [base = t_str.split('(')[0].strip()] *)
Definition time_base (t_str : string) : string :=
  PyStr.strip (PyStr.split_head "(" t_str).

(** The unpacking [hh_str, mm_str = base.split(":")] raises [ValueError]
    unless the list has exactly two items; so does [int] on a bad literal. *)
Definition parse_time (t_str : string) : Res (Z * Z) :=
  match PyStr.split ":" (time_base t_str) with
  | [hh_str; mm_str] =>
      match PyStr.int hh_str with
      | None => Raise ValueError
      | Some hh =>
          match PyStr.int mm_str with
          | None => Raise ValueError
          | Some mm => Ok (hh, mm)
          end
      end
  | _ => Raise ValueError
  end.

(* ================================================================== *)
(** ** Decoded JSON bodies *)
(* ================================================================== *)

(** What [resp.json()] can return.  The value of a number plays no role. *)
Inductive Json : Type :=
| JNull
| JBool (b : bool)
| JNum (n : Z)
| JStr (s : string)
| JArr (items : list Json)
| JObj (fields : list (string * Json)).

Module Py.

Definition is_str (key : string) (j : Json) : bool :=
  match j with JStr s => String.eqb s key | _ => false end.

(** A decoded object keeps the last of several bindings of one key. *)
Definition dict_get (key : string) (fields : list (string * Json)) : option Json :=
  fold_left (fun acc kv => if String.eqb (fst kv) key then Some (snd kv) else acc)
            fields None.

(** [key in container] for a string [key] *)
Definition contains (key : string) (container : Json) : Res bool :=
  match container with
  | JObj fields => Ok (existsb (fun kv => String.eqb (fst kv) key) fields)
  | JArr items => Ok (existsb (is_str key) items)
  | JStr s => Ok (PyStr.contains key s)
  | JNull | JBool _ | JNum _ => Raise TypeError
  end.

(** [container[key]] for a string [key] *)
Definition getitem (container : Json) (key : string) : Res Json :=
  match container with
  | JObj fields =>
      match dict_get key fields with
      | Some v => Ok v
      | None => Raise KeyError
      end
  | _ => Raise TypeError
  end.

End Py.

(* ================================================================== *)
(** ** Dates, datetimes and time deltas *)
(* ================================================================== *)

Definition SECOND : Z := 1000000.
Definition MINUTE : Z := 60 * SECOND.
Definition HOUR : Z := 60 * MINUTE.
Definition DAY : Z := 24 * HOUR.

(** The range of a C [int]. *)
Definition INT_MIN : Z := -2147483648.
Definition INT_MAX : Z := 2147483647.

Definition fits_c_int (n : Z) : bool := (INT_MIN <=? n) && (n <=? INT_MAX).

(** [datetime.datetime(d.year, d.month, d.day, hh, mm)]: the arguments are
    first converted to C [int]s, hour before minute ([OverflowError] when
    one does not fit), and then checked against their ranges
    ([ValueError]). *)
Definition mk_datetime (date_obj hh mm : Z) : Res Z :=
  if negb (fits_c_int hh) then Raise OverflowError
  else if negb (fits_c_int mm) then Raise OverflowError
  else if (0 <=? hh) && (hh <=? 23) && (0 <=? mm) && (mm <=? 59)
  then Ok (date_obj * DAY + hh * HOUR + mm * MINUTE)
  else Raise ValueError.

(** [dt.strftime("%H:%M")], kept as the pair the text denotes. *)
Definition strftime_HM (dt : Z) : Z * Z :=
  ((dt mod DAY) / HOUR, ((dt mod DAY) / MINUTE) mod 60).

(** [dt.date()] as an ordinal *)
Definition date_of (dt : Z) : Z := dt / DAY.

(* ================================================================== *)
(** ** The data of the script *)
(* ================================================================== *)

Inductive Prayer : Type := Fajr | Dhuhr | Asr | Maghrib | Isha.

(** The dict built by [get_prayer_times_for_date]: five keys, in this
    insertion order, holding whatever the body had under them. *)
Record PrayerTimes : Type := {
  pt_Fajr : Json;
  pt_Dhuhr : Json;
  pt_Asr : Json;
  pt_Maghrib : Json;
  pt_Isha : Json }.

(** [prayer_times.items()] *)
Definition items (pt : PrayerTimes) : list (Prayer * Json) :=
  [(Fajr, pt_Fajr pt); (Dhuhr, pt_Dhuhr pt); (Asr, pt_Asr pt);
   (Maghrib, pt_Maghrib pt); (Isha, pt_Isha pt)].

(** The two callables handed to [schedule]: [play_azan] itself, and the
    closure [reminder_closure(pr=prayer, sch=sch_time)]. *)
Inductive Action : Type :=
| PlayAzan
| ReminderClosure (pr : Prayer) (sch : Z * Z).

(** A job of the [schedule] module: the time of day given to [at], the
    callable given to [do], and the instant of its next run. *)
Record Job : Type := {
  at_time : Z * Z;
  job_func : Action;
  next_run : Z }.

Record Chromecast : Type := {
  cc_name : string;
  cc_host : string }.

(** The USER CONFIG block. *)
Record Config : Type := {
  CITY : string;
  COUNTRY : string;
  METHOD : Z;
  TEST_TIME : string;
  TARGET_DEVICE_NAME : string;
  AZAN_URL : string;
  AZAN_VOLUME : Q }.

Definition user_config : Config := {|
  CITY := "Madrid";
  COUNTRY := "Spain";
  METHOD := 3;
  TEST_TIME := "";
  TARGET_DEVICE_NAME := "Parents Room speaker";
  AZAN_URL := "https://www.islamcan.com/audio/adhan/azan1.mp3";
  AZAN_VOLUME := 1%Q |}.

(** The request [requests.get] is given: the date in the path and the three
    query parameters. *)
Record Query : Type := {
  q_date : Z;
  q_city : string;
  q_country : string;
  q_method : Z }.

(** What [requests.get] does: raise, or hand back a response with a status
    code and a body that [resp.json()] decodes ([None]: it raises). *)
Inductive HttpResult : Type :=
| HttpRaises (e : Exn)
| HttpResponse (status_code : Z) (body : option Json).

(** Console lines, one constructor per [print] of the script. *)
Inductive Msg : Type :=
| MFetching (date_obj : Z)
| MNoValidTimes
| MSearching
| MFound (n : nat)
| MTargetMissing
| MTarget (cast : Chromecast)
| MStart
| MAbort
| MOriginalVolume (v : Q)
| MVolumeSet
| MVolumeSetFailed (e : Exn)
| MAttemptPlay
| MPlaying
| MPlayError (e : Exn)
| MRestored (v : Q)
| MRestoreFailed (e : Exn)
| MAzanError (e : Exn)
| MTestCheck (s : string)
| MTestInvalid (s : string)
| MTestScheduled (sch_time : Z * Z)
| MTestPassed (s : string)
| MSchedulingFor (date_obj : Z)
| MTimeOf (p : Prayer) (t_str : Json)
| MScheduled (p : Prayer) (sch_time : Z * Z)
| MReminderSet (p : Prayer) (ten_min_notice : Z * Z)
| MPassed (p : Prayer) (t_str : Json)
| MReminder (pr : Prayer) (sch : Z * Z)
| MRetryInHour
| MIshaPassed.

(** Everything the process does that can be observed from outside, in
    order: console lines, sleeps, HTTP requests, calls on the cast client.
    [ERun i j] records that [run_pending] starts job number [i] of the
    store, whose fields are [j]. *)
Inductive Event : Type :=
| EPrint (m : Msg)
| ESleep (seconds : Z)
| EGet (q : Query)
| EDiscover
| EWait (cast : Chromecast)
| ESetVolume (cast : Chromecast) (v : Q)
| EPlayMedia (cast : Chromecast) (url mime : string)
| EPlay (cast : Chromecast)
| ERun (i : nat) (j : Job).

(* ================================================================== *)
(** ** The world and the monad of statements *)
(* ================================================================== *)

(** What a call on a collaborator does: return or raise. *)
Inductive Reply (A : Type) : Type :=
| Returns (a : A)
| Throws (e : Exn).
Arguments Returns {A} a.
Arguments Throws {A} e.

Definition reply {A} (r : Reply A) : Res A :=
  match r with
  | Returns a => Ok a
  | Throws e => Raise e
  end.

(** The collaborators the script talks to, as an interface: the HTTP client
    answers a query made at a given instant; the cast client reads and
    changes the state [Dev] of the devices, and any of its calls may raise. *)
Record Env (Dev : Type) : Type := {
  requests_get : Query -> Z -> HttpResult;
  get_chromecasts : Dev -> Reply (list Chromecast) * Dev;
  cast_wait : Chromecast -> Dev -> Reply unit * Dev;
  volume_level : Chromecast -> Dev -> Reply Q;
  set_volume : Chromecast -> Q -> Dev -> Reply unit * Dev;
  play_media : Chromecast -> string -> string -> Dev -> Reply unit * Dev;
  mc_play : Chromecast -> Dev -> Reply unit * Dev }.
Arguments requests_get {Dev} _ _ _.
Arguments get_chromecasts {Dev} _ _.
Arguments cast_wait {Dev} _ _ _.
Arguments volume_level {Dev} _ _ _.
Arguments set_volume {Dev} _ _ _ _.
Arguments play_media {Dev} _ _ _ _ _.
Arguments mc_play {Dev} _ _ _.

(** The state of the process: the wall clock, the job list of the default
    scheduler of the [schedule] module, the devices, and what was observed
    so far (oldest first). *)
Record World (Dev : Type) : Type := mkWorld {
  now : Z;
  jobs : list Job;
  dev : Dev;
  out : list Event }.
Arguments mkWorld {Dev} _ _ _ _.
Arguments now {Dev} _.
Arguments jobs {Dev} _.
Arguments dev {Dev} _.
Arguments out {Dev} _.

Definition M (Dev A : Type) : Type := World Dev -> Res A * World Dev.

Definition ret {Dev A} (a : A) : M Dev A := fun w => (Ok a, w).

Definition bind {Dev A B} (m : M Dev A) (k : A -> M Dev B) : M Dev B :=
  fun w =>
    match m w with
    | (Ok a, w') => k a w'
    | (Raise e, w') => (Raise e, w')
    | (NoFuel, w') => (NoFuel, w')
    end.

Notation "x <- m ;; k" := (bind m (fun x => k))
  (at level 61, m at next level, right associativity).
Notation "m ;; k" := (bind m (fun _ => k))
  (at level 61, right associativity).

(** [raise e] *)
Definition raise {Dev A} (e : Exn) : M Dev A := fun w => (Raise e, w).

(** A pure computation that may raise. *)
Definition lift {Dev A} (r : Res A) : M Dev A := fun w => (r, w).

(** [try: body  except Exception as e: handler(e)] *)
Definition try_except {Dev A} (body : M Dev A) (handler : Exn -> M Dev A) : M Dev A :=
  fun w =>
    match body w with
    | (Raise e, w') => handler e w'
    | r => r
    end.

Definition emit {Dev} (e : Event) : M Dev unit :=
  fun w => (Ok tt, mkWorld (now w) (jobs w) (dev w) (out w ++ [e])).

Definition print {Dev} (m : Msg) : M Dev unit := emit (EPrint m).

(** [datetime.datetime.now()] *)
Definition datetime_now {Dev} : M Dev Z := fun w => (Ok (now w), w).

(** [time.sleep(seconds)] *)
Definition sleep {Dev} (seconds : Z) : M Dev unit :=
  fun w => (Ok tt, mkWorld (now w + seconds * SECOND) (jobs w) (dev w)
                           (out w ++ [ESleep seconds])).

(** A call on the cast client that changes the devices. *)
Definition dev_call {Dev A} (e : Event) (op : Dev -> Reply A * Dev) : M Dev A :=
  emit e ;;
  fun w => (reply (fst (op (dev w))),
            mkWorld (now w) (jobs w) (snd (op (dev w))) (out w)).

(* ================================================================== *)
(** ** The [schedule] module *)
(* ================================================================== *)

(** The third-party [schedule] package is not part of the repository.  The
    script uses three entry points of its default scheduler, modelled here
    after the package's documented behaviour:
    - [every().day.at("HH:MM").do(f)] appends a daily job whose next run is
      the first instant strictly after now at which the wall clock reads
      HH:MM:00 (the package is told a time of day only, never a date);
    - [run_pending()] collects the jobs whose next run is not after now,
      sorts them by next run (a stable sort) and runs them in that order,
      rescheduling each after its run;
    - [clear()] deletes every job. *)
Module Schedule.

Definition next_occurrence (now_ : Z) (hm : Z * Z) : Z :=
  let t := (now_ / DAY) * DAY + fst hm * HOUR + snd hm * MINUTE in
  if now_ <? t then t else t + DAY.

Definition set_jobs {Dev} (js : list Job) : M Dev unit :=
  fun w => (Ok tt, mkWorld (now w) js (dev w) (out w)).

Definition get_jobs {Dev} : M Dev (list Job) := fun w => (Ok (jobs w), w).

(** [schedule.every().day.at(sch_time).do(f)] *)
Definition every_day_at_do {Dev} (sch_time : Z * Z) (f : Action) : M Dev unit :=
  t <- datetime_now ;;
  js <- get_jobs ;;
  set_jobs (js ++ [{| at_time := sch_time; job_func := f;
                      next_run := next_occurrence t sch_time |}]).

(** [schedule.clear()] *)
Definition clear {Dev} : M Dev unit := set_jobs [].

(** The jobs that should run at instant [t], by position in the store. *)
Fixpoint runnable (t : Z) (i : nat) (js : list Job) : list (nat * Z) :=
  match js with
  | [] => []
  | j :: js' =>
      if next_run j <=? t then (i, next_run j) :: runnable t (S i) js'
      else runnable t (S i) js'
  end.

Fixpoint insert (x : nat * Z) (l : list (nat * Z)) : list (nat * Z) :=
  match l with
  | [] => [x]
  | y :: l' => if snd y <? snd x then y :: insert x l' else x :: l
  end.

(** [sorted(...)] on next runs; equal keys keep their order. *)
Definition sorted (l : list (nat * Z)) : list (nat * Z) :=
  fold_right insert [] l.

Fixpoint replace_nth (i : nat) (j : Job) (js : list Job) : list Job :=
  match js, i with
  | [], _ => []
  | _ :: js', O => j :: js'
  | j0 :: js', S i' => j0 :: replace_nth i' j js'
  end.

(** [job.run()]: call the job function, then move the next run to the
    next occurrence of the job's time of day. *)
Definition run_job {Dev} (exec : Action -> M Dev unit) (i : nat) : M Dev unit :=
  js <- get_jobs ;;
  match nth_error js i with
  | None => ret tt
  | Some j =>
      emit (ERun i j) ;;
      exec (job_func j) ;;
      t <- datetime_now ;;
      js' <- get_jobs ;;
      set_jobs (replace_nth i {| at_time := at_time j; job_func := job_func j;
                                 next_run := next_occurrence t (at_time j) |} js')
  end.

Fixpoint run_all {Dev} (exec : Action -> M Dev unit) (l : list (nat * Z)) : M Dev unit :=
  match l with
  | [] => ret tt
  | x :: l' => run_job exec (fst x) ;; run_all exec l'
  end.

(** [schedule.run_pending()] *)
Definition run_pending {Dev} (exec : Action -> M Dev unit) : M Dev unit :=
  t <- datetime_now ;;
  js <- get_jobs ;;
  run_all exec (sorted (runnable t 0 js)).

End Schedule.

(* ================================================================== *)
(** ** The script *)
(* ================================================================== *)

(** [parse_time] applied to a value of the dict: anything but a string has
    no [split] attribute. *)
Definition parse_time_of (t_str : Json) : Res (Z * Z) :=
  match t_str with
  | JStr s => parse_time s
  | _ => Raise AttributeError
  end.

Fixpoint for_each {Dev A} (body : A -> M Dev unit) (l : list A) : M Dev unit :=
  match l with
  | [] => ret tt
  | x :: l' => body x ;; for_each body l'
  end.

Section Script.

Context {Dev : Type} (env : Env Dev) (cfg : Config).

(** [requests.get(url)] *)
Definition http_get (q : Query) : M Dev (Z * option Json) :=
  emit (EGet q) ;;
  t <- datetime_now ;;
  match requests_get env q t with
  | HttpRaises e => raise e
  | HttpResponse status_code body => ret (status_code, body)
  end.

(** [resp.json()] *)
Definition resp_json (body : option Json) : M Dev Json :=
  match body with
  | Some data => ret data
  | None => raise JSONDecodeError
  end.

Definition get_prayer_times_for_date (date_obj : Z) (city country : string)
    (method : Z) : M Dev (option PrayerTimes) :=
  print (MFetching date_obj) ;;
  resp <- http_get {| q_date := date_obj; q_city := city;
                      q_country := country; q_method := method |} ;;
  let no_valid_times := (print MNoValidTimes ;; ret None) in
  if fst resp =? 200 then
    data <- resp_json (snd resp) ;;
    has_data <- lift (Py.contains "data" data) ;;
    has_timings <- (if has_data : bool
                    then inner <- lift (Py.getitem data "data") ;;
                         lift (Py.contains "timings" inner)
                    else ret false) ;;
    if has_timings : bool then
      inner <- lift (Py.getitem data "data") ;;
      t <- lift (Py.getitem inner "timings") ;;
      fajr <- lift (Py.getitem t "Fajr") ;;
      dhuhr <- lift (Py.getitem t "Dhuhr") ;;
      asr <- lift (Py.getitem t "Asr") ;;
      maghrib <- lift (Py.getitem t "Maghrib") ;;
      isha <- lift (Py.getitem t "Isha") ;;
      ret (Some {| pt_Fajr := fajr; pt_Dhuhr := dhuhr; pt_Asr := asr;
                   pt_Maghrib := maghrib; pt_Isha := isha |})
    else no_valid_times
  else no_valid_times.

Definition connect_to_google_home : M Dev (option Chromecast) :=
  print MSearching ;;
  chromecasts <- dev_call EDiscover (get_chromecasts env) ;;
  print (MFound (List.length chromecasts)) ;;
  match find (fun c => String.eqb (cc_name c) (TARGET_DEVICE_NAME cfg)) chromecasts with
  | None => print MTargetMissing ;; ret None
  | Some cast =>
      print (MTarget cast) ;;
      dev_call (EWait cast) (cast_wait env cast) ;;
      ret (Some cast)
  end.

(** [cast.status.volume_level] *)
Definition status_volume_level (cast : Chromecast) : M Dev Q :=
  fun w => (reply (volume_level env cast (dev w)), w).

Definition cast_set_volume (cast : Chromecast) (v : Q) : M Dev unit :=
  dev_call (ESetVolume cast v) (set_volume env cast v).

Definition mc_play_media (cast : Chromecast) (url mime : string) : M Dev unit :=
  dev_call (EPlayMedia cast url mime) (play_media env cast url mime).

Definition media_play (cast : Chromecast) : M Dev unit :=
  dev_call (EPlay cast) (mc_play env cast).

Definition play_azan : M Dev unit :=
  print MStart ;;
  try_except
    (cast <- connect_to_google_home ;;
     match cast with
     | None => print MAbort
     | Some cast =>
         original_volume <- status_volume_level cast ;;
         print (MOriginalVolume original_volume) ;;
         try_except
           (cast_set_volume cast (AZAN_VOLUME cfg) ;; print MVolumeSet)
           (fun e => print (MVolumeSetFailed e)) ;;
         try_except
           (print MAttemptPlay ;;
            mc_play_media cast (AZAN_URL cfg) "audio/mp3" ;;
            sleep 2 ;;
            media_play cast ;;
            print MPlaying)
           (fun e => print (MPlayError e)) ;;
         sleep 180 ;;
         try_except
           (cast_set_volume cast original_volume ;;
            print (MRestored original_volume))
           (fun e => print (MRestoreFailed e))
     end)
    (fun e => print (MAzanError e)).

Definition schedule_test_time (date_obj : Z) (test_time_str : string) : M Dev unit :=
  if PyStr.is_empty test_time_str then ret tt
  else
    print (MTestCheck test_time_str) ;;
    parsed <- try_except
                (hm <- lift (parse_time test_time_str) ;; ret (Some hm))
                (fun _ => print (MTestInvalid test_time_str) ;; ret None) ;;
    match parsed with
    | None => ret tt
    | Some (hh, mm) =>
        dt_test <- lift (mk_datetime date_obj hh mm) ;;
        now_ <- datetime_now ;;
        if now_ <? dt_test then
          let sch_time := strftime_HM dt_test in
          Schedule.every_day_at_do sch_time PlayAzan ;;
          print (MTestScheduled sch_time)
        else print (MTestPassed test_time_str)
    end.

(** The body of the second loop of [schedule_daily_prayers]. *)
Definition schedule_prayer (date_obj : Z) (prayer : Prayer) (t_str : Json) : M Dev unit :=
  hm <- lift (parse_time_of t_str) ;;
  dt_prayer <- lift (mk_datetime date_obj (fst hm) (snd hm)) ;;
  let dt_one_min_early := dt_prayer - 1 * MINUTE in
  now_ <- datetime_now ;;
  if now_ <? dt_one_min_early then
    let sch_time := strftime_HM dt_one_min_early in
    Schedule.every_day_at_do sch_time PlayAzan ;;
    print (MScheduled prayer sch_time) ;;
    let ten_min_before := dt_prayer - 10 * MINUTE in
    if now_ <? ten_min_before then
      let ten_min_notice := strftime_HM ten_min_before in
      Schedule.every_day_at_do ten_min_notice (ReminderClosure prayer sch_time) ;;
      print (MReminderSet prayer ten_min_notice)
    else ret tt
  else print (MPassed prayer t_str).

Definition schedule_daily_prayers (date_obj : Z) (prayer_times : PrayerTimes) : M Dev unit :=
  print (MSchedulingFor date_obj) ;;
  for_each (fun pt => print (MTimeOf (fst pt) (snd pt))) (items prayer_times) ;;
  for_each (fun pt => schedule_prayer date_obj (fst pt) (snd pt)) (items prayer_times).

(** Calling a job function. *)
Definition call (f : Action) : M Dev unit :=
  match f with
  | PlayAzan => play_azan
  | ReminderClosure pr sch => print (MReminder pr sch)
  end.

(** The inner [while True] of [main_loop], unrolled at most [fuel] times. *)
Fixpoint wait_isha (fuel : nat) (dt_isha : Z) : M Dev unit :=
  match fuel with
  | O => fun w => (NoFuel, w)
  | S fuel' =>
      now_ <- datetime_now ;;
      if dt_isha <? now_ then print MIshaPassed
      else
        Schedule.run_pending call ;;
        sleep 30 ;;
        wait_isha fuel' dt_isha
  end.

(** One pass through the body of the outer [while True]: the value is the
    [current_day] the next pass starts with. *)
Definition cycle (fuel : nat) (city country : string) (method : Z)
    (current_day : Z) : M Dev Z :=
  Schedule.clear ;;
  prayer_times <- get_prayer_times_for_date current_day city country method ;;
  match prayer_times with
  | None =>
      print MRetryInHour ;;
      sleep 3600 ;;
      ret current_day
  | Some prayer_times =>
      schedule_daily_prayers current_day prayer_times ;;
      schedule_test_time current_day (TEST_TIME cfg) ;;
      isha <- lift (parse_time_of (pt_Isha prayer_times)) ;;
      dt_isha <- lift (mk_datetime current_day (fst isha) (snd isha)) ;;
      wait_isha fuel dt_isha ;;
      ret (current_day + 1)
  end.

Fixpoint cycles (n fuel : nat) (city country : string) (method : Z)
    (current_day : Z) : M Dev Z :=
  match n with
  | O => ret current_day
  | S n' =>
      next_day <- cycle fuel city country method current_day ;;
      cycles n' fuel city country method next_day
  end.

(** [main_loop(city, country, method)], observed for its first [n] passes. *)
Definition main_loop (n fuel : nat) (city country : string) (method : Z) : M Dev Z :=
  t <- datetime_now ;;
  let current_day := date_of t in
  cycles n fuel city country method current_day.

End Script.

(* ================================================================== *)
(** ** Concrete collaborators, for running the script *)
(* ================================================================== *)

(** A body as the time service sends it, with the five timings given. *)
Definition timings_body (fajr dhuhr asr maghrib isha : Json) : Json :=
  JObj [("code", JNum 200);
        ("data", JObj [("timings",
                        JObj [("Fajr", fajr); ("Sunrise", JStr "07:01");
                              ("Dhuhr", dhuhr); ("Asr", asr);
                              ("Maghrib", maghrib); ("Isha", isha)])])].

(** One speaker on the network: its volume and the number of commands it
    was sent.  When [flaky_volume] is set its first volume command fails,
    when [flaky_media] is set every media command fails. *)
Record Speaker : Type := {
  sp_volume : Q;
  sp_commands : nat }.

Definition sent (d : Speaker) : Speaker :=
  {| sp_volume := sp_volume d; sp_commands := S (sp_commands d) |}.

Definition speaker_env (names : list string) (flaky_volume flaky_media : bool)
    (answer : Query -> Z -> HttpResult) : Env Speaker := {|
  requests_get := answer;
  get_chromecasts := fun d =>
    (Returns (map (fun n => {| cc_name := n; cc_host := "192.168.1.20" |}) names), d);
  cast_wait := fun _ d => (Returns tt, d);
  volume_level := fun _ d => Returns (sp_volume d);
  set_volume := fun _ v d =>
    if flaky_volume && Nat.eqb (sp_commands d) 0 then (Throws CastError, sent d)
    else (Returns tt, {| sp_volume := v; sp_commands := S (sp_commands d) |});
  play_media := fun _ _ _ d =>
    if flaky_media then (Throws CastError, sent d) else (Returns tt, sent d);
  mc_play := fun _ d =>
    if flaky_media then (Throws CastError, sent d) else (Returns tt, sent d) |}.

(** The day of the end-to-end scenario of the design notes. *)
Definition scenario_times : PrayerTimes := {|
  pt_Fajr := JStr "05:12";
  pt_Dhuhr := JStr "13:05";
  pt_Asr := JStr "16:40";
  pt_Maghrib := JStr "19:58";
  pt_Isha := JStr "21:20" |}.

Definition scenario_answer (q : Query) (t : Z) : HttpResult :=
  HttpResponse 200
    (Some (timings_body (JStr "05:12") (JStr "13:05") (JStr "16:40")
                        (JStr "19:58 (CEST)") (JStr "21:20 (CEST)"))).

(** A process image at instant [t]: nothing scheduled, nothing printed, the
    speaker at 40%. *)
Definition boot (t : Z) : World Speaker :=
  mkWorld t [] {| sp_volume := 4 # 10; sp_commands := 0 |} [].

(** The time-of-day and callable of a job: what the script asks for. *)
Definition job_event (j : Job) : (Z * Z) * Action := (at_time j, job_func j).

Definition is_alert (j : Job) : bool :=
  match job_func j with PlayAzan => true | ReminderClosure _ _ => false end.

Definition is_reminder (j : Job) : bool := negb (is_alert j).

(** The commands sent to the cast devices, in order. *)
Definition is_command (e : Event) : bool :=
  match e with
  | ESetVolume _ _ | EPlayMedia _ _ _ | EPlay _ => true
  | _ => false
  end.

Definition commands (tr : list Event) : list Event := filter is_command tr.

(** [at_clock d hh mm ss]: the instant hh:mm:ss of day [d]. *)
Definition at_clock (d hh mm ss : Z) : Z :=
  d * DAY + hh * HOUR + mm * MINUTE + ss * SECOND.

(** Decimal text of a small number, for statements about [parse_time]. *)
Definition digit_char (n : Z) : ascii := ascii_of_nat (48 + Z.to_nat n).

Definition one_digit (n : Z) : string := String (digit_char n) EmptyString.

Definition two_digits (n : Z) : string :=
  String (digit_char (n / 10)) (String (digit_char (n mod 10)) EmptyString).

(** *** Time texts, in the words of the design

    The design trims the text before the annotation marker and asks for
    exactly two integer-parsable parts around a colon.  The following
    predicates say so without any of the functions of [PyStr]. *)

(** Every character of a text satisfies [P]. *)
Fixpoint every (P : ascii -> Prop) (s : string) : Prop :=
  match s with
  | EmptyString => True
  | String c r => P c /\ every P r
  end.

(** Whitespace, as trimmed from a text: TAB, LF, VT, FF, CR, FS, GS, RS, US
    and SPACE. *)
Definition blank (c : ascii) : Prop :=
  In c ["009"; "010"; "011"; "012"; "013"; "028"; "029"; "030"; "031"; " "]%char.

(** A trailing annotation: nothing, or blanks, the marker and any text. *)
Definition annotation (a : string) : Prop :=
  a = EmptyString \/
  exists pad rest, every blank pad /\ a = (pad ++ "(" ++ rest)%string.

(** Whitespace allowed around an integer: TAB, LF, VT, FF, CR and SPACE. *)
Definition int_blank (c : ascii) : Prop :=
  In c ["009"; "010"; "011"; "012"; "013"; " "]%char.

(** The ten digits and their values. *)
Definition digit_table : list (ascii * Z) :=
  [("0", 0); ("1", 1); ("2", 2); ("3", 3); ("4", 4);
   ("5", 5); ("6", 6); ("7", 7); ("8", 8); ("9", 9)]%char.

Definition digit_of (c : ascii) : option Z :=
  option_map snd (find (fun entry => Ascii.eqb (fst entry) c) digit_table).

(** Decimal digits, with single underscores allowed between two digits,
    and the digits they show. *)
Inductive digit_groups : string -> list Z -> Prop :=
| groups_one (c : ascii) (d : Z) :
    digit_of c = Some d -> digit_groups (String c EmptyString) [d]
| groups_digit (c : ascii) (d : Z) (s : string) (ds : list Z) :
    digit_of c = Some d -> digit_groups s ds ->
    digit_groups (String c s) (d :: ds)
| groups_under (c : ascii) (d : Z) (s : string) (ds : list Z) :
    digit_of c = Some d -> digit_groups s ds ->
    digit_groups (String c (String "_" s)) (d :: ds).

Definition decimal (ds : list Z) : Z :=
  fold_left (fun acc d => 10 * acc + d) ds 0.

(** [x] is an integer-parsable text of value [n]: blanks, an optional
    sign, at most 4300 digits in groups, blanks. *)
Definition integer_text (x : string) (n : Z) : Prop :=
  exists pad1 sign body pad2 ds,
    x = (pad1 ++ sign ++ body ++ pad2)%string /\
    every int_blank pad1 /\ every int_blank pad2 /\
    digit_groups body ds /\ (List.length ds <= 4300)%nat /\
    (((sign = "" \/ sign = "+") /\ n = decimal ds) \/
     (sign = "-" /\ n = - decimal ds)).

(** [t] is the text of [s] before its first annotation marker. *)
Definition before_marker (s t : string) : Prop :=
  every (fun c => c <> "("%char) t /\
  (s = t \/ exists rest, s = (t ++ "(" ++ rest)%string).

(** A test on characters, as a predicate. *)
Definition holds (test : ascii -> bool) (c : ascii) : Prop := test c = true.

(** The first, and the last, character of a text does not satisfy [P]. *)
Definition head_clean (P : ascii -> Prop) (s : string) : Prop :=
  forall c r, s = String c r -> ~ P c.

Definition tail_clean (P : ascii -> Prop) (s : string) : Prop :=
  forall r c, s = (r ++ String c "")%string -> ~ P c.

(** [base] is [t] without the whitespace at its two ends. *)
Definition trimmed (t base : string) : Prop :=
  (exists pad1 pad2,
     t = (pad1 ++ base ++ pad2)%string /\ every blank pad1 /\ every blank pad2) /\
  head_clean blank base /\ tail_clean blank base.

(** [t] splits into exactly two integer-parsable parts, of values [hh]
    and [mm] (an integer text holds no colon). *)
Definition two_integer_parts (t : string) (hh mm : Z) : Prop :=
  exists a b,
    t = (a ++ ":" ++ b)%string /\ integer_text a hh /\ integer_text b mm.

(** The annotation-stripped, whitespace-trimmed text of [s] splits into
    exactly two integer-parsable parts, of values [hh] and [mm]. *)
Definition time_text (s : string) (hh mm : Z) : Prop :=
  exists t base,
    before_marker s t /\ trimmed t base /\ two_integer_parts base hh mm.

(** The texts "HH:MM" and "H:MM" of a time of day, checked against the
    parser: the text holds no marker and parses to the pair it shows. *)
Definition shows (hours_text : string) (hh mm : Z) : bool :=
  let t := (hours_text ++ ":" ++ two_digits mm)%string in
  negb (PyStr.mem "(" t) &&
  match parse_time t with
  | Ok (h, m) => (h =? hh) && (m =? mm)
  | _ => false
  end.

Definition upto (n : nat) : list Z := map Z.of_nat (seq 0 n).

Definition clock_texts_parse : bool :=
  forallb (fun hh =>
    forallb (fun mm =>
      shows (two_digits hh) hh mm &&
      ((9 <? hh) || shows (one_digit hh) hh mm)) (upto 60)) (upto 24).

(** [prayer_times[p]] *)
Definition time_of (prayer_times : PrayerTimes) (p : Prayer) : Json :=
  match p with
  | Fajr => pt_Fajr prayer_times
  | Dhuhr => pt_Dhuhr prayer_times
  | Asr => pt_Asr prayer_times
  | Maghrib => pt_Maghrib prayer_times
  | Isha => pt_Isha prayer_times
  end.

Definition all_prayers : list Prayer := [Fajr; Dhuhr; Asr; Maghrib; Isha].

(** The instant hh:mm of a date, for a pair in range. *)
Definition instant (date_obj : Z) (hm : Z * Z) : Z :=
  date_obj * DAY + fst hm * HOUR + snd hm * MINUTE.

Definition in_range (hm : Z * Z) : Prop :=
  0 <= fst hm <= 23 /\ 0 <= snd hm <= 59.

(** The events the design asks of one prayer at build time [now_]: an alert
    one minute before the prayer when that instant is still ahead, and then
    a reminder ten minutes before the prayer when that one is still ahead. *)
Definition events_for (now_ date_obj : Z) (prayer : Prayer) (hm : Z * Z) : list Job :=
  let fire := instant date_obj hm - 1 * MINUTE in
  let notice := instant date_obj hm - 10 * MINUTE in
  if now_ <? fire then
    {| at_time := strftime_HM fire; job_func := PlayAzan;
       next_run := Schedule.next_occurrence now_ (strftime_HM fire) |} ::
    (if now_ <? notice then
       [{| at_time := strftime_HM notice;
           job_func := ReminderClosure prayer (strftime_HM fire);
           next_run := Schedule.next_occurrence now_ (strftime_HM notice) |}]
     else [])
  else [].

(** [w'] is [w] with jobs [added] appended and more output: same clock,
    same devices. *)
Definition extends {Dev} (w w' : World Dev) (added : list Job) : Prop :=
  now w' = now w /\ jobs w' = (jobs w ++ added)%list /\ dev w' = dev w /\
  exists o, out w' = (out w ++ o)%list.

(** The steps of the alert executor, as the design lists them, given what
    the commands of the cast client did: the console line after the volume
    was raised (step 3), what follows the media command (step 4: a pause of
    two seconds, the play command and its line, or the line of the failure),
    and the console line after the restore (step 6). *)
Definition volume_line (raised : Reply unit) : Msg :=
  match raised with
  | Returns _ => MVolumeSet
  | Throws e => MVolumeSetFailed e
  end.

Definition playback_steps (cast : Chromecast) (started played : Reply unit) : list Event :=
  match started with
  | Throws e => [EPrint (MPlayError e)]
  | Returns _ =>
      [ESleep 2; EPlay cast;
       EPrint (match played with
               | Returns _ => MPlaying
               | Throws e => MPlayError e
               end)]
  end.

Definition restore_line (v : Q) (restored : Reply unit) : Msg :=
  match restored with
  | Returns _ => MRestored v
  | Throws e => MRestoreFailed e
  end.

(** The speaker whose first volume command and media commands fail. *)
Definition flaky_env : Env Speaker :=
  speaker_env ["Kitchen"; "Parents Room speaker"] true true scenario_answer.

Definition target : Chromecast :=
  {| cc_name := "Parents Room speaker"; cc_host := "192.168.1.20" |}.

(** The date an observation mentions, if any: the requests sent, and the
    two lines printed when a date is fetched and when it is scheduled. *)
Definition date_of_event (e : Event) : option Z :=
  match e with
  | EGet q => Some (q_date q)
  | EPrint (MFetching d) => Some d
  | EPrint (MSchedulingFor d) => Some d
  | _ => None
  end.

(** Console lines that mention no date. *)
Definition plain (m : Msg) : bool :=
  match m with
  | MFetching _ | MSchedulingFor _ => false
  | _ => true
  end.

(** Calls on the cast client. *)
Definition device (e : Event) : bool :=
  match e with
  | EDiscover | EWait _ | ESetVolume _ _ | EPlayMedia _ _ _ | EPlay _ => true
  | _ => false
  end.

(** Observations made without waiting, running a job or touching a device. *)
Definition idle (e : Event) : bool :=
  match e with
  | EPrint _ | EGet _ => true
  | _ => false
  end.



(** A statement keeps a relation between the world before and after. *)
Definition preserves {Dev A} (P : World Dev -> World Dev -> Prop) (m : M Dev A) : Prop :=
  forall w, P w (snd (m w)).


(** [w'] continues [w]: its observations are those of [w] followed by new
    ones, each of which satisfies [ok]. *)
Definition continues {Dev} (ok : Event -> Prop) (w w' : World Dev) : Prop :=
  exists o, out w' = (out w ++ o)%list /\ forall e, In e o -> ok e.




(** No time passes and nothing but console lines and requests is observed. *)
Definition calm {Dev} (w w' : World Dev) : Prop :=
  now w' = now w /\ continues (fun e => idle e = true) w w'.

(** The clock and the store are left as they were. *)
Definition still {Dev} (w w' : World Dev) : Prop :=
  now w' = now w /\ jobs w' = jobs w.

(** Every new observation that mentions a date mentions [d] or a later one. *)
Definition dated {Dev} (d : Z) (w w' : World Dev) : Prop :=
  continues (fun e => forall x, date_of_event e = Some x -> d <= x) w w'.

(** The job [schedule_test_time] adds at instant [now_] for a date. *)
Definition test_events (now_ date_obj : Z) (test_time_str : string) : list Job :=
  if PyStr.is_empty test_time_str then []
  else match parse_time test_time_str with
       | Ok hm =>
           if now_ <? instant date_obj hm
           then [{| at_time := hm; job_func := PlayAzan;
                    next_run := Schedule.next_occurrence now_ hm |}]
           else []
       | _ => []
       end.

(** The configuration with a daily test alert late in the evening. *)
Definition late_test_config : Config := {|
  CITY := "Madrid";
  COUNTRY := "Spain";
  METHOD := 3;
  TEST_TIME := "23:00";
  TARGET_DEVICE_NAME := "Parents Room speaker";
  AZAN_URL := "https://www.islamcan.com/audio/adhan/azan1.mp3";
  AZAN_VOLUME := 1%Q |}.

(** The configuration with a daily test alert one minute after Isha. *)
Definition evening_test_config : Config := {|
  CITY := "Madrid";
  COUNTRY := "Spain";
  METHOD := 3;
  TEST_TIME := "21:21";
  TARGET_DEVICE_NAME := "Parents Room speaker";
  AZAN_URL := "https://www.islamcan.com/audio/adhan/azan1.mp3";
  AZAN_VOLUME := 1%Q |}.

(** One working speaker and the time service of the scenario. *)
Definition home_env : Env Speaker :=
  speaker_env ["Parents Room speaker"] false false scenario_answer.

(** A speaker whose first volume command fails, and that takes the media
    but fails to start it. *)
Definition stalling_env : Env Speaker := {|
  requests_get := scenario_answer;
  get_chromecasts := get_chromecasts flaky_env;
  cast_wait := cast_wait flaky_env;
  volume_level := volume_level flaky_env;
  set_volume := set_volume flaky_env;
  play_media := play_media home_env;
  mc_play := mc_play flaky_env |}.

(** A time service whose Isha falls after midnight. *)
Definition midnight_answer (q : Query) (t : Z) : HttpResult :=
  HttpResponse 200
    (Some (timings_body (JStr "02:40") (JStr "13:05") (JStr "17:30")
                        (JStr "22:10") (JStr "00:30"))).


(** The starts of jobs registered for the time of day [hm]. *)
Definition is_run_at (hm : Z * Z) (e : Event) : bool :=
  match e with
  | ERun _ j => (fst (at_time j) =? fst hm) && (snd (at_time j) =? snd hm)
  | _ => false
  end.

(** The dict that [get_prayer_times_for_date] builds from [scenario_answer]. *)
Definition answered_times : PrayerTimes := {|
  pt_Fajr := JStr "05:12";
  pt_Dhuhr := JStr "13:05";
  pt_Asr := JStr "16:40";
  pt_Maghrib := JStr "19:58 (CEST)";
  pt_Isha := JStr "21:20 (CEST)" |}.

Definition scenario_tm (p : Prayer) : Z * Z :=
  match p with
  | Fajr => (5, 12) | Dhuhr => (13, 5) | Asr => (16, 40)
  | Maghrib => (19, 58) | Isha => (21, 20)
  end.

Definition midnight_env : Env Speaker :=
  speaker_env ["Parents Room speaker"] false false midnight_answer.

(** Failing time services: no network; a body that is not JSON; timings
    without the key "Isha"; an error status; a body without "data". *)
Definition offline_env : Env Speaker :=
  speaker_env ["Parents Room speaker"] false false
    (fun _ _ => HttpRaises ConnectionError).

Definition garbled_env : Env Speaker :=
  speaker_env ["Parents Room speaker"] false false
    (fun _ _ => HttpResponse 200 None).

Definition partial_env : Env Speaker :=
  speaker_env ["Parents Room speaker"] false false
    (fun _ _ => HttpResponse 200
       (Some (JObj [("data", JObj [("timings",
          JObj [("Fajr", JStr "05:12"); ("Dhuhr", JStr "13:05");
                ("Asr", JStr "16:40"); ("Maghrib", JStr "19:58")])])]))).

Definition busy_env : Env Speaker :=
  speaker_env ["Parents Room speaker"] false false
    (fun _ _ => HttpResponse 503 None).

Definition empty_env : Env Speaker :=
  speaker_env ["Parents Room speaker"] false false
    (fun _ _ => HttpResponse 200 (Some (JObj [("code", JNum 200)]))).

(** A day whose Asr time is not a time. *)
Definition malformed_times : PrayerTimes := {|
  pt_Fajr := JStr "05:12";
  pt_Dhuhr := JStr "13:05";
  pt_Asr := JStr "abc";
  pt_Maghrib := JStr "19:58";
  pt_Isha := JStr "21:20" |}.

Definition malformed_env : Env Speaker :=
  speaker_env ["Parents Room speaker"] false false
    (fun _ _ => HttpResponse 200
       (Some (timings_body (JStr "05:12") (JStr "13:05") (JStr "abc")
                           (JStr "19:58") (JStr "21:20")))).

Definition is_sleep (e : Event) : bool :=
  match e with ESleep _ => true | _ => false end.

Definition is_get (e : Event) : bool :=
  match e with EGet _ => true | _ => false end.

(** A network on which no device bears the configured name. *)
Definition lonely_env : Env Speaker :=
  speaker_env ["Kitchen"; "Living Room TV"] false false scenario_answer.

(** No time passes, the devices are left alone, and nothing but console
    lines is observed. *)
Definition printing {Dev} (w w' : World Dev) : Prop :=
  now w' = now w /\ dev w' = dev w /\
  forall e, In e (out w') -> In e (out w) \/ exists m, e = EPrint m.

(** The number of half-minute sleeps of the inner loop when nothing is
    due: none when Isha has passed, else one more than the whole half
    minutes left. *)
Definition polls (dt_isha now_ : Z) : Z :=
  if dt_isha <? now_ then 0 else (dt_isha - now_) / (30 * SECOND) + 1.

(** One minute, and ten minutes, before hh:mm on the clock face. *)
Definition minute_before (hm : Z * Z) : Z * Z :=
  if 0 <? snd hm then (fst hm, snd hm - 1)
  else if 0 <? fst hm then (fst hm - 1, 59) else (23, 59).

Definition ten_before (hm : Z * Z) : Z * Z :=
  if 10 <=? snd hm then (fst hm, snd hm - 10)
  else if 0 <? fst hm then (fst hm - 1, snd hm + 50) else (23, snd hm + 50).

(* ================================================================== *)
(** * Theorems *)
(* ================================================================== *)

(** ** The parser *)

Example parse_time_cest : parse_time "20:30 (CEST)" = Ok (20, 30).
Proof. reflexivity. Qed.
Example parse_time_short : parse_time "5:07" = Ok (5, 7).
Proof. reflexivity. Qed.
Example parse_time_three : parse_time "20:30:99" = Raise ValueError.
Proof. reflexivity. Qed.
Example parse_time_abc : parse_time "abc" = Raise ValueError.
Proof. reflexivity. Qed.
Example parse_time_signed : parse_time " -5 : +1_0 (x:y)" = Ok (-5, 10).
Proof. reflexivity. Qed.
Example parse_time_no_marker : parse_time "20:30 CEST" = Raise ValueError.
Proof. reflexivity. Qed.

Module PyStrFacts.
Import PyStr.

Lemma split_nonempty (sep : ascii) (s : string) : split sep s <> [].
Proof.
  destruct s as [|c r]; simpl; [discriminate|].
  destruct (Ascii.eqb c sep); [discriminate|].
  destruct (split sep r); discriminate.
Qed.

Lemma split_without (sep : ascii) (s : string) :
  mem sep s = false -> split sep s = [s].
Proof.
  induction s as [|c r IH]; simpl; [reflexivity|].
  intros H. apply orb_false_iff in H as [Hc Hr].
  rewrite Hc, (IH Hr). reflexivity.
Qed.

Lemma split_at (sep : ascii) (a b : string) :
  mem sep a = false ->
  split sep (a ++ String sep b) = a :: split sep b.
Proof.
  induction a as [|c r IH]; simpl.
  - intros _. rewrite Ascii.eqb_refl. reflexivity.
  - intros H. apply orb_false_iff in H as [Hc Hr].
    rewrite Hc, (IH Hr). reflexivity.
Qed.

Lemma split_head_at (sep : ascii) (a b : string) :
  mem sep a = false -> split_head sep (a ++ String sep b) = a.
Proof. intros H. unfold split_head. rewrite split_at by exact H. reflexivity. Qed.

Lemma split_head_without (sep : ascii) (s : string) :
  mem sep s = false -> split_head sep s = s.
Proof. intros H. unfold split_head. rewrite split_without by exact H. reflexivity. Qed.

(** Reading a split list back: the first item, the separator, the rest. *)
Lemma split_cons_inv (sep : ascii) (s p : string) (ps : list string) :
  split sep s = p :: ps ->
  mem sep p = false /\
  match ps with
  | [] => s = p
  | _ :: _ => exists r, s = (p ++ String sep r)%string /\ split sep r = ps
  end.
Proof.
  revert p ps. induction s as [|c r IH]; simpl; intros p ps H.
  - injection H as <- <-. split; reflexivity.
  - destruct (Ascii.eqb_spec c sep) as [->|Hne].
    + injection H as <- <-. split; [reflexivity|].
      destruct (split sep r) eqn:Hs; [exact (False_ind _ (split_nonempty _ _ Hs))|].
      exists r. split; [reflexivity|exact Hs].
    + destruct (split sep r) as [|q qs] eqn:Hs;
        [exact (False_ind _ (split_nonempty _ _ Hs))|].
      injection H as <- <-.
      destruct (IH q qs eq_refl) as [Hq Hrest]. split.
      * simpl. destruct (Ascii.eqb_spec c sep); [contradiction|exact Hq].
      * destruct qs as [|q' qs'].
        -- subst r. reflexivity.
        -- destruct Hrest as [r' [-> Hr']]. exists r'. split; [reflexivity|exact Hr'].
Qed.

Lemma split_two_inv (sep : ascii) (s a b : string) :
  split sep s = [a; b] ->
  s = (a ++ String sep b)%string /\ mem sep a = false /\ mem sep b = false.
Proof.
  intros H. apply split_cons_inv in H as [Ha [r [-> Hr]]].
  apply split_cons_inv in Hr as [Hb ->]. auto.
Qed.

Lemma all_space_lstrip (pad : string) : all_space pad = true -> lstrip pad = EmptyString.
Proof.
  induction pad as [|c r IH]; simpl; [reflexivity|].
  intros H. apply andb_true_iff in H as [Hc Hr]. rewrite Hc. exact (IH Hr).
Qed.

Lemma all_space_rstrip (pad : string) : all_space pad = true -> rstrip pad = EmptyString.
Proof.
  induction pad as [|c r IH]; simpl; [reflexivity|].
  intros H. apply andb_true_iff in H as [Hc Hr]. rewrite Hc, (IH Hr). reflexivity.
Qed.

Lemma rstrip_app_space (t pad : string) :
  all_space pad = true -> rstrip (t ++ pad) = rstrip t.
Proof.
  intros H. induction t as [|c r IH]; simpl.
  - apply all_space_rstrip, H.
  - rewrite IH. reflexivity.
Qed.

Lemma strip_app_space (t pad : string) :
  all_space pad = true -> strip (t ++ pad) = strip t.
Proof.
  intros H. unfold strip. induction t as [|c r IH]; simpl.
  - rewrite (all_space_lstrip _ H). reflexivity.
  - destruct (is_space c); [exact IH|].
    apply (rstrip_app_space (String c r)), H.
Qed.

Lemma all_space_no_marker (pad : string) :
  all_space pad = true -> mem "(" pad = false.
Proof.
  induction pad as [|c r IH]; simpl; [reflexivity|].
  intros H. apply andb_true_iff in H as [Hc Hr]. rewrite (IH Hr).
  destruct (Ascii.eqb_spec c "(") as [->|_]; [discriminate|reflexivity].
Qed.

Lemma mem_app (c : ascii) (a b : string) :
  mem c (a ++ b) = mem c a || mem c b.
Proof.
  induction a as [|d r IH]; simpl; [reflexivity|].
  rewrite IH, orb_assoc. reflexivity.
Qed.

Lemma append_nil (s : string) : (s ++ "")%string = s.
Proof. induction s as [|c r IH]; simpl; [reflexivity|rewrite IH; reflexivity]. Qed.

Lemma append_assoc (a b c : string) :
  ((a ++ b) ++ c)%string = (a ++ b ++ c)%string.
Proof. induction a as [|d r IH]; simpl; [reflexivity|rewrite IH; reflexivity]. Qed.

(** *** The two trimmings: [str.strip] and the one of [int] *)

Section Trim.

Variable sp : ascii -> bool.
Variables ltrim rtrim : string -> string.
Hypothesis ltrim_nil : ltrim EmptyString = EmptyString.
Hypothesis ltrim_cons :
  forall c r, ltrim (String c r) = if sp c then ltrim r else String c r.
Hypothesis rtrim_nil : rtrim EmptyString = EmptyString.
Hypothesis rtrim_cons :
  forall c r, rtrim (String c r) =
    if sp c && is_empty (rtrim r) then EmptyString else String c (rtrim r).

Lemma ltrim_split (s : string) :
  exists pad,
    s = (pad ++ ltrim s)%string /\ every (holds sp) pad /\
    head_clean (holds sp) (ltrim s).
Proof.
  unfold holds.
  induction s as [|c r [pad [Hs [Hp Hh]]]].
  - exists EmptyString. rewrite ltrim_nil.
    split; [reflexivity|]. split; [exact I|]. intros c r H. discriminate.
  - rewrite ltrim_cons. destruct (sp c) eqn:Hc.
    + exists (String c pad). cbn [append every]. rewrite <- Hs. auto.
    + exists EmptyString.
      split; [reflexivity|]. split; [exact I|].
      intros d r' H. injection H as <- <-. rewrite Hc. discriminate.
Qed.

Lemma rtrim_split (s : string) :
  exists pad,
    s = (rtrim s ++ pad)%string /\ every (holds sp) pad /\
    tail_clean (holds sp) (rtrim s) /\
    (head_clean (holds sp) s -> head_clean (holds sp) (rtrim s)).
Proof.
  unfold holds.
  induction s as [|c r [pad [Hs [Hp [Ht _]]]]].
  - exists EmptyString. rewrite rtrim_nil.
    split; [reflexivity|]. split; [exact I|]. split; [|auto].
    intros r c H. destruct r; discriminate.
  - rewrite rtrim_cons. destruct (sp c && is_empty (rtrim r)) eqn:E.
    + apply andb_true_iff in E as [Hc He].
      destruct (rtrim r); [|discriminate].
      cbn [append] in Hs. subst r. exists (String c pad).
      split; [reflexivity|]. split; [exact (conj Hc Hp)|]. split.
      * intros r0 d H. destruct r0; discriminate.
      * intros _ d r0 H. discriminate.
    + exists pad. cbn [append]. rewrite <- Hs.
      split; [reflexivity|]. split; [exact Hp|]. split.
      * intros r0 d H. destruct r0 as [|c0 r0]; cbn [append] in H.
        -- injection H as <- Hr. rewrite Hr in E. cbn [is_empty] in E.
           rewrite andb_true_r in E. rewrite E. discriminate.
        -- injection H as <- Hr. exact (Ht _ _ Hr).
      * intros Hh d r0 H. injection H as <- <-. exact (Hh c r eq_refl).
Qed.

Lemma ltrim_pad (pad s : string) :
  every (holds sp) pad -> ltrim (pad ++ s) = ltrim s.
Proof.
  unfold holds.
  induction pad as [|c r IH]; cbn [append every]; [reflexivity|].
  intros [Hc Hr]. rewrite ltrim_cons, Hc. exact (IH Hr).
Qed.

Lemma rtrim_all (pad : string) :
  every (holds sp) pad -> rtrim pad = EmptyString.
Proof.
  unfold holds.
  induction pad as [|c r IH]; cbn [every]; [intros _; exact rtrim_nil|].
  intros [Hc Hr]. rewrite rtrim_cons, Hc, (IH Hr). reflexivity.
Qed.

Lemma rtrim_pad (s pad : string) :
  every (holds sp) pad -> rtrim (s ++ pad) = rtrim s.
Proof.
  unfold holds.
  intros H. induction s as [|c r IH]; cbn [append].
  - rewrite rtrim_nil. apply rtrim_all, H.
  - rewrite !rtrim_cons, IH. reflexivity.
Qed.

Lemma rtrim_clean (s : string) : tail_clean (holds sp) s -> rtrim s = s.
Proof.
  unfold holds.
  induction s as [|c r IH]; intros Ht; [exact rtrim_nil|].
  rewrite rtrim_cons, IH.
  - destruct r as [|d r'].
    + destruct (sp c) eqn:Hc; [|reflexivity].
      exfalso. exact (Ht EmptyString c eq_refl Hc).
    + cbn [is_empty]. rewrite andb_false_r. reflexivity.
  - intros r0 d H. apply (Ht (String c r0) d). rewrite H. reflexivity.
Qed.

(** Trimming a text gives [base] exactly when the text is [base] between
    two runs of blanks and [base] neither begins nor ends with a blank. *)
Lemma trim_iff (t base : string) :
  rtrim (ltrim t) = base <->
  (exists pad1 pad2,
     t = (pad1 ++ base ++ pad2)%string /\
     every (holds sp) pad1 /\ every (holds sp) pad2) /\
  head_clean (holds sp) base /\ tail_clean (holds sp) base.
Proof.
  unfold holds.
  split.
  - intros <-.
    destruct (ltrim_split t) as [pad1 [Ht [Hp1 Hh]]].
    destruct (rtrim_split (ltrim t)) as [pad2 [Hl [Hp2 [Htl Hhd]]]].
    split; [|split; [exact (Hhd Hh)|exact Htl]].
    exists pad1, pad2. rewrite <- Hl. auto.
  - intros [[pad1 [pad2 [-> [Hp1 Hp2]]]] [Hh Ht]].
    rewrite (ltrim_pad _ _ Hp1).
    destruct base as [|c r].
    + cbn [append]. destruct (ltrim_split pad2) as [pad [Hs [_ Hc]]].
      destruct (ltrim pad2) as [|d r'] eqn:E; [exact rtrim_nil|].
      exfalso. apply (Hc d r' eq_refl).
      assert (Hall : every (holds sp) (pad ++ String d r'))
        by (rewrite <- Hs; exact Hp2).
      clear - Hall. induction pad as [|e pad IH]; cbn [append every] in Hall;
        [apply Hall|apply IH, Hall].
    + cbn [append]. rewrite ltrim_cons.
      destruct (sp c) eqn:Hc; [exfalso; exact (Hh c r eq_refl Hc)|].
      change (String c (r ++ pad2)) with (String c r ++ pad2)%string.
      rewrite (rtrim_pad _ _ Hp2). apply rtrim_clean, Ht.
Qed.

End Trim.

Lemma strip_iff (t base : string) :
  strip t = base <->
  (exists pad1 pad2,
     t = (pad1 ++ base ++ pad2)%string /\
     every (holds is_space) pad1 /\
     every (holds is_space) pad2) /\
  head_clean (holds is_space) base /\
  tail_clean (holds is_space) base.
Proof.
  exact (trim_iff is_space lstrip rstrip eq_refl (fun _ _ => eq_refl)
                  eq_refl (fun _ _ => eq_refl) t base).
Qed.

Lemma skip_iff (t base : string) :
  skip_right (skip_left t) = base <->
  (exists pad1 pad2,
     t = (pad1 ++ base ++ pad2)%string /\
     every (holds is_c_space) pad1 /\
     every (holds is_c_space) pad2) /\
  head_clean (holds is_c_space) base /\
  tail_clean (holds is_c_space) base.
Proof.
  exact (trim_iff is_c_space skip_left skip_right eq_refl (fun _ _ => eq_refl)
                  eq_refl (fun _ _ => eq_refl) t base).
Qed.

(** *** Characters *)

Lemma in_chars (c : ascii) (l : list ascii) :
  In c l <-> existsb (Ascii.eqb c) l = true.
Proof.
  rewrite existsb_exists. split.
  - intros H. exists c. split; [exact H|apply Ascii.eqb_refl].
  - intros [d [Hin Hd]]. apply Ascii.eqb_eq in Hd. subst. exact Hin.
Qed.

Lemma is_space_blank (c : ascii) : is_space c = true <-> blank c.
Proof.
  unfold blank. rewrite in_chars.
  destruct c as [[] [] [] [] [] [] [] []]; vm_compute; tauto.
Qed.

Lemma is_c_space_blank (c : ascii) : is_c_space c = true <-> int_blank c.
Proof.
  unfold int_blank. rewrite in_chars.
  destruct c as [[] [] [] [] [] [] [] []]; vm_compute; tauto.
Qed.

Lemma digit_of_model (c : ascii) :
  digit_of c = if is_digit c then Some (digit_val c) else None.
Proof. destruct c as [[] [] [] [] [] [] [] []]; reflexivity. Qed.

Lemma digit_of_some (c : ascii) (d : Z) :
  digit_of c = Some d <-> is_digit c = true /\ digit_val c = d.
Proof.
  rewrite digit_of_model. destruct (is_digit c); split.
  - intros H. injection H as <-. auto.
  - intros [_ <-]. reflexivity.
  - discriminate.
  - intros [H _]. discriminate.
Qed.

Lemma digit_not_blank (c : ascii) : is_digit c = true -> is_c_space c = false.
Proof. destruct c as [[] [] [] [] [] [] [] []]; vm_compute; congruence. Qed.

Lemma digit_not_mark (c : ascii) :
  is_digit c = true ->
  Ascii.eqb c "-" = false /\ Ascii.eqb c "+" = false /\ Ascii.eqb c ":" = false /\
  Ascii.eqb c "_" = false.
Proof. destruct c as [[] [] [] [] [] [] [] []]; vm_compute; intuition congruence. Qed.

Lemma every_impl (P Q : ascii -> Prop) (s : string) :
  (forall c, P c -> Q c) -> every P s -> every Q s.
Proof.
  intros H. induction s as [|c r IH]; cbn [every]; [auto|].
  intros [Hc Hr]. auto.
Qed.

Lemma mem_every (c : ascii) (s : string) :
  mem c s = false <-> every (fun d => d <> c) s.
Proof.
  induction s as [|d r IH]; cbn [mem every]; [tauto|].
  rewrite orb_false_iff, IH.
  destruct (Ascii.eqb_spec d c); intuition congruence.
Qed.

(** *** Integer texts *)

Lemma groups_digits (s : string) (ds : list Z) :
  digit_groups s ds ->
  forall acc,
    digits_from acc s = Some (fold_left (fun a d => 10 * a + d) ds acc) /\
    digits_from acc (String "_" s) = Some (fold_left (fun a d => 10 * a + d) ds acc).
Proof.
  induction 1 as [c d Hc|c d s ds Hc _ IH|c d s ds Hc _ IH]; intros acc;
    apply digit_of_some in Hc as [Hc <-].
  - cbn [fold_left]. split.
    + cbn [digits_from]. rewrite Hc. reflexivity.
    + change (digits_from acc (String "_" (String c EmptyString)))
        with (if is_digit c then digits_from (10 * acc + digit_val c) EmptyString
              else None).
      rewrite Hc. reflexivity.
  - destruct (IH (10 * acc + digit_val c)) as [H1 _].
    cbn [fold_left]. split.
    + cbn [digits_from]. rewrite Hc. exact H1.
    + change (digits_from acc (String "_" (String c s)))
        with (if is_digit c then digits_from (10 * acc + digit_val c) s else None).
      rewrite Hc. exact H1.
  - destruct (IH (10 * acc + digit_val c)) as [_ H2].
    cbn [fold_left]. split.
    + change (digits_from acc (String c (String "_" s)))
        with (if is_digit c then digits_from (10 * acc + digit_val c) (String "_" s)
              else if Ascii.eqb c "_"
                   then (if is_digit "_" then digits_from (10 * acc + digit_val "_") s
                         else None)
                   else None).
      rewrite Hc. exact H2.
    + change (digits_from acc (String "_" (String c (String "_" s))))
        with (if is_digit c then digits_from (10 * acc + digit_val c) (String "_" s)
              else None).
      rewrite Hc. exact H2.
Qed.

Lemma digits_groups_from (n : nat) :
  forall s, (String.length s <= n)%nat ->
  forall acc m, digits_from acc s = Some m ->
    (s = EmptyString /\ m = acc) \/
    exists ds,
      (digit_groups s ds \/ exists s', s = String "_" s' /\ digit_groups s' ds) /\
      m = fold_left (fun a d => 10 * a + d) ds acc.
Proof.
  induction n as [|n IH]; intros s Hn acc m H.
  - destruct s; [|cbn in Hn; lia]. cbn in H. injection H as <-. auto.
  - destruct s as [|c r]; [cbn in H; injection H as <-; auto|]. right.
    cbn [String.length] in Hn.
    assert (Hstep : forall c0 r0, is_digit c0 = true -> (String.length r0 <= n)%nat ->
              digits_from (10 * acc + digit_val c0) r0 = Some m ->
              exists ds, digit_groups (String c0 r0) ds /\
                         m = fold_left (fun a d => 10 * a + d) ds acc).
    { intros c0 r0 Hc0 Hlen H0.
      assert (Hd : digit_of c0 = Some (digit_val c0)) by (apply digit_of_some; auto).
      destruct (IH r0 Hlen _ _ H0) as [[-> ->]|[ds [[Hg|[s' [-> Hg]]] ->]]].
      - exists [digit_val c0]. split; [apply groups_one, Hd|reflexivity].
      - exists (digit_val c0 :: ds). split; [apply groups_digit; assumption|reflexivity].
      - exists (digit_val c0 :: ds). split; [apply groups_under; assumption|reflexivity]. }
    cbn [digits_from] in H. destruct (is_digit c) eqn:Hc.
    + destruct (Hstep c r Hc ltac:(lia) H) as [ds [Hg Hm]].
      exists ds. auto.
    + destruct (Ascii.eqb_spec c "_") as [->|_]; [|discriminate].
      destruct r as [|d r']; [discriminate|].
      destruct (is_digit d) eqn:Hd; [|discriminate].
      cbn [String.length] in Hn.
      destruct (Hstep d r' Hd ltac:(lia) H) as [ds [Hg Hm]].
      exists ds. split; [right; exists (String d r'); auto|exact Hm].
Qed.

Lemma digits_groups (s : string) (m : Z) :
  digits s = Some m <-> exists ds, digit_groups s ds /\ m = decimal ds.
Proof.
  unfold digits, decimal. split.
  - destruct s as [|c r]; [discriminate|].
    destruct (is_digit c) eqn:Hc; [|discriminate]. intros H.
    assert (Hd : digit_of c = Some (digit_val c)) by (apply digit_of_some; auto).
    destruct (digits_groups_from _ r (Nat.le_refl _) _ _ H)
      as [[-> ->]|[ds [[Hg|[s' [-> Hg]]] ->]]].
    + exists [digit_val c]. split; [apply groups_one, Hd|reflexivity].
    + exists (digit_val c :: ds). split; [apply groups_digit; assumption|reflexivity].
    + exists (digit_val c :: ds). split; [apply groups_under; assumption|reflexivity].
  - intros [ds [Hg ->]].
    destruct Hg as [c d Hc|c d s ds Hc Hg|c d s ds Hc Hg];
      apply digit_of_some in Hc as [Hc <-]; rewrite Hc; cbn [fold_left].
    + reflexivity.
    + apply (groups_digits _ _ Hg).
    + apply (groups_digits _ _ Hg).
Qed.

Lemma groups_count (s : string) (ds : list Z) :
  digit_groups s ds -> count_digits s = Z.of_nat (List.length ds).
Proof.
  induction 1 as [c d Hc|c d s ds Hc _ IH|c d s ds Hc _ IH];
    apply digit_of_some in Hc as [Hc _]; cbn [count_digits List.length];
    rewrite Hc, ?IH; change (is_digit "_") with false; lia.
Qed.

Lemma groups_chars (s : string) (ds : list Z) :
  digit_groups s ds -> every (fun c => is_digit c = true \/ c = "_"%char) s.
Proof.
  induction 1 as [c d Hc|c d s ds Hc _ IH|c d s ds Hc _ IH];
    apply digit_of_some in Hc as [Hc _]; cbn [every]; auto.
Qed.

Lemma groups_head (s : string) (ds : list Z) :
  digit_groups s ds -> exists c r, s = String c r /\ is_digit c = true.
Proof.
  destruct 1 as [c d Hc|c d s ds Hc _|c d s ds Hc _];
    apply digit_of_some in Hc as [Hc _]; eauto.
Qed.

Lemma groups_last (s : string) (ds : list Z) :
  digit_groups s ds ->
  forall r c, s = (r ++ String c "")%string -> is_digit c = true.
Proof.
  induction 1 as [c d Hc|c d s ds Hc Hg IH|c d s ds Hc Hg IH];
    apply digit_of_some in Hc as [Hc _]; intros r e He.
  - destruct r as [|x r]; cbn [append] in He.
    + injection He as <-. exact Hc.
    + injection He as _ He. destruct r; discriminate.
  - destruct r as [|x r]; cbn [append] in He.
    + injection He as _ He. subst s. inversion Hg.
    + injection He as _ He. exact (IH _ _ He).
  - destruct r as [|x [|y r]]; cbn [append] in He.
    + discriminate.
    + injection He as _ _ He. subst s. inversion Hg.
    + injection He as _ _ He. exact (IH _ _ He).
Qed.

Lemma literal_groups (s : string) (m : Z) :
  literal s = Some m <->
  exists ds, digit_groups s ds /\ (List.length ds <= 4300)%nat /\ m = decimal ds.
Proof.
  unfold literal, max_str_digits. split.
  - destruct (Z.leb_spec (count_digits s) 4300) as [Hle|_]; [|discriminate].
    intros H. apply digits_groups in H as [ds [Hg ->]].
    exists ds. rewrite (groups_count _ _ Hg) in Hle. repeat split; [exact Hg|lia].
  - intros [ds [Hg [Hle ->]]]. rewrite (groups_count _ _ Hg).
    destruct (Z.leb_spec (Z.of_nat (List.length ds)) 4300) as [_|Hgt]; [|lia].
    apply digits_groups. eauto.
Qed.

(** [int] accepts exactly the integer texts, and returns their value. *)
Lemma int_integer_text (x : string) (n : Z) : int x = Some n <-> integer_text x n.
Proof.
  unfold int, integer_text. split.
  - intros H.
    destruct (proj1 (skip_iff x _) eq_refl) as [[pad1 [pad2 [Hx [Hp1 Hp2]]]] _].
    apply (every_impl _ int_blank) in Hp1; [|intros c; apply is_c_space_blank].
    apply (every_impl _ int_blank) in Hp2; [|intros c; apply is_c_space_blank].
    destruct (skip_right (skip_left x)) as [|c r]; [discriminate|].
    destruct (Ascii.eqb_spec c "-") as [->|_];
      [|destruct (Ascii.eqb_spec c "+") as [->|_]].
    + destruct (literal r) as [m|] eqn:Hm; [|discriminate].
      cbn [option_map] in H. injection H as <-.
      apply literal_groups in Hm as [ds [Hg [Hle ->]]].
      exists pad1, "-"%string, r, pad2, ds. repeat split; auto.
    + apply literal_groups in H as [ds [Hg [Hle ->]]].
      exists pad1, "+"%string, r, pad2, ds. repeat split; auto.
    + apply literal_groups in H as [ds [Hg [Hle ->]]].
      exists pad1, ""%string, (String c r), pad2, ds. repeat split; auto.
  - intros [pad1 [sign [body [pad2 [ds [-> [Hp1 [Hp2 [Hg [Hle Hsign]]]]]]]]]].
    destruct (groups_head _ _ Hg) as [c [r [Hbody Hc]]].
    assert (Hlit : literal body = Some (decimal ds))
      by (apply literal_groups; eauto).
    assert (Hskip : skip_right (skip_left (pad1 ++ sign ++ body ++ pad2))
                    = (sign ++ body)%string).
    { apply skip_iff. split; [|split].
      - exists pad1, pad2. rewrite append_assoc. repeat split.
        + apply (every_impl int_blank); [intros e; apply is_c_space_blank|exact Hp1].
        + apply (every_impl int_blank); [intros e; apply is_c_space_blank|exact Hp2].
      - intros e r0 He Hsp.
        assert (Hne : is_c_space e = false).
        { destruct Hsign as [[[->| ->] _]|[-> _]]; cbn [append] in He.
          + rewrite Hbody in He. injection He as <- _. apply digit_not_blank, Hc.
          + injection He as <- _. reflexivity.
          + injection He as <- _. reflexivity. }
        congruence.
      - intros r0 e He Hsp.
        assert (Hd : is_digit e = true).
        { destruct Hsign as [[[->| ->] _]|[-> _]]; cbn [append] in He.
          + exact (groups_last _ _ Hg _ _ He).
          + destruct r0 as [|x r0]; cbn [append] in He.
            * injection He as _ He. subst body. discriminate.
            * injection He as _ He. exact (groups_last _ _ Hg _ _ He).
          + destruct r0 as [|x r0]; cbn [append] in He.
            * injection He as _ He. subst body. discriminate.
            * injection He as _ He. exact (groups_last _ _ Hg _ _ He). }
        apply digit_not_blank in Hd. congruence. }
    rewrite Hskip.
    destruct Hsign as [[[->| ->] ->]|[-> ->]]; cbn [append].
    + rewrite Hbody in *. destruct (digit_not_mark c Hc) as [H1 [H2 _]].
      rewrite H1, H2. exact Hlit.
    + cbn. exact Hlit.
    + cbn. rewrite Hlit. reflexivity.
Qed.

(** A text accepted by [int] holds no colon. *)
Lemma int_no_colon (s : string) (n : Z) : int s = Some n -> mem ":" s = false.
Proof.
  intros H. apply int_integer_text in H
    as [pad1 [sign [body [pad2 [ds [-> [Hp1 [Hp2 [Hg [_ Hsign]]]]]]]]]].
  assert (Hpad : forall pad, every int_blank pad -> mem ":" pad = false).
  { intros pad Hp. apply mem_every. revert Hp. apply every_impl.
    intros c Hc ->. apply is_c_space_blank in Hc. discriminate. }
  assert (Hb : mem ":" body = false).
  { apply mem_every. generalize (groups_chars _ _ Hg). apply every_impl.
    intros c [Hc| ->] Heq; [subst c|]; discriminate. }
  rewrite !mem_app, (Hpad _ Hp1), (Hpad _ Hp2), Hb.
  destruct Hsign as [[[->| ->] _]|[-> _]]; reflexivity.
Qed.

(** *** The trimmed text before the marker *)

Lemma all_space_blank (pad : string) : all_space pad = true <-> every blank pad.
Proof.
  induction pad as [|c r IH]; cbn [all_space every]; [tauto|].
  rewrite andb_true_iff, IH, is_space_blank. tauto.
Qed.

Lemma int_blank_blank (c : ascii) : int_blank c -> blank c.
Proof. unfold int_blank, blank. cbn [In]. tauto. Qed.

Lemma trimmed_strip (t base : string) : strip t = base <-> trimmed t base.
Proof.
  rewrite strip_iff. unfold trimmed, head_clean, tail_clean.
  split; intros [[pad1 [pad2 [Ht [H1 H2]]]] [Hh Htl]].
  - split; [exists pad1, pad2; split; [exact Ht|split]|split].
    + revert H1. apply every_impl. intros c. apply is_space_blank.
    + revert H2. apply every_impl. intros c. apply is_space_blank.
    + intros c r Hb Hc. apply (Hh c r Hb), is_space_blank, Hc.
    + intros r c Hb Hc. apply (Htl r c Hb), is_space_blank, Hc.
  - split; [exists pad1, pad2; split; [exact Ht|split]|split].
    + revert H1. apply every_impl. intros c. apply is_space_blank.
    + revert H2. apply every_impl. intros c. apply is_space_blank.
    + intros c r Hb Hc. apply (Hh c r Hb), is_space_blank, Hc.
    + intros r c Hb Hc. apply (Htl r c Hb), is_space_blank, Hc.
Qed.

Lemma split_head_before (s t : string) :
  split_head "(" s = t <-> before_marker s t.
Proof.
  unfold before_marker. split.
  - intros <-. unfold split_head.
    destruct (split "(" s) as [|p ps] eqn:E;
      [exact (False_ind _ (split_nonempty _ _ E))|].
    apply split_cons_inv in E as [Hp Hrest].
    split; [apply mem_every, Hp|].
    destruct ps as [|q qs]; [left; exact Hrest|].
    right. destruct Hrest as [r [-> _]]. exists r. reflexivity.
  - intros [Hno [->|[rest ->]]]; apply mem_every in Hno.
    + apply split_head_without, Hno.
    + apply (split_head_at "(" t rest Hno).
Qed.

(** The last character of a text ending in a non-empty text. *)
Lemma last_of_app (x y r : string) (c : ascii) :
  y <> EmptyString -> (x ++ y)%string = (r ++ String c "")%string ->
  exists r', y = (r' ++ String c "")%string.
Proof.
  intros Hy. revert r. induction x as [|d x IH]; intros r H; cbn [append] in H.
  - exists r. exact H.
  - destruct r as [|e r]; cbn [append] in H.
    + injection H as _ H. destruct x; [contradiction|discriminate].
    + injection H as _ H. exact (IH _ H).
Qed.

Lemma digit_not_space (c : ascii) : is_digit c = true -> is_space c = false.
Proof. destruct c as [[] [] [] [] [] [] [] []]; vm_compute; congruence. Qed.

(** An integer text without the blanks at its left, and at its right. *)
Lemma integer_text_core (x : string) (n : Z) :
  integer_text x n ->
  exists pad1 core pad2,
    x = (pad1 ++ core ++ pad2)%string /\
    every blank pad1 /\ every blank pad2 /\
    integer_text (core ++ pad2) n /\ integer_text (pad1 ++ core) n /\
    head_clean blank core /\ tail_clean blank core /\ core <> EmptyString.
Proof.
  intros [pad1 [sign [body [pad2 [ds [-> [Hp1 [Hp2 [Hg [Hle Hsign]]]]]]]]]].
  destruct (groups_head _ _ Hg) as [c [r [Hbody Hc]]].
  exists pad1, (sign ++ body)%string, pad2.
  split; [rewrite append_assoc; reflexivity|].
  split; [revert Hp1; apply every_impl, int_blank_blank|].
  split; [revert Hp2; apply every_impl, int_blank_blank|].
  split; [|split; [|split; [|split]]].
  - exists ""%string, sign, body, pad2, ds. rewrite append_assoc.
    repeat split; auto.
  - exists pad1, sign, body, ""%string, ds. rewrite !append_nil.
    repeat split; auto.
  - intros e r0 He Hb. apply is_space_blank in Hb.
    assert (Hne : is_space e = false).
    { destruct Hsign as [[[->| ->] _]|[-> _]]; cbn [append] in He.
      + rewrite Hbody in He. injection He as <- _. apply digit_not_space, Hc.
      + injection He as <- _. reflexivity.
      + injection He as <- _. reflexivity. }
    congruence.
  - intros r0 e He Hb. apply is_space_blank in Hb.
    destruct (last_of_app sign body r0 e) as [r' Hr'];
      [subst body; discriminate|exact He|].
    pose proof (groups_last _ _ Hg _ _ Hr') as Hd.
    apply digit_not_space in Hd. congruence.
  - subst body. destruct sign; discriminate.
Qed.

End PyStrFacts.

Lemma in_upto (n : nat) (z : Z) : 0 <= z < Z.of_nat n -> In z (upto n).
Proof.
  intros H. unfold upto. replace z with (Z.of_nat (Z.to_nat z)) by lia.
  apply in_map, in_seq. lia.
Qed.

Lemma clock_texts (hh mm : Z) :
  0 <= hh <= 23 -> 0 <= mm <= 59 ->
  shows (two_digits hh) hh mm = true /\
  (hh <= 9 -> shows (one_digit hh) hh mm = true).
Proof.
  intros Hh Hm.
  assert (Hall : clock_texts_parse = true) by (vm_compute; reflexivity).
  unfold clock_texts_parse in Hall. rewrite forallb_forall in Hall.
  specialize (Hall hh (in_upto 24 hh ltac:(lia))).
  rewrite forallb_forall in Hall.
  specialize (Hall mm (in_upto 60 mm ltac:(lia))).
  apply andb_true_iff in Hall as [H2 H1]. split; [exact H2|].
  intros Hle. destruct (Z.ltb_spec 9 hh); [lia|exact H1].
Qed.

(** Whatever follows the marker is dropped, and so are the blanks before it. *)
Lemma time_base_annotated (t a : string) :
  PyStr.mem "(" t = false -> annotation a ->
  time_base (t ++ a) = time_base t.
Proof.
  intros Ht [->|[pad [rest [Hpad ->]]]]; unfold time_base;
    [|apply PyStrFacts.all_space_blank in Hpad].
  - rewrite PyStrFacts.append_nil. reflexivity.
  - assert (Hno : PyStr.mem "(" (t ++ pad) = false).
    { rewrite PyStrFacts.mem_app, Ht, (PyStrFacts.all_space_no_marker _ Hpad).
      reflexivity. }
    replace (t ++ pad ++ "(" ++ rest)%string
      with ((t ++ pad) ++ String "(" rest)%string.
    + rewrite (PyStrFacts.split_head_at _ _ _ Hno),
        (PyStrFacts.split_head_without _ _ Ht).
      apply PyStrFacts.strip_app_space, Hpad.
    + rewrite PyStrFacts.append_assoc. reflexivity.
Qed.

Lemma parse_time_annotated (t a : string) :
  PyStr.mem "(" t = false -> annotation a -> parse_time (t ++ a) = parse_time t.
Proof.
  intros Ht Ha. unfold parse_time. rewrite (time_base_annotated t a Ht Ha).
  reflexivity.
Qed.

Lemma shows_parse (hours_text : string) (hh mm : Z) (a : string) :
  shows hours_text hh mm = true -> annotation a ->
  parse_time (hours_text ++ ":" ++ two_digits mm ++ a) = Ok (hh, mm).
Proof.
  unfold shows. intros H Ha. apply andb_true_iff in H as [Hno Hp].
  apply negb_true_iff in Hno.
  replace (hours_text ++ ":" ++ two_digits mm ++ a)%string
    with ((hours_text ++ ":" ++ two_digits mm) ++ a)%string.
  - rewrite (parse_time_annotated _ _ Hno Ha).
    destruct (parse_time _) as [[h m]| |]; try discriminate.
    apply andb_true_iff in Hp as [Hh Hm].
    apply Z.eqb_eq in Hh, Hm. subst. reflexivity.
  - rewrite !PyStrFacts.append_assoc. reflexivity.
Qed.

(** The parser succeeds exactly on a base text made of two [int] literals
    around one colon, and then returns their values. *)
Lemma parse_time_ok_iff (s : string) (hh mm : Z) :
  parse_time s = Ok (hh, mm) <->
  exists a b, time_base s = (a ++ ":" ++ b)%string /\
              PyStr.int a = Some hh /\ PyStr.int b = Some mm.
Proof.
  unfold parse_time. split.
  - destruct (PyStr.split ":" (time_base s)) as [|a [|b [|c l]]] eqn:Hs;
      try discriminate.
    destruct (PyStr.int a) as [h|] eqn:Ha; [|discriminate].
    destruct (PyStr.int b) as [m|] eqn:Hb; [|discriminate].
    intros H. injection H as <- <-.
    apply PyStrFacts.split_two_inv in Hs as [Hs _].
    exists a, b. auto.
  - intros [a [b [Hs [Ha Hb]]]]. rewrite Hs. simpl.
    rewrite (PyStrFacts.split_at ":" a b (PyStrFacts.int_no_colon _ _ Ha)),
      (PyStrFacts.split_without ":" b (PyStrFacts.int_no_colon _ _ Hb)), Ha, Hb.
    reflexivity.
Qed.

Lemma parse_time_total (s : string) :
  parse_time s = Raise ValueError \/ exists hm, parse_time s = Ok hm.
Proof.
  unfold parse_time.
  destruct (PyStr.split ":" (time_base s)) as [|a [|b [|c l]]]; auto.
  destruct (PyStr.int a); auto. destruct (PyStr.int b); eauto.
Qed.

(** ** The [datetime] constructor *)

(** Decides every comparison of the goal, dropping the impossible cases. *)
Ltac compare_all :=
  repeat match goal with
    | |- context [?a <=? ?b] => destruct (Z.leb_spec a b); try lia
    end;
  cbn [negb andb].

Lemma mk_datetime_ok (date_obj : Z) (hm : Z * Z) :
  in_range hm -> mk_datetime date_obj (fst hm) (snd hm) = Ok (instant date_obj hm).
Proof.
  intros [[H1 H2] [H3 H4]].
  unfold mk_datetime, fits_c_int, INT_MIN, INT_MAX, instant.
  compare_all. reflexivity.
Qed.


(** Out of range, the constructor raises: [OverflowError] when a value
    does not fit a C [int], [ValueError] otherwise. *)
Lemma mk_datetime_out (date_obj hh mm : Z) :
  ~ in_range (hh, mm) ->
  mk_datetime date_obj hh mm =
  Raise (if fits_c_int hh && fits_c_int mm then ValueError else OverflowError).
Proof.
  unfold mk_datetime, fits_c_int, INT_MIN, INT_MAX, in_range. cbn [fst snd].
  intros Hr. compare_all; try reflexivity.
  all: exfalso; apply Hr; lia.
Qed.

(** The parser returns a pair exactly on the time texts of the design. *)
Lemma parse_time_text (s : string) (hh mm : Z) :
  parse_time s = Ok (hh, mm) <-> time_text s hh mm.
Proof.
  rewrite parse_time_ok_iff. unfold time_text, two_integer_parts. split.
  - intros [a [b [Hs [Ha Hb]]]].
    exists (PyStr.split_head "(" s), (time_base s).
    split; [apply PyStrFacts.split_head_before; reflexivity|].
    split; [apply PyStrFacts.trimmed_strip; reflexivity|].
    exists a, b. split; [exact Hs|].
    split; apply PyStrFacts.int_integer_text; assumption.
  - intros [t [base [Hb [Ht [a [b [-> [Ha Hbb]]]]]]]]. exists a, b.
    split; [|split; apply PyStrFacts.int_integer_text; assumption].
    unfold time_base. apply PyStrFacts.split_head_before in Hb. rewrite Hb.
    apply PyStrFacts.trimmed_strip, Ht.
Qed.

(** Two integer texts around a colon stay so when the text is trimmed. *)
Lemma two_integer_parts_trimmed (t : string) (hh mm : Z) :
  two_integer_parts t hh mm ->
  exists base, trimmed t base /\ two_integer_parts base hh mm.
Proof.
  intros [a [b [-> [Ha Hb]]]].
  destruct (PyStrFacts.integer_text_core _ _ Ha)
    as [pa [ca [qa [-> [Hpa [_ [Ha' [_ [Hha [_ Hna]]]]]]]]]].
  destruct (PyStrFacts.integer_text_core _ _ Hb)
    as [pb [cb [qb [-> [_ [Hqb [_ [Hb' [_ [Htb Hnb]]]]]]]]]].
  exists ((ca ++ qa) ++ ":" ++ (pb ++ cb))%string. split; [split; [|split]|].
  - exists pa, qb. split; [|split; assumption].
    rewrite !PyStrFacts.append_assoc. reflexivity.
  - intros c r He. destruct ca as [|d ca]; [contradiction|].
    cbn [append] in He. injection He as <- _. exact (Hha d ca eq_refl).
  - intros r c He.
    replace ((ca ++ qa) ++ ":" ++ pb ++ cb)%string
      with (((ca ++ qa) ++ ":" ++ pb) ++ cb)%string in He
      by (rewrite !PyStrFacts.append_assoc; reflexivity).
    destruct (PyStrFacts.last_of_app _ _ _ _ Hnb He) as [r' Hr'].
    exact (Htb _ _ Hr').
  - exists (ca ++ qa)%string, (pb ++ cb)%string. auto.
Qed.

(** C5.  A text "H:MM" or "HH:MM" followed by nothing, or by blanks, the
    marker "(" and any annotation text, parses to the pair it shows whatever
    the annotation holds.  And [parse_time] returns a pair exactly when the
    text before the first marker, with the whitespace at its two ends
    removed, is two integer-parsable parts around one colon, the pair being
    their values; it raises its format error ([ValueError]) exactly when
    that text is not of this form. *)
Theorem parse_time_spec :
  (forall (hh mm : Z) (hours_text a : string),
     0 <= hh <= 23 -> 0 <= mm <= 59 ->
     hours_text = two_digits hh \/ (hh <= 9 /\ hours_text = one_digit hh) ->
     annotation a ->
     parse_time (hours_text ++ ":" ++ two_digits mm ++ a) = Ok (hh, mm)) /\
  (forall (s : string) (hh mm : Z),
     parse_time s = Ok (hh, mm) <-> time_text s hh mm) /\
  (forall s : string,
     parse_time s = Raise ValueError <-> ~ exists hh mm, time_text s hh mm).
Proof.
  split; [|split].
  - intros hh mm hours_text a Hh Hm Htext Ha.
    destruct (clock_texts hh mm Hh Hm) as [H2 H1].
    destruct Htext as [->|[Hle ->]]; apply shows_parse; auto.
  - exact parse_time_text.
  - intros s. split.
    + intros Hr [h [m Ht]]. apply parse_time_text in Ht. congruence.
    + intros Hno. destruct (parse_time_total s) as [Hr|[[h m] Hok]]; [exact Hr|].
      exfalso. apply Hno. exists h, m. apply parse_time_text, Hok.
Qed.

Lemma parse_time_spec_witness :
  parse_time ("20" ++ ":" ++ two_digits 30 ++ " (CEST)") = Ok (20, 30) /\
  parse_time ("5" ++ ":" ++ two_digits 7 ++ "") = Ok (5, 7) /\
  (parse_time " 5:07 (x)" = Ok (5, 7) <-> time_text " 5:07 (x)" 5 7) /\
  (parse_time "20:30:99" = Raise ValueError <->
   ~ exists hh mm, time_text "20:30:99" hh mm) /\
  (parse_time "abc" = Raise ValueError <-> ~ exists hh mm, time_text "abc" hh mm).
Proof.
  split; [|split; [|split; [|split]]].
  - apply (proj1 parse_time_spec 20 30 "20" " (CEST)"); try lia.
    + left. reflexivity.
    + right. exists " ", "CEST)". split; [|reflexivity].
      cbn. tauto.
  - apply (proj1 parse_time_spec 5 7 "5" ""); try lia.
    + right. split; [lia|reflexivity].
    + left. reflexivity.
  - apply (proj1 (proj2 parse_time_spec) " 5:07 (x)" 5 7).
  - apply (proj2 (proj2 parse_time_spec) "20:30:99").
  - apply (proj2 (proj2 parse_time_spec) "abc").
Defined.

(** The format errors of the design's examples, and a text whose second
    part begins with a separator character that [int] does not skip. *)
Example parse_time_rejects :
  parse_time "20:30:99" = Raise ValueError /\
  parse_time "abc" = Raise ValueError /\
  parse_time (String "031" "12:30") = Ok (12, 30) /\
  parse_time ("12:" ++ String "031" "30") = Raise ValueError /\
  parse_time ("12:" ++ String "009" "30") = Ok (12, 30).
Proof. repeat split; reflexivity. Qed.

(** C10.  [parse_time] checks no range: whenever the text before the
    marker splits into exactly two integer-parsable parts, their two
    values come back unchanged, also outside 0..23 and 0..59 ("99:99"
    gives (99, 99)); the pair is first checked by its consumer, the
    [datetime] constructor, which raises on every pair out of range
    ([OverflowError] when a value does not fit a C [int], [ValueError]
    otherwise) and on no pair in range. *)
Theorem parse_time_unchecked (s t : string) (hh mm : Z) :
  before_marker s t ->
  two_integer_parts t hh mm ->
  parse_time s = Ok (hh, mm) /\
  parse_time "99:99" = Ok (99, 99) /\
  (forall date_obj,
     (in_range (hh, mm) ->
      mk_datetime date_obj hh mm = Ok (instant date_obj (hh, mm))) /\
     (~ in_range (hh, mm) ->
      mk_datetime date_obj hh mm =
      Raise (if fits_c_int hh && fits_c_int mm then ValueError
             else OverflowError))).
Proof.
  intros Hb Hparts. split; [|split].
  - destruct (two_integer_parts_trimmed _ _ _ Hparts) as [base [Ht Hp]].
    apply parse_time_text. exists t, base. auto.
  - reflexivity.
  - intros d. split.
    + apply (mk_datetime_ok d (hh, mm)).
    + apply mk_datetime_out.
Qed.

Lemma parse_time_unchecked_witness :
  parse_time "-7:1_440 (UTC)" = Ok (-7, 1440) /\
  parse_time "99:99" = Ok (99, 99) /\
  (forall date_obj,
     (in_range (-7, 1440) ->
      mk_datetime date_obj (-7) 1440 = Ok (instant date_obj (-7, 1440))) /\
     (~ in_range (-7, 1440) ->
      mk_datetime date_obj (-7) 1440 =
      Raise (if fits_c_int (-7) && fits_c_int 1440 then ValueError
             else OverflowError))).
Proof.
  apply (parse_time_unchecked "-7:1_440 (UTC)" "-7:1_440 " (-7) 1440).
  - split; [cbn; repeat split; discriminate|].
    right. exists "UTC)"%string. reflexivity.
  - exists "-7"%string, "1_440 "%string. split; [reflexivity|]. split.
    + exists ""%string, "-"%string, "7"%string, ""%string, [7].
      split; [reflexivity|]. split; [exact I|]. split; [exact I|].
      split; [apply groups_one; reflexivity|]. split; [cbn; lia|].
      right. split; reflexivity.
    + exists ""%string, ""%string, "1_440"%string, " "%string, [1; 4; 4; 0].
      split; [reflexivity|]. split; [exact I|]. split; [cbn; tauto|].
      split; [|split; [cbn; lia|left; split; [left|]; reflexivity]].
      apply groups_under; [reflexivity|].
      apply groups_digit; [reflexivity|].
      apply groups_digit; [reflexivity|].
      apply groups_one. reflexivity.
Defined.

(** Beyond a C [int] the constructor raises another error than on a value
    that is merely out of range. *)
Example mk_datetime_overflow :
  parse_time "2147483648:00" = Ok (2147483648, 0) /\
  mk_datetime 0 2147483648 0 = Raise OverflowError /\
  mk_datetime 0 24 2147483648 = Raise OverflowError /\
  mk_datetime 0 2147483647 0 = Raise ValueError /\
  mk_datetime 0 24 0 = Raise ValueError.
Proof. repeat split; reflexivity. Qed.

(** ** The alert executor *)

Local Open Scope list_scope.

Section AlertExecutor.

Context {Dev : Type} (env : Env Dev) (cfg : Config).

Lemma commands_app (a b : list Event) : commands (a ++ b) = commands a ++ commands b.
Proof. apply filter_app. Qed.

Lemma last_app_cons {A} (a : list A) (x : A) (b : list A) (d : A) :
  last (a ++ x :: b) d = last (x :: b) d.
Proof.
  induction a as [|y a IH]; [reflexivity|].
  change ((y :: a) ++ x :: b) with (y :: (a ++ x :: b)).
  destruct (a ++ x :: b) eqn:E; [destruct a; discriminate|].
  exact IH.
Qed.


(** C2.  Once the target device is resolved and its volume read, whatever
    the four commands that follow do (return or raise), [play_azan] returns
    normally and does exactly this, in this order: it sends the command
    raising the volume to [AZAN_VOLUME] and prints its success or its
    failure; announces the playback and sends the media command; if that
    command returned, pauses two seconds, sends the play command and prints
    its success or its failure, and if it raised, prints the failure;
    sleeps 180 seconds; sends the command setting the volume to the value
    read at the start, and prints its success or its failure.  So no
    failure of the steps in between skips a later step, and the last
    command sent to the device is the restore, with the value read. *)
Theorem play_azan_restores (w w1 : World Dev) (cast : Chromecast) (v : Q) :
  connect_to_google_home env cfg (snd (print MStart w)) = (Ok (Some cast), w1) ->
  volume_level env cast (dev w1) = Returns v ->
  let raised := set_volume env cast (AZAN_VOLUME cfg) (dev w1) in
  let started := play_media env cast (AZAN_URL cfg) "audio/mp3" (snd raised) in
  let played := mc_play env cast (snd started) in
  let before_restore :=
    match fst started with
    | Returns _ => snd played
    | Throws _ => snd started
    end in
  let restored := set_volume env cast v before_restore in
  let w' := snd (play_azan env cfg w) in
  fst (play_azan env cfg w) = Ok tt /\
  out w' =
    out w1 ++
    [EPrint (MOriginalVolume v);
     ESetVolume cast (AZAN_VOLUME cfg); EPrint (volume_line (fst raised));
     EPrint MAttemptPlay; EPlayMedia cast (AZAN_URL cfg) "audio/mp3"] ++
    playback_steps cast (fst started) (fst played) ++
    [ESleep 180; ESetVolume cast v; EPrint (restore_line v (fst restored))] /\
  dev w' = snd restored /\
  now w' = now w1 + (match fst started with
                     | Returns _ => 182
                     | Throws _ => 180
                     end) * SECOND /\
  jobs w' = jobs w1 /\
  last (commands (out w')) (ESleep 0) = ESetVolume cast v.
Proof.
  intros Hconn Hvol raised started played before_restore restored w'.
  subst w' restored before_restore played started raised.
  cbv [print emit snd] in Hconn.
  cbv [play_azan bind try_except print emit sleep cast_set_volume mc_play_media
       media_play dev_call status_volume_level ret].
  rewrite Hconn. cbv beta iota. rewrite Hvol. cbv [reply]. cbv beta iota.
  cbn [now jobs dev out].
  destruct (set_volume env cast (AZAN_VOLUME cfg) (dev w1)) as [[[]|e3] d3];
    cbn [fst snd now jobs dev out].
  all: destruct (play_media env cast (AZAN_URL cfg) "audio/mp3" d3) as [[[]|e4] d4];
    cbn [fst snd now jobs dev out].
  all: try (destruct (mc_play env cast d4) as [[[]|e5] d5];
    cbn [fst snd now jobs dev out]).
  all: match goal with
       | |- context [fst (set_volume _ ?c ?x ?d)] =>
           destruct (set_volume env c x d) as [[[]|e6] d6]
       end; cbn [fst snd now jobs dev out volume_line playback_steps restore_line];
       repeat rewrite <- app_assoc; cbn [app].
  all: split; [reflexivity|]; split; [reflexivity|]; split; [reflexivity|];
       split; [unfold SECOND; lia|]; split; [reflexivity|].
  all: rewrite commands_app; cbn [commands filter is_command];
       rewrite last_app_cons; reflexivity.
Qed.

End AlertExecutor.

Lemma play_azan_restores_witness :
  let w1 := snd (connect_to_google_home stalling_env user_config
                   (snd (print MStart (boot 0)))) in
  let w' := snd (play_azan stalling_env user_config (boot 0)) in
  fst (play_azan stalling_env user_config (boot 0)) = Ok tt /\
  out w' =
    out w1 ++
    [EPrint (MOriginalVolume (4 # 10));
     ESetVolume target 1; EPrint (MVolumeSetFailed CastError);
     EPrint MAttemptPlay;
     EPlayMedia target "https://www.islamcan.com/audio/adhan/azan1.mp3" "audio/mp3"] ++
    [ESleep 2; EPlay target; EPrint (MPlayError CastError)] ++
    [ESleep 180; ESetVolume target (4 # 10); EPrint (MRestored (4 # 10))] /\
  dev w' = {| sp_volume := 4 # 10; sp_commands := 4 |} /\
  now w' = now w1 + 182 * SECOND /\
  jobs w' = jobs w1 /\
  last (commands (out w')) (ESleep 0) = ESetVolume target (4 # 10).
Proof.
  exact (play_azan_restores stalling_env user_config (boot 0)
           (snd (connect_to_google_home stalling_env user_config
                   (snd (print MStart (boot 0)))))
           target (4 # 10) eq_refl eq_refl).
Defined.

Example play_azan_flaky :
  commands (out (snd (play_azan flaky_env user_config (boot 0)))) =
  [ESetVolume target 1;
   EPlayMedia target "https://www.islamcan.com/audio/adhan/azan1.mp3" "audio/mp3";
   ESetVolume target (4 # 10)] /\
  sp_volume (dev (snd (play_azan flaky_env user_config (boot 0)))) = 4 # 10 /\
  now (snd (play_azan flaky_env user_config (boot 0))) = 180 * SECOND.
Proof. vm_compute. repeat split; reflexivity. Qed.

(** ** Dates and times of day *)

Lemma strftime_instant (date_obj : Z) (hm : Z * Z) :
  in_range hm -> strftime_HM (instant date_obj hm) = hm.
Proof.
  destruct hm as [h m]. unfold in_range, strftime_HM, instant,
    DAY, HOUR, MINUTE, SECOND. simpl fst. simpl snd. intros [Hh Hm].
  f_equal; Z.div_mod_to_equations; lia.
Qed.

(** A job asked for the time of day of a minute-aligned instant that lies
    ahead by at most a day runs first at that very instant. *)
Lemma next_occurrence_exact (now_ dt : Z) :
  dt mod MINUTE = 0 -> now_ < dt <= now_ + DAY ->
  Schedule.next_occurrence now_ (strftime_HM dt) = dt.
Proof.
  unfold Schedule.next_occurrence, strftime_HM, DAY, HOUR, MINUTE, SECOND.
  simpl fst. simpl snd. intros Hal Hr.
  match goal with |- (if ?c then _ else _) = _ => destruct c eqn:E end;
    [apply Z.ltb_lt in E|apply Z.ltb_ge in E];
    Z.div_mod_to_equations; lia.
Qed.

(** ** Building the day's events *)

Section Scheduling.

Context {Dev : Type}.

Lemma extends_refl (w : World Dev) : extends w w [].
Proof.
  unfold extends. rewrite app_nil_r. repeat split. exists []. rewrite app_nil_r.
  reflexivity.
Qed.

Lemma extends_trans (w1 w2 w3 : World Dev) (a b : list Job) :
  extends w1 w2 a -> extends w2 w3 b -> extends w1 w3 (a ++ b).
Proof.
  intros [Hn1 [Hj1 [Hd1 [o1 Ho1]]]] [Hn2 [Hj2 [Hd2 [o2 Ho2]]]].
  unfold extends. rewrite Hn2, Hj2, Hd2, Ho2, Hn1, Hj1, Hd1, Ho1.
  rewrite <- !app_assoc. repeat split. exists (o1 ++ o2). reflexivity.
Qed.

Lemma print_run (m : Msg) (w : World Dev) :
  fst (print m w) = Ok tt /\ extends w (snd (print m w)) [].
Proof.
  split; [reflexivity|]. unfold extends. simpl. rewrite app_nil_r.
  repeat split. eexists. reflexivity.
Qed.

Lemma every_day_at_do_run (hm : Z * Z) (f : Action) (w : World Dev) :
  Schedule.every_day_at_do hm f w =
  (Ok tt, mkWorld (now w)
                  (jobs w ++ [{| at_time := hm; job_func := f;
                                 next_run := Schedule.next_occurrence (now w) hm |}])
                  (dev w) (out w)).
Proof. reflexivity. Qed.

(** One turn of the scheduling loop on a time the parser and the
    [datetime] constructor accept. *)
Lemma schedule_prayer_run (date_obj : Z) (prayer : Prayer) (t_str : Json)
    (hm : Z * Z) (w : World Dev) :
  parse_time_of t_str = Ok hm -> in_range hm ->
  fst (schedule_prayer date_obj prayer t_str w) = Ok tt /\
  extends w (snd (schedule_prayer date_obj prayer t_str w))
          (events_for (now w) date_obj prayer hm).
Proof.
  intros Hp Hr.
  unfold schedule_prayer, events_for, bind, lift. rewrite Hp.
  rewrite (mk_datetime_ok date_obj hm Hr).
  unfold datetime_now, Schedule.every_day_at_do, Schedule.get_jobs,
    Schedule.set_jobs, bind, datetime_now, print, emit, ret.
  cbn [now jobs dev out].
  destruct (now w <? instant date_obj hm - 1 * MINUTE);
    [destruct (now w <? instant date_obj hm - 10 * MINUTE)|];
    (split; [reflexivity|]); unfold extends; cbn [fst snd now jobs dev out];
    rewrite <- ?app_assoc, ?app_nil_r; cbn [app];
    repeat split; eexists; reflexivity.
Qed.

Lemma for_each_run {A} (body : A -> M Dev unit) (g : Z -> A -> list Job)
    (l : list A) :
  (forall x w, In x l ->
     fst (body x w) = Ok tt /\ extends w (snd (body x w)) (g (now w) x)) ->
  forall w,
    fst (for_each body l w) = Ok tt /\
    extends w (snd (for_each body l w)) (flat_map (g (now w)) l).
Proof.
  induction l as [|x l IH]; intros Hbody w.
  - split; [reflexivity|apply extends_refl].
  - cbn [for_each flat_map]. unfold bind.
    destruct (Hbody x w (or_introl eq_refl)) as [Hok Hext].
    destruct (body x w) as [r w1]. cbn [fst snd] in Hok, Hext. subst r.
    destruct (IH (fun y w' Hy => Hbody y w' (or_intror Hy)) w1) as [Hok' Hext'].
    split; [exact Hok'|].
    assert (Hn : now w1 = now w) by apply Hext. rewrite Hn in Hext'.
    exact (extends_trans _ _ _ _ _ Hext Hext').
Qed.

(** The whole of [schedule_daily_prayers] on five accepted times: it
    returns normally, leaves the clock and the devices alone, and appends
    the events of the five prayers, in the order of the dict. *)
Lemma schedule_daily_prayers_run (date_obj : Z) (prayer_times : PrayerTimes)
    (tm : Prayer -> Z * Z) (w : World Dev) :
  (forall p, parse_time_of (time_of prayer_times p) = Ok (tm p) /\ in_range (tm p)) ->
  fst (schedule_daily_prayers date_obj prayer_times w) = Ok tt /\
  extends w (snd (schedule_daily_prayers date_obj prayer_times w))
          (flat_map (fun p => events_for (now w) date_obj p (tm p)) all_prayers).
Proof.
  intros Hwf. unfold schedule_daily_prayers, bind.
  change (print (MSchedulingFor date_obj) w)
    with (Ok tt, mkWorld (now w) (jobs w) (dev w)
                         (out w ++ [EPrint (MSchedulingFor date_obj)])).
  cbv iota.
  set (w0 := mkWorld (now w) (jobs w) (dev w) (out w ++ [EPrint (MSchedulingFor date_obj)])).
  assert (H0 : extends w w0 []).
  { unfold extends, w0. cbn [now jobs dev out]. rewrite app_nil_r.
    repeat split. eexists. reflexivity. }
  destruct (for_each_run (fun pt => print (MTimeOf (fst pt) (snd pt)))
              (fun _ _ => []) (items prayer_times)
              (fun x w' _ => print_run _ w') w0) as [Hok1 Hext1].
  destruct (for_each (fun pt => print (MTimeOf (fst pt) (snd pt)))
                     (items prayer_times) w0) as [r1 w1].
  cbn [fst snd] in Hok1, Hext1. subst r1.
  assert (Hnil : flat_map (fun _ : Prayer * Json => @nil Job) (items prayer_times) = [])
    by reflexivity.
  rewrite Hnil in Hext1.
  assert (H1 : extends w w1 []) by exact (extends_trans _ _ _ _ _ H0 Hext1).
  assert (Hn : now w1 = now w) by apply H1.
  destruct (for_each_run (fun pt => schedule_prayer date_obj (fst pt) (snd pt))
              (fun n pt => match parse_time_of (snd pt) with
                           | Ok hm => events_for n date_obj (fst pt) hm
                           | _ => []
                           end)
              (items prayer_times)) with (w := w1) as [Hok2 Hext2].
  { intros [p t] w' Hin. cbn [fst snd].
    assert (Ht : t = time_of prayer_times p).
    { unfold items in Hin. cbn [In] in Hin.
      destruct Hin as [H|[H|[H|[H|[H|[]]]]]]; injection H as <- <-; reflexivity. }
    subst t. destruct (Hwf p) as [Hp Hr]. rewrite Hp.
    apply schedule_prayer_run; assumption. }
  split; [exact Hok2|].
  rewrite Hn in Hext2. unfold items in Hext2. cbn [flat_map fst snd] in Hext2.
  pose proof (Hwf Fajr) as [HF _]. pose proof (Hwf Dhuhr) as [HD _].
  pose proof (Hwf Asr) as [HA _]. pose proof (Hwf Maghrib) as [HM _].
  pose proof (Hwf Isha) as [HI _]. cbn [time_of] in HF, HD, HA, HM, HI.
  rewrite HF, HD, HA, HM, HI in Hext2.
  unfold items. unfold all_prayers. cbn [flat_map].
  exact (extends_trans _ _ _ _ _ H1 Hext2).
Qed.

(** C1 (amended).  On five times the parser and [datetime] accept,
    [schedule_daily_prayers] returns normally and appends to the job store
    the events of the five prayers in dict order, where a prayer whose fire
    instant (prayer instant minus one minute) is still ahead of the clock
    contributes one [play_azan] job at the time of day of that instant,
    followed by one reminder job at the time of day of (prayer instant
    minus ten minutes) exactly when that instant is still ahead too, and a
    prayer whose fire instant is not ahead contributes nothing.  So when all
    five fire instants are ahead there are exactly five alerts, one per
    prayer, each at its fire instant's time of day; and a job scheduled
    for an instant at most a day ahead first runs at that very instant. *)
Theorem schedule_daily_prayers_events (date_obj : Z) (prayer_times : PrayerTimes)
    (tm : Prayer -> Z * Z) (w : World Dev) :
  (forall p, parse_time_of (time_of prayer_times p) = Ok (tm p) /\ in_range (tm p)) ->
  let fire p := instant date_obj (tm p) - 1 * MINUTE in
  let notice p := instant date_obj (tm p) - 10 * MINUTE in
  exists (of_prayer : Prayer -> list Job) (added : list Job),
    fst (schedule_daily_prayers date_obj prayer_times w) = Ok tt /\
    jobs (snd (schedule_daily_prayers date_obj prayer_times w)) = jobs w ++ added /\
    added = of_prayer Fajr ++ of_prayer Dhuhr ++ of_prayer Asr ++
            of_prayer Maghrib ++ of_prayer Isha /\
    (forall p, now w < fire p ->
       map job_event (of_prayer p) =
       (strftime_HM (fire p), PlayAzan) ::
       (if now w <? notice p
        then [(strftime_HM (notice p), ReminderClosure p (strftime_HM (fire p)))]
        else [])) /\
    (forall p, fire p <= now w -> of_prayer p = []) /\
    ((forall p, now w < fire p) ->
       map job_event (filter is_alert added) =
       map (fun p => (strftime_HM (fire p), PlayAzan)) all_prayers) /\
    (forall p j, In j (of_prayer p) -> fire p <= now w + DAY ->
       next_run j = if is_alert j then fire p else notice p).
Proof.
  intros Hwf fire notice.
  destruct (schedule_daily_prayers_run date_obj prayer_times tm w Hwf)
    as [Hok [_ [Hjobs _]]].
  exists (fun p => events_for (now w) date_obj p (tm p)).
  eexists. split; [exact Hok|]. split; [exact Hjobs|].
  assert (Hfuture : forall p, now w < fire p ->
            map job_event (events_for (now w) date_obj p (tm p)) =
            (strftime_HM (fire p), PlayAzan) ::
            (if now w <? notice p
             then [(strftime_HM (notice p), ReminderClosure p (strftime_HM (fire p)))]
             else [])).
  { intros p Hp. unfold events_for. fold (fire p). fold (notice p).
    apply Z.ltb_lt in Hp. rewrite Hp.
    destruct (now w <? notice p); reflexivity. }
  split; [|split; [exact Hfuture|split; [|split]]].
  - unfold all_prayers. cbn [flat_map]. rewrite app_nil_r. reflexivity.
  - intros p Hp. unfold events_for. fold (fire p).
    apply Z.ltb_ge in Hp. rewrite Hp. reflexivity.
  - intros Hall. unfold all_prayers. cbn [flat_map map].
    rewrite !filter_app, !map_app. cbn [filter map app].
    assert (Hone : forall p,
              map job_event (filter is_alert (events_for (now w) date_obj p (tm p)))
              = [(strftime_HM (fire p), PlayAzan)]).
    { intros p. unfold events_for. fold (fire p). fold (notice p).
      pose proof (Hall p) as Hp. apply Z.ltb_lt in Hp. rewrite Hp.
      destruct (now w <? notice p); reflexivity. }
    rewrite !Hone. reflexivity.
  - intros p j Hin Hday. unfold events_for in Hin.
    fold (fire p) in Hin. fold (notice p) in Hin.
    destruct (Hwf p) as [_ [Hh Hm]].
    assert (Hal : fire p mod MINUTE = 0 /\ notice p mod MINUTE = 0).
    { unfold fire, notice, instant, DAY, HOUR, MINUTE, SECOND.
      split; Z.div_mod_to_equations; lia. }
    assert (Hlt : notice p < fire p) by (unfold fire, notice, MINUTE, SECOND; lia).
    destruct (now w <? fire p) eqn:E1; [|destruct Hin].
    apply Z.ltb_lt in E1.
    destruct Hin as [<-|Hin].
    + cbn [is_alert job_func next_run].
      apply next_occurrence_exact; [apply Hal|lia].
    + destruct (now w <? notice p) eqn:E2; [|destruct Hin].
      apply Z.ltb_lt in E2. destruct Hin as [<-|[]].
      cbn [is_alert job_func next_run].
      apply next_occurrence_exact; [apply Hal|lia].
Qed.

(** C7 (amended).  With the clock standing still, a second call of
    [schedule_daily_prayers] on the same date and times appends the same
    events once more: after two calls the store holds the events of one
    call twice (the same distinct events, each registered twice), and it
    equals the store of a single call when [schedule.clear()] runs before
    the second call, as it does at the top of every pass of [main_loop]. *)
Theorem schedule_daily_prayers_twice (date_obj : Z) (prayer_times : PrayerTimes)
    (tm : Prayer -> Z * Z) (w : World Dev) :
  (forall p, parse_time_of (time_of prayer_times p) = Ok (tm p) /\ in_range (tm p)) ->
  let once := snd (schedule_daily_prayers date_obj prayer_times w) in
  let twice := snd (schedule_daily_prayers date_obj prayer_times once) in
  let cleared :=
    snd ((Schedule.clear ;; schedule_daily_prayers date_obj prayer_times) once) in
  exists added,
    now once = now w /\ now twice = now w /\
    jobs once = jobs w ++ added /\
    jobs twice = jobs w ++ added ++ added /\
    jobs cleared = added /\
    (forall e, In e (map job_event (jobs twice)) <-> In e (map job_event (jobs once))).
Proof.
  intros Hwf once twice cleared.
  destruct (schedule_daily_prayers_run date_obj prayer_times tm w Hwf)
    as [_ [Hn1 [Hj1 _]]].
  destruct (schedule_daily_prayers_run date_obj prayer_times tm once Hwf)
    as [_ [Hn2 [Hj2 _]]].
  fold once in Hn1, Hj1. fold twice in Hn2, Hj2. rewrite Hn1 in Hj2.
  set (added := flat_map (fun p => events_for (now w) date_obj p (tm p)) all_prayers) in *.
  exists added. repeat split.
  - exact Hn1.
  - rewrite Hn2. exact Hn1.
  - exact Hj1.
  - rewrite Hj2, Hj1, <- app_assoc. reflexivity.
  - unfold cleared, bind. cbn [Schedule.clear Schedule.set_jobs].
    destruct (schedule_daily_prayers_run date_obj prayer_times tm
                (mkWorld (now once) [] (dev once) (out once)) Hwf)
      as [_ [_ [Hj3 _]]].
    cbn [now jobs app] in Hj3. rewrite Hj3. unfold added. rewrite Hn1.
    reflexivity.
  - rewrite Hj2, Hj1, !map_app, !in_app_iff. tauto.
  - rewrite Hj2, Hj1, !map_app, !in_app_iff. tauto.
Qed.


End Scheduling.

(** C1 as stated fails at the edge: half a minute before the alert of Fajr
    is due all five prayers still lie ahead, yet only four alerts are
    scheduled. *)
Lemma schedule_daily_prayers_boundary :
  (forall p, at_clock 0 5 11 30 < instant 0 (match p with
                                            | Fajr => (5, 12) | Dhuhr => (13, 5)
                                            | Asr => (16, 40) | Maghrib => (19, 58)
                                            | Isha => (21, 20)
                                            end)) /\
  map job_event
    (filter is_alert
       (jobs (snd (schedule_daily_prayers 0 scenario_times
                     (boot (at_clock 0 5 11 30)))))) =
  [((13, 4), PlayAzan); ((16, 39), PlayAzan); ((19, 57), PlayAzan);
   ((21, 19), PlayAzan)].
Proof.
  split; [intros []; vm_compute; reflexivity|vm_compute; reflexivity].
Qed.

Lemma scenario_accepted (p : Prayer) :
  parse_time_of (time_of scenario_times p) = Ok (scenario_tm p) /\
  in_range (scenario_tm p).
Proof. destruct p; (split; [reflexivity|unfold in_range; simpl; lia]). Qed.

Lemma schedule_daily_prayers_events_witness :
  exists (of_prayer : Prayer -> list Job) (added : list Job),
    fst (schedule_daily_prayers 0 scenario_times (boot (at_clock 0 4 0 0))) = Ok tt /\
    jobs (snd (schedule_daily_prayers 0 scenario_times (boot (at_clock 0 4 0 0))))
      = [] ++ added /\
    added = of_prayer Fajr ++ of_prayer Dhuhr ++ of_prayer Asr ++
            of_prayer Maghrib ++ of_prayer Isha /\
    (forall p, at_clock 0 4 0 0 < instant 0 (scenario_tm p) - 1 * MINUTE ->
       map job_event (of_prayer p) =
       (strftime_HM (instant 0 (scenario_tm p) - 1 * MINUTE), PlayAzan) ::
       (if at_clock 0 4 0 0 <? instant 0 (scenario_tm p) - 10 * MINUTE
        then [(strftime_HM (instant 0 (scenario_tm p) - 10 * MINUTE),
               ReminderClosure p (strftime_HM (instant 0 (scenario_tm p) - 1 * MINUTE)))]
        else [])) /\
    (forall p, instant 0 (scenario_tm p) - 1 * MINUTE <= at_clock 0 4 0 0 ->
               of_prayer p = []) /\
    ((forall p, at_clock 0 4 0 0 < instant 0 (scenario_tm p) - 1 * MINUTE) ->
       map job_event (filter is_alert added) =
       map (fun p => (strftime_HM (instant 0 (scenario_tm p) - 1 * MINUTE), PlayAzan))
           all_prayers) /\
    (forall p j, In j (of_prayer p) ->
       instant 0 (scenario_tm p) - 1 * MINUTE <= at_clock 0 4 0 0 + DAY ->
       next_run j = if is_alert j then instant 0 (scenario_tm p) - 1 * MINUTE
                    else instant 0 (scenario_tm p) - 10 * MINUTE).
Proof.
  exact (schedule_daily_prayers_events 0 scenario_times scenario_tm
           (boot (at_clock 0 4 0 0)) scenario_accepted).
Defined.

(** The end-to-end scenario: at 04:00 the five alerts and five reminders. *)
Example scenario_events :
  map job_event (jobs (snd (schedule_daily_prayers 0 scenario_times
                              (boot (at_clock 0 4 0 0))))) =
  [((5, 11), PlayAzan); ((5, 2), ReminderClosure Fajr (5, 11));
   ((13, 4), PlayAzan); ((12, 55), ReminderClosure Dhuhr (13, 4));
   ((16, 39), PlayAzan); ((16, 30), ReminderClosure Asr (16, 39));
   ((19, 57), PlayAzan); ((19, 48), ReminderClosure Maghrib (19, 57));
   ((21, 19), PlayAzan); ((21, 10), ReminderClosure Isha (21, 19))].
Proof. vm_compute. reflexivity. Qed.

(** C7 as stated fails: with the same date, times and clock, the store
    after a second call is not the store after the first; every event is
    there twice. *)
Lemma schedule_daily_prayers_not_idempotent :
  let once := snd (schedule_daily_prayers 0 scenario_times (boot (at_clock 0 4 0 0))) in
  let twice := snd (schedule_daily_prayers 0 scenario_times once) in
  now once = at_clock 0 4 0 0 /\ now twice = at_clock 0 4 0 0 /\
  jobs twice <> jobs once /\
  List.length (jobs once) = 10%nat /\ List.length (jobs twice) = 20%nat /\
  map job_event (firstn 2 (jobs twice)) = map job_event (firstn 2 (skipn 10 (jobs twice))).
Proof.
  vm_compute. repeat split; try reflexivity. discriminate.
Qed.

(** ** Frame rules for the monad of statements *)

Section Frame.

Context {Dev : Type}.
Variable P : World Dev -> World Dev -> Prop.
Variable ok : Event -> Prop.
Hypothesis P_refl : forall w, P w w.
Hypothesis P_trans : forall a b c, P a b -> P b c -> P a c.
Hypothesis P_emit :
  forall w e, ok e -> P w (mkWorld (now w) (jobs w) (dev w) (out w ++ [e])).
Hypothesis P_dev : forall w d, P w (mkWorld (now w) (jobs w) d (out w)).
Hypothesis P_sleep :
  forall w s, 0 <= s ->
    P w (mkWorld (now w + s * SECOND) (jobs w) (dev w) (out w ++ [ESleep s])).
Hypothesis P_jobs : forall w js, P w (mkWorld (now w) js (dev w) (out w)).

Lemma preserves_ret {A} (a : A) : preserves P (ret (Dev:=Dev) a).
Proof. intros w. apply P_refl. Qed.

Lemma preserves_raise {A} (e : Exn) : preserves P (raise (Dev:=Dev) (A:=A) e).
Proof. intros w. apply P_refl. Qed.

Lemma preserves_lift {A} (r : Res A) : preserves P (lift (Dev:=Dev) r).
Proof. intros w. apply P_refl. Qed.

Lemma preserves_now : preserves P (datetime_now (Dev:=Dev)).
Proof. intros w. apply P_refl. Qed.

Lemma preserves_get_jobs : preserves P (Schedule.get_jobs (Dev:=Dev)).
Proof. intros w. apply P_refl. Qed.

Lemma preserves_bind {A B} (m : M Dev A) (k : A -> M Dev B) :
  preserves P m -> (forall a, preserves P (k a)) -> preserves P (bind m k).
Proof.
  intros Hm Hk w. unfold bind. specialize (Hm w).
  destruct (m w) as [[a|e|] w1]; cbn [snd] in Hm; cbn [snd]; try exact Hm.
  exact (P_trans _ _ _ Hm (Hk a w1)).
Qed.

Lemma preserves_try {A} (body : M Dev A) (handler : Exn -> M Dev A) :
  preserves P body -> (forall e, preserves P (handler e)) ->
  preserves P (try_except body handler).
Proof.
  intros Hm Hk w. unfold try_except. specialize (Hm w).
  destruct (body w) as [[a|e|] w1]; cbn [snd] in Hm; cbn [snd]; try exact Hm.
  exact (P_trans _ _ _ Hm (Hk e w1)).
Qed.

Lemma preserves_emit (e : Event) : ok e -> preserves P (emit (Dev:=Dev) e).
Proof. intros He w. apply P_emit, He. Qed.

Lemma preserves_sleep (s : Z) : 0 <= s -> preserves P (sleep (Dev:=Dev) s).
Proof. intros Hs w. apply P_sleep, Hs. Qed.

Lemma preserves_dev_call {A} (e : Event) (op : Dev -> Reply A * Dev) :
  ok e -> preserves P (dev_call e op).
Proof.
  intros He. unfold dev_call. apply preserves_bind; [apply preserves_emit, He|].
  intros _ w. apply P_dev.
Qed.

Lemma preserves_set_jobs (js : list Job) : preserves P (Schedule.set_jobs (Dev:=Dev) js).
Proof. intros w. apply P_jobs. Qed.

Lemma preserves_for_each {A} (body : A -> M Dev unit) (l : list A) :
  (forall x, preserves P (body x)) -> preserves P (for_each body l).
Proof.
  intros Hb. induction l as [|x l IH]; cbn [for_each].
  - apply preserves_ret.
  - apply preserves_bind; [apply Hb|intros _; exact IH].
Qed.

Context (env : Env Dev) (cfg : Config).
Hypothesis ok_print : forall m, plain m = true -> ok (EPrint m).
Hypothesis ok_device : forall e, device e = true -> ok e.
Hypothesis ok_run : forall i j, ok (ERun i j).

Ltac frame :=
  repeat first
    [ apply preserves_dev_call
    | apply preserves_bind; [|intro]
    | apply preserves_try; [|intro]
    | apply preserves_for_each; intro
    | apply preserves_ret
    | apply preserves_raise
    | apply preserves_lift
    | apply preserves_now
    | apply preserves_get_jobs
    | apply preserves_set_jobs
    | apply preserves_sleep; lia
    | apply preserves_emit
    | apply ok_print; reflexivity
    | apply ok_device; reflexivity
    | apply ok_run
    | match goal with
      | |- preserves _ (match ?x with _ => _ end) => destruct x
      end
    | intros w; apply P_refl ].

Lemma preserves_play_azan : preserves P (play_azan env cfg).
Proof. unfold play_azan, connect_to_google_home, cast_set_volume,
         mc_play_media, media_play, status_volume_level. frame. Qed.

Lemma preserves_call (f : Action) : preserves P (call env cfg f).
Proof. destruct f; [apply preserves_play_azan|unfold call; frame]. Qed.

Lemma preserves_run_job (i : nat) : preserves P (Schedule.run_job (call env cfg) i).
Proof.
  unfold Schedule.run_job. frame. apply preserves_call.
Qed.

Lemma preserves_run_all (l : list (nat * Z)) :
  preserves P (Schedule.run_all (call env cfg) l).
Proof.
  induction l as [|x l IH]; cbn [Schedule.run_all].
  - apply preserves_ret.
  - apply preserves_bind; [apply preserves_run_job|intros _; exact IH].
Qed.


Lemma preserves_wait_isha (fuel : nat) (dt_isha : Z) :
  preserves P (wait_isha env cfg fuel dt_isha).
Proof.
  induction fuel as [|fuel IH]; cbn [wait_isha].
  - intros w. apply P_refl.
  - frame; first [apply preserves_run_all|exact IH].
Qed.

Lemma preserves_every_day_at_do (hm : Z * Z) (f : Action) :
  preserves P (Schedule.every_day_at_do (Dev:=Dev) hm f).
Proof. unfold Schedule.every_day_at_do. frame. Qed.

Lemma preserves_schedule_test_time (date_obj : Z) (s : string) :
  preserves P (schedule_test_time (Dev:=Dev) date_obj s).
Proof.
  unfold schedule_test_time. frame; apply preserves_every_day_at_do.
Qed.

Lemma preserves_schedule_daily_prayers (date_obj : Z) (pt : PrayerTimes) :
  ok (EPrint (MSchedulingFor date_obj)) ->
  preserves P (schedule_daily_prayers (Dev:=Dev) date_obj pt).
Proof.
  intros Hd. unfold schedule_daily_prayers, schedule_prayer.
  frame; try exact Hd; apply preserves_every_day_at_do.
Qed.

Lemma preserves_get_prayer_times (date_obj : Z) (city country : string) (method : Z) :
  ok (EPrint (MFetching date_obj)) ->
  (forall q, q_date q = date_obj -> ok (EGet q)) ->
  preserves P (get_prayer_times_for_date env date_obj city country method).
Proof.
  intros Hf Hq. unfold get_prayer_times_for_date, http_get, resp_json.
  frame; try exact Hf; try (apply Hq; reflexivity).
Qed.

Lemma preserves_cycle (fuel : nat) (city country : string) (method : Z)
    (current_day : Z) :
  ok (EPrint (MFetching current_day)) ->
  ok (EPrint (MSchedulingFor current_day)) ->
  (forall q, q_date q = current_day -> ok (EGet q)) ->
  preserves P (cycle env cfg fuel city country method current_day).
Proof.
  intros Hf Hs Hq. unfold cycle, Schedule.clear.
  apply preserves_bind; [apply preserves_set_jobs|intros _].
  apply preserves_bind;
    [apply preserves_get_prayer_times; assumption|intros [pt|]].
  - apply preserves_bind;
      [apply preserves_schedule_daily_prayers; assumption|intros _].
    apply preserves_bind; [apply preserves_schedule_test_time|intros _].
    frame. apply preserves_wait_isha.
  - frame.
Qed.

End Frame.

(** ** Statements that end, statements that return *)

Section Totality.

Context {Dev : Type} (env : Env Dev) (cfg : Config).






















End Totality.

(** ** Running the pending jobs *)

Lemma bind_ok {Dev A B} (m : M Dev A) (k : A -> M Dev B) (w w1 : World Dev) (a : A) :
  m w = (Ok a, w1) -> bind m k w = k a w1.
Proof. intros H. unfold bind. rewrite H. reflexivity. Qed.

Lemma bind_inv {Dev A B} (m : M Dev A) (k : A -> M Dev B) (w w2 : World Dev) (b : B) :
  bind m k w = (Ok b, w2) ->
  exists a w1, m w = (Ok a, w1) /\ k a w1 = (Ok b, w2).
Proof.
  unfold bind. destruct (m w) as [[a|e|] w1]; try discriminate.
  intros H. exists a, w1. auto.
Qed.











Section Continues.

Context {Dev : Type}.
Variable ok : Event -> Prop.

Lemma continues_same (w w' : World Dev) : out w' = out w -> continues ok w w'.
Proof.
  intros H. exists []. rewrite app_nil_r. split; [exact H|intros e []].
Qed.

Lemma continues_refl (w : World Dev) : continues ok w w.
Proof. apply continues_same. reflexivity. Qed.

Lemma continues_trans (a b c : World Dev) :
  continues ok a b -> continues ok b c -> continues ok a c.
Proof.
  intros [o1 [H1 Hok1]] [o2 [H2 Hok2]]. exists (o1 ++ o2).
  rewrite H2, H1, app_assoc. split; [reflexivity|].
  intros e Hin. apply in_app_or in Hin as [Hin|Hin]; auto.
Qed.

Lemma continues_step (w w' : World Dev) (e : Event) :
  out w' = out w ++ [e] -> ok e -> continues ok w w'.
Proof.
  intros H He. exists [e]. split; [exact H|].
  intros e' [<-|[]]. exact He.
Qed.

Lemma continues_impl (ok' : Event -> Prop) (w w' : World Dev) :
  (forall e, ok e -> ok' e) -> continues ok w w' -> continues ok' w w'.
Proof. intros H [o [Ho Hok]]. exists o. auto. Qed.

End Continues.

Section Pending.

Context {Dev : Type} (env : Env Dev) (cfg : Config).










(** Only jobs that are due are started: whatever [run_pending] starts at
    instant [t] had its next run at [t] or before. *)





End Pending.

(** ** The day loop *)

Section DayLoop.

Context {Dev : Type} (env : Env Dev) (cfg : Config).

Lemma wait_isha_last (dt_isha : Z) (fuel : nat) :
  forall w w', wait_isha env cfg fuel dt_isha w = (Ok tt, w') ->
               last (out w') (ESleep 0) = EPrint MIshaPassed /\ dt_isha < now w'.
Proof.
  induction fuel as [|fuel IH]; intros w w'; cbn [wait_isha]; [discriminate|].
  unfold bind at 1. unfold datetime_now at 1.
  destruct (dt_isha <? now w) eqn:E.
  - cbn [print emit]. intros H. injection H as <-. cbn [out now].
    split; [apply last_last|apply Z.ltb_lt, E].
  - intros H. apply bind_inv in H as [[] [w1 [_ H]]].
    apply bind_inv in H as [[] [w2 [_ H]]]. exact (IH _ _ H).
Qed.


(** A pass that comes back either waited for Isha and moves to the next
    day, or could not fetch, slept an hour and keeps the day. *)
Lemma cycle_outcome (fuel : nat) (city country : string) (method d d1 : Z)
    (w w1 : World Dev) :
  cycle env cfg fuel city country method d w = (Ok d1, w1) ->
  (d1 = d + 1 /\ last (out w1) (ESleep 0) = EPrint MIshaPassed) \/
  (d1 = d /\ last (out w1) (ESleep 0) = ESleep 3600).
Proof.
  unfold cycle. intros H.
  apply bind_inv in H as [[] [w0 [_ H]]].
  apply bind_inv in H as [[pt|] [wa [_ H]]].
  - left.
    apply bind_inv in H as [[] [wb [_ H]]].
    apply bind_inv in H as [[] [wc [_ H]]].
    apply bind_inv in H as [isha [wd [_ H]]].
    apply bind_inv in H as [dt [we [_ H]]].
    apply bind_inv in H as [[] [wf [Hw H]]].
    injection H as <- <-. split; [reflexivity|].
    apply (wait_isha_last _ _ _ _ Hw).
  - right. cbn in H. injection H as <- <-. split; [reflexivity|].
    cbn [out]. apply last_last.
Qed.

Lemma dated_refl (d : Z) (w : World Dev) : dated d w w.
Proof. apply continues_refl. Qed.

Lemma dated_trans (d : Z) (a b c : World Dev) :
  dated d a b -> dated d b c -> dated d a c.
Proof. apply continues_trans. Qed.

Lemma dated_weaken (d d' : Z) (a b : World Dev) :
  d <= d' -> dated d' a b -> dated d a b.
Proof.
  intros Hle. apply continues_impl. intros e He x Hx. specialize (He x Hx). lia.
Qed.

Lemma cycle_dated (fuel : nat) (city country : string) (method d : Z) :
  preserves (dated d) (cycle env cfg fuel city country method d).
Proof.
  apply preserves_cycle
    with (ok := fun e => forall x, date_of_event e = Some x -> d <= x).
  - apply dated_refl.
  - apply dated_trans.
  - intros w e He. apply (continues_step _ _ _ e); [reflexivity|exact He].
  - intros w dv. apply continues_same. reflexivity.
  - intros w s _. apply (continues_step _ _ _ (ESleep s)); [reflexivity|discriminate].
  - intros w js. apply continues_same. reflexivity.
  - intros m Hm x. destruct m; discriminate.
  - intros e He x. destruct e; discriminate.
  - intros i j x. discriminate.
  - intros x Hx. injection Hx as <-. lia.
  - intros x Hx. injection Hx as <-. lia.
  - intros q Hq x Hx. injection Hx as <-. lia.
Qed.

(** Passes started on day [d] only ever mention [d] and later days. *)
Lemma cycles_dated (n fuel : nat) (city country : string) (method : Z) :
  forall d, preserves (dated d) (cycles env cfg n fuel city country method d).
Proof.
  induction n as [|n IH]; intros d w; cbn [cycles].
  - apply dated_refl.
  - unfold bind. pose proof (cycle_dated fuel city country method d w) as H1.
    destruct (cycle env cfg fuel city country method d w) as [[d1|e|] w1] eqn:E;
      cbn [snd] in H1; [|exact H1|exact H1].
    assert (Hle : d <= d1).
    { destruct (cycle_outcome _ _ _ _ _ _ _ _ E) as [[-> _]|[-> _]]; lia. }
    exact (dated_trans _ _ _ _ H1 (dated_weaken _ _ _ _ Hle (IH d1 w1))).
Qed.

(** A pass begins by printing and sending the request for its date. *)
Lemma fetch_begins (d : Z) (city country : string) (method : Z) (w : World Dev) :
  exists o,
    out (snd (get_prayer_times_for_date env d city country method w)) =
    out w ++ EPrint (MFetching d)
          :: EGet {| q_date := d; q_city := city; q_country := country;
                     q_method := method |} :: o.
Proof.
  unfold get_prayer_times_for_date, http_get, resp_json, bind, lift, print, emit,
    datetime_now, raise, ret.
  cbn [now jobs dev out fst snd].
  repeat match goal with
    | |- context [match ?x with _ => _ end] =>
        lazymatch x with
        | context [match _ with _ => _ end] => fail
        | _ => destruct x; cbn [now jobs dev out fst snd]
        end
    end.
  all: rewrite <- ?app_assoc; cbn [app]; eexists; reflexivity.
Qed.

Lemma pass_onward (fuel : nat) (d : Z) (prayer_times : option PrayerTimes) :
  preserves (continues (fun _ => True))
    (match prayer_times with
     | None => print MRetryInHour ;; sleep 3600 ;; ret d
     | Some prayer_times =>
         schedule_daily_prayers d prayer_times ;;
         schedule_test_time d (TEST_TIME cfg) ;;
         isha <- lift (parse_time_of (pt_Isha prayer_times)) ;;
         dt_isha <- lift (mk_datetime d (fst isha) (snd isha)) ;;
         wait_isha env cfg fuel dt_isha ;;
         ret (d + 1)
     end).
Proof.
  assert (Hrefl : forall w : World Dev, continues (fun _ => True) w w)
    by (intros w; apply continues_refl).
  assert (Htrans : forall a b c : World Dev,
            continues (fun _ => True) a b -> continues (fun _ => True) b c ->
            continues (fun _ => True) a c)
    by (intros a b c; apply continues_trans).
  assert (Hemit : forall (w : World Dev) e, True ->
            continues (fun _ => True) w
              (mkWorld (now w) (jobs w) (dev w) (out w ++ [e])))
    by (intros w e _; apply (continues_step _ _ _ e); [reflexivity|exact I]).
  assert (Hdev : forall (w : World Dev) dv,
            continues (fun _ => True) w (mkWorld (now w) (jobs w) dv (out w)))
    by (intros w dv; apply continues_same; reflexivity).
  assert (Hsleep : forall (w : World Dev) sec, 0 <= sec ->
            continues (fun _ => True) w
              (mkWorld (now w + sec * SECOND) (jobs w) (dev w)
                       (out w ++ [ESleep sec])))
    by (intros w sec _; apply (continues_step _ _ _ (ESleep sec));
        [reflexivity|exact I]).
  assert (Hjobs : forall (w : World Dev) js,
            continues (fun _ => True) w (mkWorld (now w) js (dev w) (out w)))
    by (intros w js; apply continues_same; reflexivity).
  assert (Hbind : forall A B (m : M Dev A) (k : A -> M Dev B),
            preserves (continues (fun _ => True)) m ->
            (forall a, preserves (continues (fun _ => True)) (k a)) ->
            preserves (continues (fun _ => True)) (bind m k))
    by (intros A B m k; apply preserves_bind; exact Htrans).
  destruct prayer_times as [pt|].
  - apply Hbind;
      [apply preserves_schedule_daily_prayers with (ok := fun _ => True); auto|].
    intros _. apply Hbind;
      [apply preserves_schedule_test_time with (ok := fun _ => True); auto|].
    intros _. apply Hbind; [intros w; apply Hrefl|]. intros isha.
    apply Hbind; [intros w; apply Hrefl|]. intros dt_isha.
    apply Hbind; [|intros _ w; apply Hrefl].
    apply preserves_wait_isha with (ok := fun _ => True); auto.
  - apply Hbind; [intros w; apply Hemit; exact I|]. intros _.
    apply Hbind; [intros w; apply Hsleep; lia|]. intros _ w. apply Hrefl.
Qed.

Lemma cycle_begins (fuel : nat) (city country : string) (method d : Z)
    (w : World Dev) :
  exists o,
    out (snd (cycle env cfg fuel city country method d w)) =
    out w ++ EPrint (MFetching d)
          :: EGet {| q_date := d; q_city := city; q_country := country;
                     q_method := method |} :: o.
Proof.
  unfold cycle.
  rewrite (bind_ok _ _ w (snd (Schedule.clear w)) tt eq_refl).
  unfold bind at 1.
  destruct (fetch_begins d city country method (snd (Schedule.clear w)))
    as [o1 Ho1].
  destruct (get_prayer_times_for_date env d city country method
              (snd (Schedule.clear w))) as [[pt|e|] w1];
    cbn [snd Schedule.clear Schedule.set_jobs out] in Ho1;
    [|exists o1; exact Ho1|exists o1; exact Ho1].
  destruct (pass_onward fuel d pt w1) as [o2 [Ho2 _]].
  rewrite Ho2, Ho1. exists (o1 ++ o2). rewrite <- app_assoc. reflexivity.
Qed.

Lemma schedule_test_time_run (date_obj : Z) (s : string) (w : World Dev) :
  (forall hh mm, parse_time s = Ok (hh, mm) -> in_range (hh, mm)) ->
  fst (schedule_test_time date_obj s w) = Ok tt /\
  extends w (snd (schedule_test_time date_obj s w)) (test_events (now w) date_obj s).
Proof.
  intros Hr. unfold schedule_test_time, test_events.
  destruct (PyStr.is_empty s); [split; [reflexivity|apply extends_refl]|].
  unfold bind, try_except, lift, print, emit, ret.
  destruct (parse_time s) as [[hh mm]|e|] eqn:E.
  - cbv beta iota.
    pose proof (mk_datetime_ok date_obj (hh, mm) (Hr hh mm eq_refl)) as Hdt.
    cbn [fst snd] in Hdt. rewrite Hdt. unfold datetime_now. cbn [now jobs dev out].
    rewrite (strftime_instant date_obj (hh, mm) (Hr hh mm eq_refl)).
    unfold Schedule.every_day_at_do, Schedule.get_jobs, Schedule.set_jobs,
      bind, datetime_now.
    destruct (now w <? instant date_obj (hh, mm)); cbv beta iota;
      cbn [now jobs dev out];
      (split; [reflexivity|]); unfold extends; cbn [fst snd now jobs dev out];
      rewrite <- ?app_assoc, ?app_nil_r; repeat split; eexists; reflexivity.
  - split; [reflexivity|]. unfold extends. cbn [fst snd now jobs dev out].
    rewrite <- ?app_assoc, ?app_nil_r. repeat split. eexists. reflexivity.
  - destruct (parse_time_total s) as [H|[hm H]]; congruence.
Qed.

Lemma calm_refl (w : World Dev) : calm w w.
Proof. split; [reflexivity|apply continues_refl]. Qed.

Lemma calm_trans (a b c : World Dev) : calm a b -> calm b c -> calm a c.
Proof.
  intros [H1 H2] [H3 H4]. split; [congruence|].
  exact (continues_trans _ _ _ _ H2 H4).
Qed.

Lemma calm_emit (w : World Dev) (e : Event) :
  idle e = true -> calm w (mkWorld (now w) (jobs w) (dev w) (out w ++ [e])).
Proof.
  intros He. split; [reflexivity|].
  apply (continues_step _ _ _ e); [reflexivity|exact He].
Qed.

Lemma calm_jobs (w : World Dev) (js : list Job) :
  calm w (mkWorld (now w) js (dev w) (out w)).
Proof. split; [reflexivity|apply continues_same; reflexivity]. Qed.

Lemma still_emit (w : World Dev) (e : Event) :
  True -> still w (mkWorld (now w) (jobs w) (dev w) (out w ++ [e])).
Proof. intros _. split; reflexivity. Qed.

Lemma fetch_still (d : Z) (city country : string) (method : Z) :
  preserves still (get_prayer_times_for_date env d city country method).
Proof.
  apply preserves_get_prayer_times with (ok := fun _ => True); auto.
  - intros w. split; reflexivity.
  - intros a b c [H1 H2] [H3 H4]. split; congruence.
  - apply still_emit.
Qed.

Lemma fetch_calm (d : Z) (city country : string) (method : Z) :
  preserves calm (get_prayer_times_for_date env d city country method).
Proof.
  apply preserves_get_prayer_times with (ok := fun e => idle e = true); auto.
  - apply calm_refl.
  - apply calm_trans.
  - apply calm_emit.
Qed.

Lemma schedule_daily_prayers_calm (d : Z) (pt : PrayerTimes) :
  preserves calm (schedule_daily_prayers (Dev:=Dev) d pt).
Proof.
  apply preserves_schedule_daily_prayers with (ok := fun e => idle e = true); auto.
  - apply calm_refl.
  - apply calm_trans.
  - apply calm_emit.
  - apply calm_jobs.
Qed.

Lemma schedule_test_time_calm (d : Z) (s : string) :
  preserves calm (schedule_test_time (Dev:=Dev) d s).
Proof.
  apply preserves_schedule_test_time with (ok := fun e => idle e = true); auto.
  - apply calm_refl.
  - apply calm_trans.
  - apply calm_emit.
  - apply calm_jobs.
Qed.

(** Started after an Isha that is the day's latest time, the first pass
    schedules nothing but the test alert, waits for nothing and hands over
    to the next day. *)
Lemma first_pass_after_isha (fuel : nat) (city country : string) (method d : Z)
    (pt : PrayerTimes) (tm : Prayer -> Z * Z) (w w1 : World Dev) :
  get_prayer_times_for_date env d city country method (snd (Schedule.clear w))
    = (Ok (Some pt), w1) ->
  (forall p, parse_time_of (time_of pt p) = Ok (tm p) /\ in_range (tm p)) ->
  (forall p, instant d (tm p) <= instant d (tm Isha)) ->
  (forall hh mm, parse_time (TEST_TIME cfg) = Ok (hh, mm) -> in_range (hh, mm)) ->
  instant d (tm Isha) < now w ->
  exists w', cycle env cfg (S fuel) city country method d w = (Ok (d + 1), w') /\
             now w' = now w /\
             jobs w' = test_events (now w) d (TEST_TIME cfg) /\
             calm w w'.
Proof.
  intros Hfetch Hwf Hlatest Htest Hpast.
  pose proof (fetch_still d city country method (snd (Schedule.clear w))) as [Hn1 Hj1].
  pose proof (fetch_calm d city country method (snd (Schedule.clear w))) as Hc1.
  rewrite Hfetch in Hn1, Hj1, Hc1. cbn [snd Schedule.clear Schedule.set_jobs now jobs]
    in Hn1, Hj1.
  assert (Hc0 : calm w (snd (Schedule.clear w))) by apply calm_jobs.
  destruct (schedule_daily_prayers_run d pt tm w1 Hwf) as [Hok2 Hext2].
  pose proof (schedule_daily_prayers_calm d pt w1) as Hc2.
  destruct (schedule_daily_prayers d pt w1) as [r2 w2] eqn:E2.
  cbn [fst snd] in Hok2, Hext2, Hc2. subst r2.
  assert (Hnone : flat_map (fun p => events_for (now w1) d p (tm p)) all_prayers = []).
  { assert (H : forall p, events_for (now w1) d p (tm p) = []).
    { intros p. unfold events_for.
      assert (Hlt : (now w1 <? instant d (tm p) - 1 * MINUTE) = false).
      { apply Z.ltb_ge. specialize (Hlatest p). unfold MINUTE, SECOND. lia. }
      rewrite Hlt. reflexivity. }
    unfold all_prayers. cbn [flat_map]. rewrite !H. reflexivity. }
  rewrite Hnone in Hext2. destruct Hext2 as [Hn2 [Hj2 _]].
  rewrite app_nil_r in Hj2.
  destruct (schedule_test_time_run d (TEST_TIME cfg) w2 Htest) as [Hok3 [Hn3 [Hj3 _]]].
  pose proof (schedule_test_time_calm d (TEST_TIME cfg) w2) as Hc3.
  destruct (schedule_test_time d (TEST_TIME cfg) w2) as [r3 w3] eqn:E3.
  cbn [fst snd] in Hok3, Hn3, Hj3, Hc3. subst r3.
  destruct (Hwf Isha) as [Hpi Hri]. cbn [time_of] in Hpi.
  exists (mkWorld (now w3) (jobs w3) (dev w3) (out w3 ++ [EPrint MIshaPassed])).
  split; [|split; [|split]].
  - unfold cycle.
    rewrite (bind_ok _ _ w (snd (Schedule.clear w)) tt) by reflexivity.
    rewrite (bind_ok _ _ _ _ _ Hfetch).
    rewrite (bind_ok _ _ _ _ _ E2).
    rewrite (bind_ok _ _ _ _ _ E3).
    rewrite (bind_ok _ _ w3 w3 (tm Isha)) by (unfold lift; rewrite Hpi; reflexivity).
    rewrite (bind_ok _ _ w3 w3 (instant d (tm Isha)))
      by (unfold lift; rewrite (mk_datetime_ok d (tm Isha) Hri); reflexivity).
    cbn [wait_isha]. unfold bind, datetime_now.
    assert (Hlt : (instant d (tm Isha) <? now w3) = true).
    { apply Z.ltb_lt. lia. }
    rewrite Hlt. reflexivity.
  - cbn [now]. lia.
  - cbn [jobs]. rewrite Hj3, Hj2, Hj1, Hn2, Hn1. reflexivity.
  - apply (calm_trans _ _ _ Hc0). apply (calm_trans _ _ _ Hc1).
    apply (calm_trans _ _ _ Hc2). apply (calm_trans _ _ _ Hc3).
    apply calm_emit. reflexivity.
Qed.

(** A status other than 200 leads to the retry: two console lines, one
    hour of sleep, the same day again, and an empty store. *)
Lemma cycle_retries_on_status (fuel : nat) (city country : string)
    (method d status_code : Z) (body : option Json) (w : World Dev) :
  requests_get env {| q_date := d; q_city := city; q_country := country;
                      q_method := method |} (now w)
    = HttpResponse status_code body ->
  status_code <> 200 ->
  cycle env cfg fuel city country method d w =
  (Ok d,
   mkWorld (now w + 3600 * SECOND) [] (dev w)
     (out w ++ [EPrint (MFetching d);
                EGet {| q_date := d; q_city := city; q_country := country;
                        q_method := method |};
                EPrint MNoValidTimes; EPrint MRetryInHour; ESleep 3600])).
Proof.
  intros Hget Hst.
  unfold cycle, get_prayer_times_for_date, http_get, Schedule.clear,
    Schedule.set_jobs, bind, print, emit, datetime_now, sleep, ret.
  cbn [now jobs dev out]. rewrite Hget. cbn [fst snd].
  destruct (Z.eqb_spec status_code 200) as [->|_]; [contradiction|].
  cbn [now jobs dev out]. rewrite <- !app_assoc. reflexivity.
Qed.

(** C4 (amended).  A pass that ends with the inner loop returning (it
    then prints that Isha has passed) hands [current_day + 1] to the next
    pass, which begins by printing and sending the request for that date;
    and whatever is observed from then on, over any number of passes, that
    mentions a date (a request sent, a date announced as fetched or as
    scheduled) mentions that date or a later one.  If the process starts
    when the clock is already past today's Isha, and Isha is the latest of
    the day's five times, the first pass schedules no prayer alert and no
    reminder (its store holds at most the test alert of [TEST_TIME], when
    that is set and still ahead), lets no time pass, observes nothing but
    console lines and its request, so runs no job, and moves on to
    tomorrow. *)
Theorem day_rollover (fuel : nat) (city country : string) (method : Z) :
  (forall d w d1 w1,
     cycle env cfg fuel city country method d w = (Ok d1, w1) ->
     last (out w1) (ESleep 0) = EPrint MIshaPassed ->
     d1 = d + 1 /\
     (exists o,
        out (snd (cycle env cfg fuel city country method d1 w1)) =
        out w1 ++ EPrint (MFetching (d + 1))
               :: EGet {| q_date := d + 1; q_city := city; q_country := country;
                          q_method := method |} :: o) /\
     forall n, dated (d + 1) w1 (snd (cycles env cfg n fuel city country method d1 w1))) /\
  (forall pt tm w w1,
     get_prayer_times_for_date env (date_of (now w)) city country method
       (snd (Schedule.clear w)) = (Ok (Some pt), w1) ->
     (forall p, parse_time_of (time_of pt p) = Ok (tm p) /\ in_range (tm p)) ->
     (forall p, instant (date_of (now w)) (tm p) <= instant (date_of (now w)) (tm Isha)) ->
     (forall hh mm, parse_time (TEST_TIME cfg) = Ok (hh, mm) -> in_range (hh, mm)) ->
     instant (date_of (now w)) (tm Isha) < now w ->
     exists w',
       main_loop env cfg 1 (S fuel) city country method w
         = (Ok (date_of (now w) + 1), w') /\
       now w' = now w /\
       jobs w' = test_events (now w) (date_of (now w)) (TEST_TIME cfg) /\
       calm w w').
Proof.
  split.
  - intros d w d1 w1 Hc Hlast.
    destruct (cycle_outcome _ _ _ _ _ _ _ _ Hc) as [[-> _]|[_ Hs]].
    + split; [reflexivity|]. split; [apply cycle_begins|].
      intros n. apply cycles_dated.
    + rewrite Hs in Hlast. discriminate.
  - intros pt tm w w1 Hfetch Hwf Hlatest Htest Hpast.
    destruct (first_pass_after_isha fuel city country method _ pt tm w w1
                Hfetch Hwf Hlatest Htest Hpast) as [w' [Hc H]].
    exists w'. split; [|exact H].
    unfold main_loop. rewrite (bind_ok _ _ w w (now w)) by reflexivity.
    cbn [cycles]. rewrite (bind_ok _ _ _ _ _ Hc). reflexivity.
Qed.

End DayLoop.

(** ** The script at work *)

Lemma answered_accepted (p : Prayer) :
  parse_time_of (time_of answered_times p) = Ok (scenario_tm p) /\
  in_range (scenario_tm p).
Proof. destruct p; (split; [reflexivity|unfold in_range; simpl; lia]). Qed.

Lemma schedule_daily_prayers_twice_witness :
  exists added,
    now (snd (schedule_daily_prayers 0 scenario_times (boot (at_clock 0 4 0 0))))
      = at_clock 0 4 0 0 /\
    now (snd (schedule_daily_prayers 0 scenario_times
                (snd (schedule_daily_prayers 0 scenario_times
                        (boot (at_clock 0 4 0 0))))))
      = at_clock 0 4 0 0 /\
    jobs (snd (schedule_daily_prayers 0 scenario_times (boot (at_clock 0 4 0 0))))
      = [] ++ added /\
    jobs (snd (schedule_daily_prayers 0 scenario_times
                 (snd (schedule_daily_prayers 0 scenario_times
                         (boot (at_clock 0 4 0 0))))))
      = [] ++ added ++ added /\
    jobs (snd ((Schedule.clear ;; schedule_daily_prayers 0 scenario_times)
                 (snd (schedule_daily_prayers 0 scenario_times
                         (boot (at_clock 0 4 0 0))))))
      = added /\
    (forall e,
       In e (map job_event
               (jobs (snd (schedule_daily_prayers 0 scenario_times
                             (snd (schedule_daily_prayers 0 scenario_times
                                     (boot (at_clock 0 4 0 0)))))))) <->
       In e (map job_event
               (jobs (snd (schedule_daily_prayers 0 scenario_times
                             (boot (at_clock 0 4 0 0))))))).
Proof.
  exact (schedule_daily_prayers_twice 0 scenario_times scenario_tm
           (boot (at_clock 0 4 0 0)) scenario_accepted).
Defined.




(** The script at work on that evening and the next day: started at 20:00
    with a test time of 21:21, one minute after Isha.  The inner loop for
    day 0 is busy with the alert of Isha until 21:22:32 and then leaves;
    neither the test alert of day 0 nor that of day 1 is ever started,
    while the alerts and reminders of the prayers are. *)
Example stale_alert_stays_silent :
  let run := main_loop home_env evening_test_config 2 4000 "Madrid" "Spain" 3
               (boot (at_clock 0 20 0 0)) in
  fst run = Ok 2 /\
  filter (is_run_at (21, 21)) (out (snd run)) = [] /\
  List.length (filter (is_run_at (21, 19)) (out (snd run))) = 2%nat.
Proof. vm_compute. repeat split; reflexivity. Qed.

(** C4 as stated fails in two ways.  Started at 22:00, after Isha (21:20),
    with a test time of 23:00, the first pass does schedule an alert for
    today.  And when the service puts Isha after midnight (00:30), a
    process started at 04:00 is past that Isha and still schedules the
    alerts of the three prayers to come. *)
Lemma first_pass_schedules_after_isha :
  (instant 0 (21, 20) < at_clock 0 22 0 0 /\
   fst (main_loop home_env late_test_config 1 10 "Madrid" "Spain" 3
          (boot (at_clock 0 22 0 0))) = Ok 1 /\
   map job_event
     (jobs (snd (main_loop home_env late_test_config 1 10 "Madrid" "Spain" 3
                   (boot (at_clock 0 22 0 0)))))
     = [((23, 0), PlayAzan)]) /\
  (instant 0 (0, 30) < at_clock 0 4 0 0 /\
   fst (main_loop midnight_env user_config 1 10 "Madrid" "Spain" 3
          (boot (at_clock 0 4 0 0))) = Ok 1 /\
   map job_event
     (filter is_alert
        (jobs (snd (main_loop midnight_env user_config 1 10 "Madrid" "Spain" 3
                      (boot (at_clock 0 4 0 0))))))
     = [((13, 4), PlayAzan); ((17, 29), PlayAzan); ((22, 9), PlayAzan)]).
Proof. vm_compute. repeat split; reflexivity. Qed.

Lemma day_rollover_witness :
  (1 = 0 + 1 /\
   (exists o,
      out (snd (cycle home_env user_config 100 "Madrid" "Spain" 3 1
                  (snd (cycle home_env user_config 100 "Madrid" "Spain" 3 0
                          (boot (at_clock 0 21 0 0)))))) =
      out (snd (cycle home_env user_config 100 "Madrid" "Spain" 3 0
                  (boot (at_clock 0 21 0 0))))
      ++ EPrint (MFetching (0 + 1))
         :: EGet {| q_date := 0 + 1; q_city := "Madrid"; q_country := "Spain";
                    q_method := 3 |} :: o) /\
   forall n,
     dated (0 + 1)
       (snd (cycle home_env user_config 100 "Madrid" "Spain" 3 0
               (boot (at_clock 0 21 0 0))))
       (snd (cycles home_env user_config n 100 "Madrid" "Spain" 3 1
               (snd (cycle home_env user_config 100 "Madrid" "Spain" 3 0
                       (boot (at_clock 0 21 0 0))))))) /\
  (exists w',
     main_loop home_env late_test_config 1 (S 99) "Madrid" "Spain" 3
       (boot (at_clock 0 22 0 0)) = (Ok (0 + 1), w') /\
     now w' = at_clock 0 22 0 0 /\
     jobs w' = test_events (at_clock 0 22 0 0) 0 "23:00" /\
     calm (boot (at_clock 0 22 0 0)) w').
Proof.
  split.
  - apply (proj1 (day_rollover home_env user_config 100 "Madrid" "Spain" 3)
             0 (boot (at_clock 0 21 0 0))).
    + vm_compute. reflexivity.
    + vm_compute. reflexivity.
  - apply (proj2 (day_rollover home_env late_test_config 99 "Madrid" "Spain" 3)
             answered_times scenario_tm (boot (at_clock 0 22 0 0))
             (snd (get_prayer_times_for_date home_env 0 "Madrid" "Spain" 3
                     (snd (Schedule.clear (boot (at_clock 0 22 0 0))))))).
    + vm_compute. reflexivity.
    + apply answered_accepted.
    + intros []; vm_compute; discriminate.
    + intros hh mm H. vm_compute in H. injection H as <- <-.
      unfold in_range. simpl. lia.
    + vm_compute. reflexivity.
Defined.

(** C3 at failing inputs.  When [requests.get] raises, when the body is
    not JSON, and when the timings lack a prayer key, the exception leaves
    [main_loop]: nothing is slept, nothing is fetched again.  Only a
    status other than 200 and a body without the expected objects reach
    the one-hour retry for the same date. *)
Theorem fetch_failures_end_the_loop :
  let run env := main_loop env user_config 3 10 "Madrid" "Spain" 3
                   (boot (at_clock 0 4 0 0)) in
  let fetches env := List.length (filter is_get (out (snd (run env)))) in
  let sleeps env := filter is_sleep (out (snd (run env))) in
  (fst (run offline_env) = Raise ConnectionError /\
   fetches offline_env = 1%nat /\ sleeps offline_env = []) /\
  (fst (run garbled_env) = Raise JSONDecodeError /\
   fetches garbled_env = 1%nat /\ sleeps garbled_env = []) /\
  (fst (run partial_env) = Raise KeyError /\
   fetches partial_env = 1%nat /\ sleeps partial_env = []) /\
  (fst (run busy_env) = Ok 0 /\
   fetches busy_env = 3%nat /\
   sleeps busy_env = [ESleep 3600; ESleep 3600; ESleep 3600]) /\
  (fst (run empty_env) = Ok 0 /\
   fetches empty_env = 3%nat /\
   sleeps empty_env = [ESleep 3600; ESleep 3600; ESleep 3600]).
Proof. vm_compute. repeat split; reflexivity. Qed.

(** C6 at a failing input.  A prayer time that does not parse is not
    skipped: the exception leaves [schedule_daily_prayers] with the later
    prayers of the day unscheduled, and leaves [main_loop].  The same text
    as test time is skipped with a console line; a test time that parses
    to an hour out of range is not, [datetime] raising outside the [try]. *)
Theorem malformed_prayer_time_ends_the_loop :
  let built := schedule_daily_prayers 0 malformed_times (boot (at_clock 0 4 0 0)) in
  let run := main_loop malformed_env user_config 3 10 "Madrid" "Spain" 3
               (boot (at_clock 0 4 0 0)) in
  let tested := schedule_test_time 0 "abc" (boot (at_clock 0 4 0 0)) in
  fst built = Raise ValueError /\
  map job_event (jobs (snd built)) =
    [((5, 11), PlayAzan); ((5, 2), ReminderClosure Fajr (5, 11));
     ((13, 4), PlayAzan); ((12, 55), ReminderClosure Dhuhr (13, 4))] /\
  fst run = Raise ValueError /\
  filter is_sleep (out (snd run)) = [] /\
  fst tested = Ok tt /\
  out (snd tested) = [EPrint (MTestCheck "abc"); EPrint (MTestInvalid "abc")] /\
  jobs (snd tested) = [] /\
  fst (schedule_test_time 0 "25:00" (boot (at_clock 0 4 0 0))) = Raise ValueError.
Proof. vm_compute. repeat split; reflexivity. Qed.

(* ================================================================== *)
(** * Further properties of the script *)
(* ================================================================== *)

(** ** [connect_to_google_home] and [play_azan] *)

Section Device.

Context {Dev : Type} (env : Env Dev) (cfg : Config).

(** Splits every call on the cast client in the goal into its outcomes. *)
Ltac outcome x :=
  let r := fresh "r" in let d := fresh "d" in
  destruct x as [[r|r] d]; cbv beta iota; cbn [fst snd reply now jobs dev out].

Ltac outcomes :=
  repeat match goal with
    | |- context [get_chromecasts env ?d] => outcome (get_chromecasts env d)
    | |- context [find ?f ?l] =>
        let H := fresh "Hfind" in
        destruct (find f l) eqn:H; cbv beta iota;
        cbn [fst snd reply now jobs dev out]
    | |- context [cast_wait env ?c ?d] => outcome (cast_wait env c d)
    | |- context [volume_level env ?c ?d] =>
        destruct (volume_level env c d); cbv beta iota;
        cbn [fst snd reply now jobs dev out]
    | |- context [set_volume env ?c ?v ?d] => outcome (set_volume env c v d)
    | |- context [play_media env ?c ?u ?m ?d] => outcome (play_media env c u m d)
    | |- context [mc_play env ?c ?d] => outcome (mc_play env c d)
    end.

Ltac run_play_azan :=
  cbv [play_azan connect_to_google_home bind try_except print emit sleep ret
       cast_set_volume mc_play_media media_play dev_call status_volume_level];
  cbn [fst snd now jobs dev out reply].

(** X1.  [play_azan] never raises, whatever the cast client does at any of
    its calls; it leaves the job store as it was; and it takes no time at
    all, 180 seconds, or 182 seconds. *)
Theorem play_azan_contained (w : World Dev) :
  fst (play_azan env cfg w) = Ok tt /\
  jobs (snd (play_azan env cfg w)) = jobs w /\
  (now (snd (play_azan env cfg w)) = now w \/
   now (snd (play_azan env cfg w)) = now w + 180 * SECOND \/
   now (snd (play_azan env cfg w)) = now w + 182 * SECOND).
Proof.
  run_play_azan. outcomes; cbn [fst snd now jobs dev out];
    (split; [reflexivity|split; [reflexivity|]]);
    first [left; reflexivity | right; left; unfold SECOND; lia
          | right; right; unfold SECOND; lia].
Qed.

Ltac run_connect :=
  cbv [connect_to_google_home bind print emit ret dev_call];
  cbn [fst snd now jobs dev out reply].

(** Looking for the device sends it no command, takes no time and leaves
    the job store alone. *)
Lemma connect_hushed (w : World Dev) :
  fst (connect_to_google_home env cfg w) <> NoFuel /\
  now (snd (connect_to_google_home env cfg w)) = now w /\
  jobs (snd (connect_to_google_home env cfg w)) = jobs w /\
  commands (out (snd (connect_to_google_home env cfg w))) = commands (out w).
Proof.
  run_connect. outcomes;
    (split; [discriminate|split; [reflexivity|split; [reflexivity|]]]);
    rewrite ?commands_app; cbn [commands filter is_command];
    rewrite ?app_nil_r; reflexivity.
Qed.

(** X2.  [connect_to_google_home] on a discovery that returns the devices
    [found]: it returns a device only if that device was found and bears
    the configured name, and only after waiting for it; it returns [None]
    exactly when no device found bears the name, and then waits for none;
    it raises only when waiting for the named device raises. *)
Theorem connect_finds_target (w : World Dev) (found : list Chromecast) :
  fst (get_chromecasts env (dev w)) = Returns found ->
  match fst (connect_to_google_home env cfg w) with
  | Ok (Some cast) =>
      In cast found /\ cc_name cast = TARGET_DEVICE_NAME cfg /\
      last (out (snd (connect_to_google_home env cfg w))) (ESleep 0) = EWait cast
  | Ok None =>
      (forall c, In c found -> cc_name c <> TARGET_DEVICE_NAME cfg) /\
      out (snd (connect_to_google_home env cfg w)) =
      out w ++ [EPrint MSearching; EDiscover;
                EPrint (MFound (List.length found)); EPrint MTargetMissing]
  | Raise e =>
      exists cast d, In cast found /\ cc_name cast = TARGET_DEVICE_NAME cfg /\
                     fst (cast_wait env cast d) = Throws e
  | NoFuel => False
  end.
Proof.
  run_connect. intros Hfound.
  destruct (get_chromecasts env (dev w)) as [r d0]. cbn [fst snd] in *.
  subst r. cbn [reply].
  destruct (find (fun c => String.eqb (cc_name c) (TARGET_DEVICE_NAME cfg)) found)
    as [cast|] eqn:Hfind; cbv beta iota; cbn [fst snd now jobs dev out].
  - apply find_some in Hfind as [Hin Hname]. apply String.eqb_eq in Hname.
    destruct (cast_wait env cast d0) as [[[]|e] d1] eqn:Hw; cbn [fst snd reply out].
    + split; [exact Hin|split; [exact Hname|apply last_last]].
    + exists cast, d0. rewrite Hw. auto.
  - split.
    + intros c Hin Hname.
      pose proof (find_none _ _ Hfind c Hin) as Hno. cbv beta in Hno.
      rewrite Hname, String.eqb_refl in Hno. discriminate.
    + rewrite <- !app_assoc. reflexivity.
Qed.

(** X3.  When no volume is read, because discovery or the wait raised, no
    device bears the name, or reading the volume raises, [play_azan] ends
    at once: it returns normally, sends no command to any device and lets
    no time pass. *)
Theorem play_azan_without_snapshot (w : World Dev) :
  (forall cast w1,
     connect_to_google_home env cfg (snd (print MStart w)) = (Ok (Some cast), w1) ->
     exists e, volume_level env cast (dev w1) = Throws e) ->
  fst (play_azan env cfg w) = Ok tt /\
  commands (out (snd (play_azan env cfg w))) = commands (out w) /\
  now (snd (play_azan env cfg w)) = now w.
Proof.
  intros Hno.
  destruct (connect_hushed (snd (print MStart w))) as [Hfuel [Hnow [_ Hcmd]]].
  unfold play_azan, bind, try_except.
  change (print MStart w) with (Ok tt, snd (print MStart w)). cbv beta iota.
  destruct (connect_to_google_home env cfg (snd (print MStart w)))
    as [[[cast|]|e|] w1] eqn:Hc; cbn [fst snd] in Hfuel, Hnow, Hcmd;
    [destruct (Hno cast w1 eq_refl) as [e He];
     unfold status_volume_level; rewrite He; cbn [reply]; cbv beta iota
    | | |contradiction];
    cbn [print emit fst snd now out] in *;
    rewrite commands_app in *; cbn [commands filter is_command] in *;
    rewrite !app_nil_r in *; auto.
Qed.

End Device.

Lemma connect_finds_target_witness :
  In target [{| cc_name := "Kitchen"; cc_host := "192.168.1.20" |}; target] /\
  cc_name target = TARGET_DEVICE_NAME user_config /\
  last (out (snd (connect_to_google_home flaky_env user_config (boot 0))))
       (ESleep 0) = EWait target.
Proof.
  exact (connect_finds_target flaky_env user_config (boot 0)
           [{| cc_name := "Kitchen"; cc_host := "192.168.1.20" |}; target]
           eq_refl).
Defined.

Lemma play_azan_without_snapshot_witness :
  fst (play_azan lonely_env user_config (boot 0)) = Ok tt /\
  commands (out (snd (play_azan lonely_env user_config (boot 0)))) = commands [] /\
  now (snd (play_azan lonely_env user_config (boot 0))) = 0.
Proof.
  apply (play_azan_without_snapshot lonely_env user_config (boot 0)).
  intros cast w1 H. vm_compute in H. discriminate.
Defined.

(** ** [get_prayer_times_for_date] *)

Lemma dict_get_from (key : string) (fields : list (string * Json)) :
  forall acc,
    fold_left (fun a kv => if String.eqb (fst kv) key then Some (snd kv) else a)
              fields acc = None <->
    acc = None /\ existsb (fun kv => String.eqb (fst kv) key) fields = false.
Proof.
  induction fields as [|kv fields IH]; intros acc; cbn [fold_left existsb].
  - tauto.
  - rewrite IH. destruct (String.eqb (fst kv) key); cbn [orb].
    + split; [intros [H _]; discriminate|intros [_ H]; discriminate].
    + tauto.
Qed.

Lemma dict_get_some (key : string) (fields : list (string * Json)) (v : Json) :
  Py.dict_get key fields = Some v ->
  existsb (fun kv => String.eqb (fst kv) key) fields = true.
Proof.
  unfold Py.dict_get. intros H.
  destruct (existsb (fun kv => String.eqb (fst kv) key) fields) eqn:E;
    [reflexivity|].
  assert (Hn : fold_left (fun a kv => if String.eqb (fst kv) key
                                      then Some (snd kv) else a) fields None = None)
    by (apply dict_get_from; auto).
  congruence.
Qed.

Lemma dict_get_none (key : string) (fields : list (string * Json)) :
  Py.dict_get key fields = None ->
  existsb (fun kv => String.eqb (fst kv) key) fields = false.
Proof. unfold Py.dict_get. intros H. apply dict_get_from in H. apply H. Qed.

Section Fetch.

Context {Dev : Type} (env : Env Dev).

(** X4.  On a 200 response whose body is an object with an object under
    "data", holding an object under "timings" that has the five prayer
    keys, [get_prayer_times_for_date] returns exactly the five values under
    those keys, whatever else the three objects hold and in whatever order;
    it sends one request, for the date, city, country and method it was
    given, and changes nothing else. *)
Theorem fetch_returns_the_five (date_obj : Z) (city country : string) (method : Z)
    (top data timings : list (string * Json)) (fajr dhuhr asr maghrib isha : Json)
    (w : World Dev) :
  let q := {| q_date := date_obj; q_city := city; q_country := country;
              q_method := method |} in
  requests_get env q (now w) = HttpResponse 200 (Some (JObj top)) ->
  Py.dict_get "data" top = Some (JObj data) ->
  Py.dict_get "timings" data = Some (JObj timings) ->
  Py.dict_get "Fajr" timings = Some fajr ->
  Py.dict_get "Dhuhr" timings = Some dhuhr ->
  Py.dict_get "Asr" timings = Some asr ->
  Py.dict_get "Maghrib" timings = Some maghrib ->
  Py.dict_get "Isha" timings = Some isha ->
  get_prayer_times_for_date env date_obj city country method w =
  (Ok (Some {| pt_Fajr := fajr; pt_Dhuhr := dhuhr; pt_Asr := asr;
               pt_Maghrib := maghrib; pt_Isha := isha |}),
   mkWorld (now w) (jobs w) (dev w)
           (out w ++ [EPrint (MFetching date_obj); EGet q])).
Proof.
  intros q Hget Hdata Htimings HF HD HA HM HI.
  unfold get_prayer_times_for_date, http_get, resp_json, bind, lift, print,
    emit, datetime_now, ret.
  cbn [now jobs dev out]. fold q. rewrite Hget. cbn [fst snd Z.eqb Pos.eqb].
  cbn [Py.contains Py.getitem]. rewrite (dict_get_some _ _ _ Hdata), Hdata.
  cbn [Py.contains Py.getitem]. rewrite (dict_get_some _ _ _ Htimings), Htimings.
  cbn [Py.getitem]. rewrite HF, HD, HA, HM, HI.
  rewrite <- app_assoc. reflexivity.
Qed.

Lemma fetch_none (date_obj : Z) (city country : string) (method : Z)
    (status_code : Z) (body : option Json) (w : World Dev) :
  let q := {| q_date := date_obj; q_city := city; q_country := country;
              q_method := method |} in
  requests_get env q (now w) = HttpResponse status_code body ->
  status_code <> 200 \/
  (exists top, body = Some (JObj top) /\
     (Py.dict_get "data" top = None \/
      exists data, Py.dict_get "data" top = Some (JObj data) /\
                   Py.dict_get "timings" data = None)) ->
  get_prayer_times_for_date env date_obj city country method w =
  (Ok None,
   mkWorld (now w) (jobs w) (dev w)
           (out w ++ [EPrint (MFetching date_obj); EGet q; EPrint MNoValidTimes])).
Proof.
  intros q Hget Hcase.
  unfold get_prayer_times_for_date, http_get, resp_json, bind, lift, print,
    emit, datetime_now, ret.
  cbn [now jobs dev out]. fold q. rewrite Hget. cbn [fst snd].
  destruct (Z.eqb_spec status_code 200) as [->|Hne].
  - destruct Hcase as [Hs|[top [-> [Hd|[data [Hd Ht]]]]]]; [contradiction| |].
    + cbn [Py.contains]. rewrite (dict_get_none _ _ Hd).
      cbn [now jobs dev out]. rewrite <- !app_assoc. reflexivity.
    + cbn [Py.contains Py.getitem]. rewrite (dict_get_some _ _ _ Hd), Hd.
      cbn [Py.contains]. rewrite (dict_get_none _ _ Ht).
      cbn [now jobs dev out]. rewrite <- !app_assoc. reflexivity.
  - cbn [now jobs dev out]. rewrite <- !app_assoc. reflexivity.
Qed.

(** X5.  [get_prayer_times_for_date] returns [None], with its console line
    and without raising, when the status is not 200 (the body is then never
    decoded: it need not be JSON), and when the status is 200 and the body
    is an object without "data", or with an object under "data" that has
    no "timings". *)
Theorem fetch_returns_none (date_obj : Z) (city country : string) (method : Z)
    (status_code : Z) (body : option Json) (w : World Dev) :
  let q := {| q_date := date_obj; q_city := city; q_country := country;
              q_method := method |} in
  requests_get env q (now w) = HttpResponse status_code body ->
  status_code <> 200 \/
  (exists top, body = Some (JObj top) /\
     (Py.dict_get "data" top = None \/
      exists data, Py.dict_get "data" top = Some (JObj data) /\
                   Py.dict_get "timings" data = None)) ->
  get_prayer_times_for_date env date_obj city country method w =
  (Ok None,
   mkWorld (now w) (jobs w) (dev w)
           (out w ++ [EPrint (MFetching date_obj); EGet q; EPrint MNoValidTimes])).
Proof. exact (fetch_none date_obj city country method status_code body w). Qed.

(** X6.  A pass of [main_loop] whose fetch gives no times (a status other
    than 200, or a body without "data" or "timings") schedules nothing: it
    leaves the store empty, prints that it retries, sleeps exactly 3600
    seconds and keeps [current_day] for the next pass. *)
Theorem pass_without_times (cfg : Config) (fuel : nat) (city country : string)
    (method d status_code : Z) (body : option Json) (w : World Dev) :
  let q := {| q_date := d; q_city := city; q_country := country;
              q_method := method |} in
  requests_get env q (now w) = HttpResponse status_code body ->
  status_code <> 200 \/
  (exists top, body = Some (JObj top) /\
     (Py.dict_get "data" top = None \/
      exists data, Py.dict_get "data" top = Some (JObj data) /\
                   Py.dict_get "timings" data = None)) ->
  cycle env cfg fuel city country method d w =
  (Ok d,
   mkWorld (now w + 3600 * SECOND) [] (dev w)
     (out w ++ [EPrint (MFetching d); EGet q; EPrint MNoValidTimes;
                EPrint MRetryInHour; ESleep 3600])).
Proof.
  intros q Hget Hcase. unfold cycle.
  rewrite (bind_ok _ _ w (snd (Schedule.clear w)) tt) by reflexivity.
  rewrite (bind_ok _ _ _ _ _
             (fetch_none d city country method status_code body
                (snd (Schedule.clear w)) Hget Hcase)).
  cbn. rewrite <- !app_assoc. reflexivity.
Qed.

End Fetch.

Lemma fetch_returns_the_five_witness :
  get_prayer_times_for_date home_env 7 "Madrid" "Spain" 3 (boot 0) =
  (Ok (Some {| pt_Fajr := JStr "05:12"; pt_Dhuhr := JStr "13:05";
               pt_Asr := JStr "16:40"; pt_Maghrib := JStr "19:58 (CEST)";
               pt_Isha := JStr "21:20 (CEST)" |}),
   mkWorld (now (boot 0)) (jobs (boot 0)) (dev (boot 0))
     (out (boot 0) ++
      [EPrint (MFetching 7);
       EGet {| q_date := 7; q_city := "Madrid"; q_country := "Spain";
               q_method := 3 |}])).
Proof.
  exact (fetch_returns_the_five home_env 7 "Madrid" "Spain" 3 _ _ _ _ _ _ _ _
           (boot 0) eq_refl eq_refl eq_refl eq_refl eq_refl eq_refl eq_refl
           eq_refl).
Defined.

Lemma fetch_returns_none_witness :
  get_prayer_times_for_date busy_env 7 "Madrid" "Spain" 3 (boot 0) =
  (Ok None,
   mkWorld (now (boot 0)) (jobs (boot 0)) (dev (boot 0))
     (out (boot 0) ++
      [EPrint (MFetching 7);
       EGet {| q_date := 7; q_city := "Madrid"; q_country := "Spain";
               q_method := 3 |};
       EPrint MNoValidTimes])).
Proof.
  apply (fetch_returns_none busy_env 7 "Madrid" "Spain" 3 503 None (boot 0) eq_refl).
  left. discriminate.
Defined.

Lemma pass_without_times_witness :
  cycle empty_env user_config 10 "Madrid" "Spain" 3 7 (boot 0) =
  (Ok 7,
   mkWorld (now (boot 0) + 3600 * SECOND) [] (dev (boot 0))
     (out (boot 0) ++
      [EPrint (MFetching 7);
       EGet {| q_date := 7; q_city := "Madrid"; q_country := "Spain";
               q_method := 3 |};
       EPrint MNoValidTimes; EPrint MRetryInHour; ESleep 3600])).
Proof.
  apply (pass_without_times empty_env user_config 10 "Madrid" "Spain" 3 7 200
           (Some (JObj [("code", JNum 200)])) (boot 0) eq_refl).
  right. eexists. split; [reflexivity|]. left. reflexivity.
Defined.

(** ** [parse_time] and blanks *)

Module PyStrMore.
Import PyStr.

Lemma split_app_without (sep : ascii) (a s : string) :
  mem sep a = false ->
  split sep (a ++ s) =
  match split sep s with
  | [] => [a]
  | p :: ps => (a ++ p)%string :: ps
  end.
Proof.
  induction a as [|c r IH]; cbn [append mem split]; intros H.
  - destruct (split sep s) eqn:E; [exact (False_ind _ (PyStrFacts.split_nonempty _ _ E))|].
    reflexivity.
  - apply orb_false_iff in H as [Hc Hr]. rewrite Hc, (IH Hr).
    destruct (split sep s); reflexivity.
Qed.

Lemma split_head_app_without (sep : ascii) (a s : string) :
  mem sep a = false ->
  split_head sep (a ++ s) = (a ++ split_head sep s)%string.
Proof.
  intros H. unfold split_head. rewrite (split_app_without _ _ _ H).
  destruct (split sep s) eqn:E; [exact (False_ind _ (PyStrFacts.split_nonempty _ _ E))|].
  reflexivity.
Qed.

Lemma split_head_app_with (sep : ascii) (s t : string) :
  mem sep s = true -> split_head sep (s ++ t) = split_head sep s.
Proof.
  unfold split_head. induction s as [|c r IH]; cbn [append mem split]; [discriminate|].
  destruct (Ascii.eqb c sep); cbn [orb]; [reflexivity|].
  intros H. specialize (IH H).
  destruct (split sep (r ++ t)) eqn:E1;
    [exact (False_ind _ (PyStrFacts.split_nonempty _ _ E1))|].
  destruct (split sep r) eqn:E2;
    [exact (False_ind _ (PyStrFacts.split_nonempty _ _ E2))|].
  subst. reflexivity.
Qed.

Lemma lstrip_app_space (pad s : string) :
  all_space pad = true -> lstrip (pad ++ s) = lstrip s.
Proof.
  induction pad as [|c r IH]; cbn [append all_space]; [reflexivity|].
  intros H. apply andb_true_iff in H as [Hc Hr]. cbn [lstrip]. rewrite Hc.
  exact (IH Hr).
Qed.

End PyStrMore.

(** X7.  [parse_time] ignores blanks (spaces, tabs, line ends) before and
    after the text: it gives the same pair, or raises alike. *)
Theorem parse_time_ignores_blanks (before after s : string) :
  PyStr.all_space before = true -> PyStr.all_space after = true ->
  parse_time (before ++ s ++ after) = parse_time s.
Proof.
  intros Hb Ha. unfold parse_time.
  assert (Hbase : time_base (before ++ s ++ after) = time_base s).
  { unfold time_base.
    rewrite (PyStrMore.split_head_app_without _ _ _
               (PyStrFacts.all_space_no_marker _ Hb)).
    unfold PyStr.strip. rewrite (PyStrMore.lstrip_app_space _ _ Hb).
    fold (PyStr.strip (PyStr.split_head "(" (s ++ after))).
    fold (PyStr.strip (PyStr.split_head "(" s)).
    destruct (PyStr.mem "(" s) eqn:Hm.
    - rewrite (PyStrMore.split_head_app_with _ _ _ Hm). reflexivity.
    - assert (Hno : PyStr.mem "(" (s ++ after) = false).
      { rewrite PyStrFacts.mem_app, Hm, (PyStrFacts.all_space_no_marker _ Ha).
        reflexivity. }
      rewrite (PyStrFacts.split_head_without _ _ Hno),
        (PyStrFacts.split_head_without _ _ Hm).
      apply PyStrFacts.strip_app_space, Ha. }
  rewrite Hbase. reflexivity.
Qed.

Lemma parse_time_ignores_blanks_witness :
  parse_time ("  " ++ "21:20 (CEST)" ++ " ") = parse_time "21:20 (CEST)".
Proof.
  apply (parse_time_ignores_blanks "  " " " "21:20 (CEST)"); reflexivity.
Defined.

(** ** Times of day of the jobs *)

Lemma clock_times (date_obj : Z) (hm : Z * Z) :
  in_range hm ->
  strftime_HM (instant date_obj hm - 1 * MINUTE) = minute_before hm /\
  strftime_HM (instant date_obj hm - 10 * MINUTE) = ten_before hm.
Proof.
  destruct hm as [h m]. unfold in_range, minute_before, ten_before.
  cbn [fst snd]. intros [Hh Hm].
  unfold strftime_HM, instant, DAY, HOUR, MINUTE, SECOND. cbn [fst snd].
  split.
  - destruct (Z.ltb_spec 0 m); [|destruct (Z.ltb_spec 0 h)];
      f_equal; Z.div_mod_to_equations; lia.
  - destruct (Z.leb_spec 10 m); [|destruct (Z.ltb_spec 0 h)];
      f_equal; Z.div_mod_to_equations; lia.
Qed.

Lemma next_occurrence_early (now_ dt : Z) :
  dt mod MINUTE = 0 -> now_ + DAY < dt <= now_ + 2 * DAY ->
  Schedule.next_occurrence now_ (strftime_HM dt) = dt - DAY.
Proof.
  unfold Schedule.next_occurrence, strftime_HM, DAY, HOUR, MINUTE, SECOND.
  simpl fst. simpl snd. intros Hal Hr.
  match goal with |- (if ?c then _ else _) = _ => destruct c eqn:E end;
    [apply Z.ltb_lt in E|apply Z.ltb_ge in E];
    Z.div_mod_to_equations; lia.
Qed.

Section Building.

Context {Dev : Type}.

(** X8.  For a time hh:mm the parser and [datetime] accept, with the
    alert instant still ahead, one turn of the loop of
    [schedule_daily_prayers] registers the alert at the clock time one
    minute before hh:mm, wrapping to 23:59 before 00:00, then the reminder,
    when its instant is ahead too, at the clock time ten minutes before
    hh:mm, announcing the alert's clock time; both are valid times of day. *)
Theorem schedule_prayer_clock_times (date_obj : Z) (prayer : Prayer) (t_str : Json)
    (hm : Z * Z) (w : World Dev) :
  parse_time_of t_str = Ok hm -> in_range hm ->
  now w < instant date_obj hm - 1 * MINUTE ->
  map job_event (skipn (List.length (jobs w))
                       (jobs (snd (schedule_prayer date_obj prayer t_str w)))) =
  (minute_before hm, PlayAzan) ::
  (if now w <? instant date_obj hm - 10 * MINUTE
   then [(ten_before hm, ReminderClosure prayer (minute_before hm))]
   else []) /\
  in_range (minute_before hm) /\ in_range (ten_before hm).
Proof.
  intros Hp Hr Hlt.
  destruct (schedule_prayer_run date_obj prayer t_str hm w Hp Hr)
    as [_ [_ [Hj _]]].
  destruct (clock_times date_obj hm Hr) as [H1 H10].
  split.
  - rewrite Hj, skipn_app, Nat.sub_diag, skipn_all. cbn [app skipn].
    unfold events_for. apply Z.ltb_lt in Hlt. rewrite Hlt, H1, H10.
    destruct (now w <? instant date_obj hm - 10 * MINUTE); reflexivity.
  - destruct hm as [h m]. unfold in_range, minute_before, ten_before in *.
    cbn [fst snd] in *.
    destruct (Z.ltb_spec 0 m); destruct (Z.ltb_spec 0 h);
      destruct (Z.leb_spec 10 m); cbn [fst snd]; lia.
Qed.

(** X9.  In what [schedule_daily_prayers] adds to the store there is no
    reminder without its alert: every reminder job was added together with
    an alert job at the clock time the reminder announces, which is one
    minute before the prayer, the reminder itself being ten minutes before
    it; and at most ten jobs are added. *)
Theorem reminders_have_alerts (date_obj : Z) (prayer_times : PrayerTimes)
    (tm : Prayer -> Z * Z) (w : World Dev) :
  (forall p, parse_time_of (time_of prayer_times p) = Ok (tm p) /\ in_range (tm p)) ->
  exists added,
    jobs (snd (schedule_daily_prayers date_obj prayer_times w)) = jobs w ++ added /\
    (List.length added <= 10)%nat /\
    forall j pr sch, In j added -> job_func j = ReminderClosure pr sch ->
      sch = minute_before (tm pr) /\
      at_time j = ten_before (tm pr) /\
      exists a, In a added /\ job_event a = (sch, PlayAzan).
Proof.
  intros Hwf.
  destruct (schedule_daily_prayers_run date_obj prayer_times tm w Hwf)
    as [_ [_ [Hj _]]].
  eexists. split; [exact Hj|].
  assert (Hlen : forall p, (List.length (events_for (now w) date_obj p (tm p)) <= 2)%nat).
  { intros p. unfold events_for.
    destruct (now w <? _); [destruct (now w <? _)|]; cbn; lia. }
  assert (Hone : forall p j pr sch,
            In j (events_for (now w) date_obj p (tm p)) ->
            job_func j = ReminderClosure pr sch ->
            sch = minute_before (tm pr) /\ at_time j = ten_before (tm pr) /\
            exists a, In a (events_for (now w) date_obj p (tm p)) /\
                      job_event a = (sch, PlayAzan)).
  { intros p j pr sch Hin Hf. unfold events_for in Hin |- *.
    destruct (clock_times date_obj (tm p) (proj2 (Hwf p))) as [H1 H10].
    rewrite H1, H10 in Hin |- *.
    destruct (now w <? instant date_obj (tm p) - 1 * MINUTE); [|destruct Hin].
    destruct Hin as [<-|Hin]; [discriminate Hf|].
    destruct (now w <? instant date_obj (tm p) - 10 * MINUTE); [|destruct Hin].
    destruct Hin as [<-|[]]. cbn [job_func at_time] in *.
    injection Hf as <- <-.
    split; [reflexivity|split; [reflexivity|]].
    eexists. split; [left; reflexivity|]. reflexivity. }
  split.
  - unfold all_prayers. cbn [flat_map]. rewrite !length_app. cbn [List.length].
    pose proof (Hlen Fajr). pose proof (Hlen Dhuhr). pose proof (Hlen Asr).
    pose proof (Hlen Maghrib). pose proof (Hlen Isha). lia.
  - intros j pr sch Hin Hf. apply in_flat_map in Hin as [p [_ Hin]].
    destruct (Hone p j pr sch Hin Hf) as [H1 [H2 [a [Ha Hev]]]].
    split; [exact H1|split; [exact H2|]].
    exists a. split; [|exact Hev]. apply in_flat_map. exists p. split; [|exact Ha].
    destruct p; cbn; tauto.
Qed.

(** X10.  The scheduler is told a time of day only.  So an alert whose
    instant lies more than one day ahead of the moment it is scheduled at
    (and at most two) is first run exactly one day before that instant. *)
Theorem alert_a_day_early (date_obj : Z) (prayer : Prayer) (t_str : Json)
    (hm : Z * Z) (w : World Dev) :
  parse_time_of t_str = Ok hm -> in_range hm ->
  now w + DAY < instant date_obj hm - 1 * MINUTE <= now w + 2 * DAY ->
  exists j rest,
    jobs (snd (schedule_prayer date_obj prayer t_str w)) = jobs w ++ j :: rest /\
    job_func j = PlayAzan /\
    next_run j = instant date_obj hm - 1 * MINUTE - DAY.
Proof.
  intros Hp Hr Hfar.
  destruct (schedule_prayer_run date_obj prayer t_str hm w Hp Hr)
    as [_ [_ [Hj _]]].
  unfold events_for in Hj.
  assert (Hlt : (now w <? instant date_obj hm - 1 * MINUTE) = true).
  { apply Z.ltb_lt. unfold DAY, HOUR, MINUTE, SECOND in *. lia. }
  rewrite Hlt in Hj. eexists. eexists. split; [exact Hj|].
  split; [reflexivity|]. cbn [next_run].
  apply next_occurrence_early; [|exact Hfar].
  destruct hm as [h m]. destruct Hr as [Hh Hm]. cbn [fst snd] in Hh, Hm.
  unfold instant, DAY, HOUR, MINUTE, SECOND. cbn [fst snd].
  Z.div_mod_to_equations. lia.
Qed.

Lemma printing_refl (w : World Dev) : printing w w.
Proof. repeat split; auto. Qed.

Lemma printing_trans (a b c : World Dev) :
  printing a b -> printing b c -> printing a c.
Proof.
  intros [H1 [H2 H3]] [H4 [H5 H6]]. repeat split; try congruence.
  intros e Hin. destruct (H6 e Hin) as [H|H]; auto.
Qed.

Lemma printing_emit (w : World Dev) (e : Event) :
  (exists m, e = EPrint m) ->
  printing w (mkWorld (now w) (jobs w) (dev w) (out w ++ [e])).
Proof.
  intros He. repeat split. cbn [out]. intros e' Hin.
  apply in_app_or in Hin as [Hin|[<-|[]]]; auto.
Qed.

Lemma printing_jobs (w : World Dev) (js : list Job) :
  printing w (mkWorld (now w) js (dev w) (out w)).
Proof. repeat split; auto. Qed.

(** X11.  Whatever their inputs, well formed or not, and whether they
    return or raise, [schedule_daily_prayers] and [schedule_test_time]
    only print and register jobs: no time passes, no device is called, no
    request is sent, no job is run. *)
Theorem building_only_prints (date_obj : Z) (prayer_times : PrayerTimes)
    (test_time_str : string) (w : World Dev) :
  printing w (snd (schedule_daily_prayers date_obj prayer_times w)) /\
  printing w (snd (schedule_test_time date_obj test_time_str w)).
Proof.
  split.
  - apply preserves_schedule_daily_prayers
      with (ok := fun e => exists m, e = EPrint m).
    + apply printing_refl.
    + apply printing_trans.
    + apply printing_emit.
    + apply printing_jobs.
    + intros m _. eauto.
    + eauto.
  - apply preserves_schedule_test_time
      with (ok := fun e => exists m, e = EPrint m).
    + apply printing_refl.
    + apply printing_trans.
    + apply printing_emit.
    + apply printing_jobs.
    + intros m _. eauto.
Qed.

End Building.

Lemma schedule_prayer_clock_times_witness :
  map job_event
    (skipn (List.length (jobs (boot (at_clock (-1) 20 0 0))))
       (jobs (snd (schedule_prayer 0 Fajr (JStr "00:05")
                     (boot (at_clock (-1) 20 0 0)))))) =
  (minute_before (0, 5), PlayAzan) ::
  (if now (boot (at_clock (-1) 20 0 0)) <? instant 0 (0, 5) - 10 * MINUTE
   then [(ten_before (0, 5), ReminderClosure Fajr (minute_before (0, 5)))]
   else []) /\
  in_range (minute_before (0, 5)) /\ in_range (ten_before (0, 5)).
Proof.
  apply (schedule_prayer_clock_times 0 Fajr (JStr "00:05") (0, 5)
           (boot (at_clock (-1) 20 0 0))).
  - reflexivity.
  - unfold in_range. simpl. lia.
  - vm_compute. reflexivity.
Defined.

Example midnight_wrap :
  map job_event (jobs (snd (schedule_prayer 0 Fajr (JStr "00:05")
                              (boot (at_clock (-1) 20 0 0))))) =
  [((0, 4), PlayAzan); ((23, 55), ReminderClosure Fajr (0, 4))].
Proof. vm_compute. reflexivity. Qed.

Lemma reminders_have_alerts_witness :
  exists added,
    jobs (snd (schedule_daily_prayers 0 scenario_times (boot (at_clock 0 4 0 0))))
      = jobs (boot (at_clock 0 4 0 0)) ++ added /\
    (List.length added <= 10)%nat /\
    forall j pr sch, In j added -> job_func j = ReminderClosure pr sch ->
      sch = minute_before (scenario_tm pr) /\
      at_time j = ten_before (scenario_tm pr) /\
      exists a, In a added /\ job_event a = (sch, PlayAzan).
Proof.
  exact (reminders_have_alerts 0 scenario_times scenario_tm
           (boot (at_clock 0 4 0 0)) scenario_accepted).
Defined.

Lemma alert_a_day_early_witness :
  exists j rest,
    jobs (snd (schedule_prayer 1 Isha (JStr "21:22") (boot (at_clock 0 21 20 30))))
      = jobs (boot (at_clock 0 21 20 30)) ++ j :: rest /\
    job_func j = PlayAzan /\
    next_run j = instant 1 (21, 22) - 1 * MINUTE - DAY.
Proof.
  apply (alert_a_day_early 1 Isha (JStr "21:22") (21, 22)
           (boot (at_clock 0 21 20 30))).
  - reflexivity.
  - unfold in_range. simpl. lia.
  - vm_compute. split; [reflexivity|discriminate].
Defined.

(** ** The inner loop with nothing to run *)

Section IdleWait.

Context {Dev : Type} (env : Env Dev) (cfg : Config).

Lemma run_pending_empty (w : World Dev) :
  jobs w = [] -> Schedule.run_pending (call env cfg) w = (Ok tt, w).
Proof.
  intros H. unfold Schedule.run_pending, bind, datetime_now, Schedule.get_jobs.
  rewrite H. reflexivity.
Qed.

Lemma polls_step (dt_isha t : Z) :
  t <= dt_isha -> polls dt_isha t = polls dt_isha (t + 30 * SECOND) + 1 /\
                  0 <= polls dt_isha (t + 30 * SECOND).
Proof.
  intros H. unfold polls, SECOND.
  destruct (Z.ltb_spec dt_isha t); [lia|].
  destruct (Z.ltb_spec dt_isha (t + 30 * 1000000));
    split; Z.div_mod_to_equations; lia.
Qed.

Lemma wait_isha_step (fuel : nat) (dt_isha : Z) (w : World Dev) :
  wait_isha env cfg (S fuel) dt_isha w =
  if dt_isha <? now w then print MIshaPassed w
  else (Schedule.run_pending (call env cfg) ;; sleep 30 ;;
        wait_isha env cfg fuel dt_isha) w.
Proof.
  cbn [wait_isha]. unfold bind at 1. unfold datetime_now at 1.
  destruct (dt_isha <? now w); reflexivity.
Qed.

Lemma idle_wait_run (dt_isha : Z) (n : nat) :
  forall w, jobs w = [] ->
    dt_isha - now w < Z.of_nat n * (30 * SECOND) ->
    wait_isha env cfg (S n) dt_isha w =
    (Ok tt,
     mkWorld (now w + polls dt_isha (now w) * (30 * SECOND)) [] (dev w)
       (out w ++ repeat (ESleep 30) (Z.to_nat (polls dt_isha (now w))) ++
        [EPrint MIshaPassed])).
Proof.
  assert (Hpassed : forall w : World Dev, jobs w = [] -> (dt_isha <? now w) = true ->
            print MIshaPassed w =
            (Ok tt,
             mkWorld (now w + polls dt_isha (now w) * (30 * SECOND)) [] (dev w)
               (out w ++ repeat (ESleep 30) (Z.to_nat (polls dt_isha (now w))) ++
                [EPrint MIshaPassed]))).
  { intros w Hj H. unfold polls. rewrite H. unfold print, emit.
    cbn [Z.to_nat repeat app]. rewrite Z.mul_0_l, Z.add_0_r, Hj. reflexivity. }
  induction n as [|n IH]; intros w Hj Hn; rewrite wait_isha_step.
  - assert (H : (dt_isha <? now w) = true) by (apply Z.ltb_lt; lia).
    rewrite H. exact (Hpassed w Hj H).
  - destruct (dt_isha <? now w) eqn:E; [exact (Hpassed w Hj E)|].
    apply Z.ltb_ge in E.
    rewrite (bind_ok _ _ _ _ _ (run_pending_empty w Hj)).
    rewrite (bind_ok (sleep 30) _ w
               (mkWorld (now w + 30 * SECOND) (jobs w) (dev w)
                        (out w ++ [ESleep 30])) tt eq_refl).
    rewrite IH; cbn [now jobs dev out]; [|exact Hj|unfold SECOND in *; lia].
    destruct (polls_step dt_isha (now w) E) as [Hp Hpos].
    rewrite Hp. f_equal. f_equal.
    + unfold SECOND. lia.
    + rewrite Z2Nat.inj_add by lia. rewrite Nat.add_comm.
      change (Z.to_nat 1) with 1%nat. cbn [Nat.add repeat].
      rewrite <- app_assoc. reflexivity.
Qed.

(** X12.  With an empty job store the inner loop of [main_loop] only
    sleeps, half a minute at a time, and leaves at its first look at the
    clock after Isha: it returns with the store still empty and the
    devices untouched, having slept [polls] times 30 seconds and printed
    one line, strictly after Isha and, unless it started later, no more
    than 30 seconds after it. *)
Theorem idle_wait (dt_isha : Z) (n : nat) (w : World Dev) :
  jobs w = [] ->
  dt_isha - now w < Z.of_nat n * (30 * SECOND) ->
  let w' := snd (wait_isha env cfg (S n) dt_isha w) in
  fst (wait_isha env cfg (S n) dt_isha w) = Ok tt /\
  jobs w' = [] /\ dev w' = dev w /\
  out w' = out w ++ repeat (ESleep 30) (Z.to_nat (polls dt_isha (now w))) ++
           [EPrint MIshaPassed] /\
  now w' = now w + polls dt_isha (now w) * (30 * SECOND) /\
  dt_isha < now w' /\
  (now w <= dt_isha -> now w' <= dt_isha + 30 * SECOND).
Proof.
  intros Hj Hn w'. unfold w'. rewrite (idle_wait_run dt_isha n w Hj Hn).
  cbn [fst snd now jobs dev out]. repeat split.
  - unfold polls, SECOND. destruct (Z.ltb_spec dt_isha (now w));
      Z.div_mod_to_equations; lia.
  - intros Hle. unfold polls, SECOND. destruct (Z.ltb_spec dt_isha (now w));
      Z.div_mod_to_equations; lia.
Qed.

(** X13.  The date cursor of [main_loop] never goes back and moves by at
    most one day per pass: after [n] passes that all came back it lies
    between the date it started from and [n] days later. *)
Theorem date_cursor_bounds (n fuel : nat) (city country : string) (method : Z) :
  forall d w d' w',
    cycles env cfg n fuel city country method d w = (Ok d', w') ->
    d <= d' <= d + Z.of_nat n.
Proof.
  induction n as [|n IH]; intros d w d' w'; cbn [cycles].
  - intros H. injection H as <- _. lia.
  - intros H. apply bind_inv in H as [d1 [w1 [Hc H]]].
    apply IH in H.
    destruct (cycle_outcome _ _ _ _ _ _ _ _ _ _ Hc) as [[-> _]|[-> _]]; lia.
Qed.

End IdleWait.

Lemma idle_wait_witness :
  let w := boot (at_clock 0 21 19 10) in
  let w' := snd (wait_isha home_env user_config (S 10) (at_clock 0 21 20 0) w) in
  fst (wait_isha home_env user_config (S 10) (at_clock 0 21 20 0) w) = Ok tt /\
  jobs w' = [] /\ dev w' = dev w /\
  out w' = out w ++
           repeat (ESleep 30) (Z.to_nat (polls (at_clock 0 21 20 0) (now w))) ++
           [EPrint MIshaPassed] /\
  now w' = now w + polls (at_clock 0 21 20 0) (now w) * (30 * SECOND) /\
  at_clock 0 21 20 0 < now w' /\
  (now w <= at_clock 0 21 20 0 -> now w' <= at_clock 0 21 20 0 + 30 * SECOND).
Proof.
  apply (idle_wait home_env user_config (at_clock 0 21 20 0) 10
           (boot (at_clock 0 21 19 10))).
  - reflexivity.
  - vm_compute. reflexivity.
Defined.

Lemma date_cursor_bounds_witness :
  0 <= 1 <= 0 + Z.of_nat 1.
Proof.
  exact (date_cursor_bounds home_env user_config 1 100 "Madrid" "Spain" 3
           0 (boot (at_clock 0 21 0 0)) 1
           (snd (cycles home_env user_config 1 100 "Madrid" "Spain" 3 0
                   (boot (at_clock 0 21 0 0))))
           ltac:(vm_compute; reflexivity)).
Defined.

(** ** What the fetch and the builders raise *)

Section Raising.

Context {Dev : Type} (env : Env Dev).

(** X14.  [get_prayer_times_for_date] lets three failures out as
    exceptions: whatever [requests.get] raises; [JSONDecodeError] when the
    status is 200 and the body is not JSON; and [KeyError] when the
    timings object lacks one of the five prayer keys.  In each case the
    one request has been sent and no further line is printed. *)
Theorem fetch_raises (date_obj : Z) (city country : string) (method : Z)
    (w : World Dev) :
  let q := {| q_date := date_obj; q_city := city; q_country := country;
              q_method := method |} in
  let sent := mkWorld (now w) (jobs w) (dev w)
                (out w ++ [EPrint (MFetching date_obj); EGet q]) in
  (forall e, requests_get env q (now w) = HttpRaises e ->
     get_prayer_times_for_date env date_obj city country method w = (Raise e, sent)) /\
  (requests_get env q (now w) = HttpResponse 200 None ->
     get_prayer_times_for_date env date_obj city country method w
       = (Raise JSONDecodeError, sent)) /\
  (forall top data timings key,
     requests_get env q (now w) = HttpResponse 200 (Some (JObj top)) ->
     Py.dict_get "data" top = Some (JObj data) ->
     Py.dict_get "timings" data = Some (JObj timings) ->
     In key ["Fajr"; "Dhuhr"; "Asr"; "Maghrib"; "Isha"] ->
     Py.dict_get key timings = None ->
     get_prayer_times_for_date env date_obj city country method w
       = (Raise KeyError, sent)).
Proof.
  intros q sent. unfold sent. split; [|split].
  - intros e Hget.
    unfold get_prayer_times_for_date, http_get, bind, print, emit, datetime_now,
      raise.
    cbn [now jobs dev out]. fold q. rewrite Hget. rewrite <- app_assoc.
    reflexivity.
  - intros Hget.
    unfold get_prayer_times_for_date, http_get, resp_json, bind, print, emit,
      datetime_now, raise, ret.
    cbn [now jobs dev out]. fold q. rewrite Hget. cbn [fst snd Z.eqb Pos.eqb].
    rewrite <- app_assoc. reflexivity.
  - intros top data timings key Hget Hdata Htimings Hkey Hmiss.
    unfold get_prayer_times_for_date, http_get, resp_json, bind, lift, print,
      emit, datetime_now, ret.
    cbn [now jobs dev out]. fold q. rewrite Hget. cbn [fst snd Z.eqb Pos.eqb].
    cbn [Py.contains Py.getitem]. rewrite (dict_get_some _ _ _ Hdata), Hdata.
    cbn [Py.contains Py.getitem]. rewrite (dict_get_some _ _ _ Htimings), Htimings.
    cbn [Py.getitem]. rewrite <- app_assoc. cbn [app].
    cbn [In] in Hkey.
    destruct (Py.dict_get "Fajr" timings) eqn:EF;
      [|reflexivity].
    destruct (Py.dict_get "Dhuhr" timings) eqn:ED; [|reflexivity].
    destruct (Py.dict_get "Asr" timings) eqn:EA; [|reflexivity].
    destruct (Py.dict_get "Maghrib" timings) eqn:EM; [|reflexivity].
    destruct (Py.dict_get "Isha" timings) eqn:EI; [|reflexivity].
    destruct Hkey as [<-|[<-|[<-|[<-|[<-|[]]]]]]; congruence.
Qed.

(** X15.  A time that parses to a pair outside 00..23 and 00..59 (such as
    "24:00" or "12:60") is caught by neither builder: the turn of
    [schedule_daily_prayers] for it raises the error of the [datetime]
    constructor having changed nothing, and [schedule_test_time] raises it
    after its first console line, outside its own handler, registering no
    job.  The error is [ValueError], or [OverflowError] when the hour or
    the minute does not fit a C [int]. *)
Theorem out_of_range_time_raises (date_obj : Z) (prayer : Prayer) (s : string)
    (hh mm : Z) (w : World Dev) :
  parse_time s = Ok (hh, mm) ->
  ~ in_range (hh, mm) ->
  let e := if fits_c_int hh && fits_c_int mm then ValueError else OverflowError in
  schedule_prayer date_obj prayer (JStr s) w = (Raise e, w) /\
  schedule_test_time date_obj s w =
  (Raise e,
   mkWorld (now w) (jobs w) (dev w) (out w ++ [EPrint (MTestCheck s)])).
Proof.
  intros Hp Hr e.
  pose proof (mk_datetime_out date_obj hh mm Hr) as Hdt. fold e in Hdt.
  split.
  - unfold schedule_prayer, bind, lift. cbn [parse_time_of]. rewrite Hp.
    cbn [fst snd]. rewrite Hdt. reflexivity.
  - unfold schedule_test_time.
    assert (Hne : PyStr.is_empty s = false)
      by (destruct s; [discriminate Hp|reflexivity]).
    rewrite Hne. unfold bind, try_except, lift, print, emit, ret. rewrite Hp.
    cbv beta iota. rewrite Hdt. reflexivity.
Qed.

End Raising.

Lemma out_of_range_time_raises_witness :
  (schedule_prayer 0 Isha (JStr "24:00") (boot 0) = (Raise ValueError, boot 0) /\
   schedule_test_time 0 "24:00" (boot 0) =
   (Raise ValueError,
    mkWorld (now (boot 0)) (jobs (boot 0)) (dev (boot 0))
            (out (boot 0) ++ [EPrint (MTestCheck "24:00")]))) /\
  (schedule_prayer 0 Isha (JStr "12:4294967296") (boot 0)
     = (Raise OverflowError, boot 0) /\
   schedule_test_time 0 "12:4294967296" (boot 0) =
   (Raise OverflowError,
    mkWorld (now (boot 0)) (jobs (boot 0)) (dev (boot 0))
            (out (boot 0) ++ [EPrint (MTestCheck "12:4294967296")]))).
Proof.
  split.
  - apply (out_of_range_time_raises 0 Isha "24:00" 24 0 (boot 0)).
    + reflexivity.
    + unfold in_range. simpl. lia.
  - apply (out_of_range_time_raises 0 Isha "12:4294967296" 12 4294967296 (boot 0)).
    + reflexivity.
    + unfold in_range. simpl. lia.
Defined.

Lemma fetch_raises_witness :
  get_prayer_times_for_date partial_env 7 "Madrid" "Spain" 3 (boot 0) =
  (Raise KeyError,
   mkWorld (now (boot 0)) (jobs (boot 0)) (dev (boot 0))
     (out (boot 0) ++
      [EPrint (MFetching 7);
       EGet {| q_date := 7; q_city := "Madrid"; q_country := "Spain";
               q_method := 3 |}])).
Proof.
  apply (proj2 (proj2 (fetch_raises partial_env 7 "Madrid" "Spain" 3 (boot 0)))
           _ _ _ "Isha" eq_refl eq_refl eq_refl).
  - cbn. tauto.
  - reflexivity.
Defined.
